(* ===== verification/_CoqProject ===== *)
-Q . S2P
Prelude.v
CLib.v
Tcl.v
Stubs.v
Zvfs.v
AppInit.v
Sequencer.v
Aqua.v
Process.v
LatchBound.v
Progress.v
Mounts.v
AllBuilds.v
Runs.v
