(* ===== verification/Prelude.v ===== *)
(** * Verification of [Modules/tkappinit.c]: self-archive detection and Tcl/Tk start-up

    The program is the C file [src/Modules/tkappinit.c] of this CPython
    fork.  It has two functions:

    - [setup_zvfs] (lines 32-70): opens the running executable
      ([Tcl_GetNameOfExecutable]), seeks to 22 bytes before its end, reads
      4 bytes and compares them with the zip end-of-central-directory
      signature ["PK\x05\x06"].  On a match it initialises and mounts the
      zvfs driver on ["/zvfs"] and points [env(TCL_LIBRARY)] and
      [tcl_library] at ["/zvfs/tcl8.6"].  It returns 1 on a match, 0 otherwise.
    - [Tcl_AppInit] (lines 72-220): per interpreter, calls [setup_zvfs],
      [Tcl_Init], honours the [_tkinter_skip_tk_init] flag, the
      process-wide [tk_load_failed] latch and the per-interpreter
      [_tkinter_tk_failed] flag (under [TKINTER_PROTECT_LOADTK]), points
      [env(TK_LIBRARY)]/[tk_library] at ["/zvfs/tk8.6"] when zvfs was
      mounted, calls [Tk_Init], latches a failure, and runs the
      post-initialisation hooks (macOS bundle paths under [TK_AQUA],
      [TkImaging_Init], [Tcl_StaticPackage] for Tix, BLT, Togl).

    ** Library layout (file, what it models)

    - [Prelude]   (this file): the fault/state monad [CM] used for every
      stateful C function (hooked into stdpp's [MRet]/[MBind], so the code
      reads [x ← f; k]), its laws, the frame predicate [preserved R m]
      (every step of [m] is related by the preorder [R]), a weakest
      precondition [wp m Q F] with its rules, the [tkinit] hint database
      and tactics.
    - [CLib]      : the C library calls the code makes: bytes ([Byte.byte]),
      [memcmp] over [unsigned char], [strcmp] on NUL-terminated strings,
      and a [FILE] stream with [fopen]/[fseek]/[fread]/[fclose] over an
      in-memory file system.  Modelled from the C standard, not from src/.
    - [Tcl]       : the state the code touches: an interpreter (global
      scalars, arrays, result), the process (executable name, files,
      environment, library path, static package list, state private to
      external libraries), the file-local static [tk_load_failed] and a
      ghost log of external calls.  Tcl's own API calls the code uses
      ([Tcl_SetVar], [Tcl_SetVar2] on [env], [Tcl_GetVar], [Tcl_SetResult],
      [Tcl_StaticPackage], [TclSetLibraryPath]) are written out; the
      external engines ([Tcl_Init], [Tk_Init], [Zvfs_Init], [Zvfs_Mount],
      [Tk_MainWindow], the macOS hooks, [TkImaging_Init]) form the
      typeclass [TclRuntime]: every general theorem holds for every
      instance.  Each engine call appends an event to the ghost log, which
      is how the ordering theorems observe what an engine saw.
    - [Stubs]     : concrete [TclRuntime] instances (engines that succeed or
      fail on demand) and concrete executables (a plain image, one with a
      zip appended); they let every theorem with hypotheses be run on a
      concrete process by [vm_compute].  Not part of the program.
    - [Zvfs]      : [setup_zvfs] (ArchiveDetector + VFSMounter + the Tcl
      half of LibraryPathResolver), the abstract detector [zip_detect] of
      the spec, and the refinement theorem relating them.
    - [AppInit]   : [Tcl_AppInit] under a build configuration record
      (the [#ifdef]s), split as the code is into its regions
      ([aqua_tcl_library], [tk_phase], [record_tk_failure],
      [post_tk_init], ...); its functional behaviour on every branch.
    - [Sequencer] : the spec's InitSequencer state machine written
      abstractly (phases, outcomes and error kinds as a function
      [sequence] of what the engines and flags answer), the contract
      [sequencer_contract] a run must satisfy, and the refinement theorem
      for [Tcl_AppInit].  Not a model of code: the specification the code
      is checked against.
    - [Aqua]      : the macOS ([TK_AQUA]) blocks against references: the
      duplicated Tcl-library block against one copy, the library-path list
      it builds against the two bundle paths, and the split of a bundle
      path with a space; and [Tcl_AppInit_returns],
      the termination of [Tcl_AppInit] on every build.
    - [Process]   : many interpreters created one after another in one
      process (shared environment and latch): a step relation, the latch
      invariants by rule induction.
    - [LatchBound]: the process-wide bound the latch exists for: at most
      one failed [Tk_Init] per process, proved from a per-run bound that
      composes the frames of [Tcl_AppInit]'s first regions with the
      Tk-phase refinement of [Sequencer].
    - [Progress]  : the completion codes [Tcl_AppInit] returns, and the
      liveness of the process driver under the interface
      [RuntimeKeepsExe] (what the engines promise: they leave the
      executable name alone; the stub engines are instances).
    - [Mounts]    : the archive across the interpreters of a process:
      under the interface [RuntimeKeepsFiles] (the engines leave the file
      system alone), every [Tcl_Init] of a zipped process, in every
      interpreter and on every build, sees the archive's library path;
      without an archive the code leaves the engines' state alone; and
      the 22-byte boundary of the detector.
    - [AllBuilds] : the InitSequencer refinement on every build: the two
      Aqua bundle blocks are [quiet] stretches (latch, [_tkinter_*] flags
      and sequencer calls untouched) under the interface
      [BundleKeepsFlags], so the contract holds on Aqua builds too.
    - [Runs]      : whole runs of [Tcl_AppInit] split at their [Tcl_Init]
      call ([Tcl_AppInit_split_at]): theorems that assume only what that
      call answered and left, on every build.

    ** Theorem groups
    - Refinement: [setup_zvfs] returns 1 exactly when [zip_detect] holds
      of the executable's bytes and then leaves the mounted world
      [zvfs_mounted_world]; otherwise it changes nothing (C1).  Every run
      of [Tcl_AppInit] follows the InitSequencer: engine calls, return
      code, latch and message as the abstract machine prescribes (C2); on
      every build, Aqua included, when the engines keep the executable
      image and the bundle lookup keeps the flags (C29).
    - Latch: once [tk_load_failed] is 1 it stays 1 in every reachable
      process state and [Tk_Init] is never called again (C3, C7); a
      protected process makes at most one failed [Tk_Init] and its latch
      is always 0 or 1 (C4); the fail-fast and failure-recording branches
      of protected builds (C5, C6), and the retries of unprotected ones
      (C22).
    - Termination and progress: [Tcl_AppInit] returns on every build when
      the executable name is recorded and an Aqua build finds its Tcl
      bundle (C9); a process whose engines keep that name creates every
      interpreter it is asked for (C10).
    - Type: [Tcl_AppInit] only ever returns [TCL_OK] or [TCL_ERROR] (C11).
    - Ordering: the zvfs paths are in place when [Tcl_Init] (non-Aqua
      builds) and [Tk_Init] run, read off the ghost log (C12, C13);
      lifted to whole processes on every build, every [Tcl_Init] of a
      zipped process sees the archive's Tcl directory in
      [env(TCL_LIBRARY)] and [tcl_library], also when the mount fails
      (C27); without an archive on a non-Aqua build the code writes
      nothing the engines read: each engine initialiser sees exactly the
      state the previous one left (C30).
    - Branches and error paths: of [tk_phase] (C8, C16); of whole runs,
      stated on what the run's own [Tcl_Init] answered, on every build: a
      failing [Tcl_Init] ends the run on the spot (C15); of [setup_zvfs]
      (C14, C17, C18); the boundary input of the detector, an executable
      of exactly 22 bytes (C28).
    - Round trip and equivalence on the Aqua blocks: a one-word bundle
      path reads back from the library path (C20); the duplicated block
      equals one copy (C21).
    - Findings, each for every input of its kind: the uninitialised
      [pathPtr] of the Aqua branch (C19); Aqua paths set even when Tk is
      skipped (C24); a bundle path with a space split into two list
      elements (C25); archives with a 1- to 3-byte comment never detected
      (C23); any [Tk_Init] answer but [TCL_ERROR], [TCL_RETURN] included,
      taken as success (C26).

    ** Bounds and fuel
    Nothing is bounded by fuel: every function of the file is
    straight-line code.  [setup_zvfs] returns (rather than failing its
    [assert]) whenever the executable name was recorded
    ([setup_zvfs_returns]).
    Return codes are C [int]s held as [Z]; the code only compares them
    with [TCL_OK]/[TCL_ERROR], so no overflow can arise.  [fseek] offsets
    are bounded by the file length, the only arithmetic the code does.

    ** Not modelled
    The bodies of Tcl, Tk and the zvfs driver (external; they are the
    [TclRuntime] oracles), real I/O errors of [fread] (the file contents are
    given), concurrency (the code is single-threaded), the [MAX_PATH_LEN]
    buffer bound of the Aqua branch beyond its declaration.  What the spec
    asks of those engines (a mount that can be repeated, Tcl's
    de-duplication of static packages) is theirs, not this file's: the
    model only assumes the engines are functions of the state they see. *)

From Stdlib Require Import ZArith.
From stdpp Require Export base list gmap strings.

(** Ways a C program stops without returning: a failed [assert] or an
    operation whose behaviour the C standard leaves undefined. *)
Inductive fault :=
| AssertionFailed (what : string)
| UndefinedBehaviour (what : string).

(** Result of running a computation: a return value with the final state,
    or a fault with the state reached. *)
Inductive cres (W A : Type) :=
| CRet (w : W) (a : A)
| CFault (f : fault) (w : W).
Arguments CRet {W A} w a.
Arguments CFault {W A} f w.

Definition CM (W A : Type) : Type := W → cres W A.

#[export] Instance cm_mret W : MRet (CM W) := λ A a w, CRet w a.
#[export] Instance cm_mbind W : MBind (CM W) := λ A B k m w,
  match m w with
  | CRet w' a => k a w'
  | CFault f w' => CFault f w'
  end.

Definition cm_get {W} : CM W W := λ w, CRet w w.
Definition cm_modify {W} (f : W → W) : CM W unit := λ w, CRet (f w) tt.
Definition cm_fault {W A} (f : fault) : CM W A := λ w, CFault f w.

(** C's [if (c) s;] with no [else]. *)
Definition cm_when {W} (b : bool) (m : CM W unit) : CM W unit :=
  if b then m else mret tt.

(** The value returned, if the computation returns. *)
Definition ret_of {W A} (r : cres W A) : option A :=
  match r with CRet _ a => Some a | CFault _ _ => None end.
Definition state_of {W A} (r : cres W A) : W :=
  match r with CRet w _ => w | CFault _ w => w end.

Create HintDb tkinit discriminated.
Create Rewrite HintDb tkinit_run.

Section Laws.
Context {W : Type}.

Lemma cm_bind_run {A B} (m : CM W A) (k : A → CM W B) w :
  (m ≫= k) w = match m w with CRet w' a => k a w' | CFault f w' => CFault f w' end.
Proof. reflexivity. Qed.

Lemma cm_ret_bind {A B} (a : A) (k : A → CM W B) w : (mret a ≫= k) w = k a w.
Proof. reflexivity. Qed.

Lemma cm_bind_ret {A} (m : CM W A) w : (m ≫= mret) w = m w.
Proof. rewrite cm_bind_run. by destruct (m w). Qed.

Lemma cm_bind_assoc {A B C} (m : CM W A) (k : A → CM W B) (h : B → CM W C) w :
  ((m ≫= k) ≫= h) w = (m ≫= λ a, k a ≫= h) w.
Proof. rewrite !cm_bind_run. by destruct (m w). Qed.

Lemma cm_bind_ok {A B} (m : CM W A) (k : A → CM W B) w w' a :
  m w = CRet w' a → (m ≫= k) w = k a w'.
Proof. intros H. by rewrite cm_bind_run, H. Qed.

Lemma cm_bind_fault {A B} (m : CM W A) (k : A → CM W B) w w' f :
  m w = CFault f w' → (m ≫= k) w = CFault f w'.
Proof. intros H. by rewrite cm_bind_run, H. Qed.

(** A sequence that returned: both halves returned. *)
Lemma cm_bind_ret_inv {A B} (m : CM W A) (k : A → CM W B) w w'' b :
  (m ≫= k) w = CRet w'' b → ∃ w' a, m w = CRet w' a ∧ k a w' = CRet w'' b.
Proof. rewrite cm_bind_run. destruct (m w) as [w' a|]; [eauto | done]. Qed.
End Laws.

#[export] Hint Rewrite @cm_ret_bind @cm_bind_assoc : tkinit_run.

(** Unfold the monad plumbing so that [simpl]/[cbn] can run a computation
    on a symbolic state. *)
Ltac cm_unfold :=
  unfold mbind, mret, cm_mbind, cm_mret, cm_get, cm_modify, cm_fault, cm_when in *.

(** Step through [m ≫= k] when the first computation's result is known by
    a hypothesis. *)
Ltac cm_step H := first [erewrite cm_bind_ok by exact H | erewrite cm_bind_fault by exact H].

(** ** Frame properties

    [preserved R m]: whatever [m] does, the state it ends in (returning or
    faulting) is related to the state it started in.  Used with [R] a
    preorder: "the latch and the Tk_Init count are unchanged" and "the log
    only grows". *)
Section Preserved.
Context {W : Type} (R : relation W) `{!PreOrder R}.

Definition preserved {A} (m : CM W A) : Prop := ∀ w, R w (state_of (m w)).

Lemma preserved_ret {A} (a : A) : preserved (mret a).
Proof. intros w. simpl. reflexivity. Qed.

Lemma preserved_get : preserved cm_get.
Proof. intros w. simpl. reflexivity. Qed.

Lemma preserved_fault {A} (f : fault) : preserved (cm_fault (A:=A) f).
Proof. intros w. simpl. reflexivity. Qed.

Lemma preserved_bind {A B} (m : CM W A) (k : A → CM W B) :
  preserved m → (∀ a, preserved (k a)) → preserved (m ≫= k).
Proof.
  intros Hm Hk w. rewrite cm_bind_run. specialize (Hm w).
  destruct (m w) as [w1 a|f w1]; simpl in *; [|done].
  etrans; [exact Hm | apply Hk].
Qed.

Lemma preserved_when (b : bool) (m : CM W unit) : preserved m → preserved (cm_when b m).
Proof. intros Hm. destruct b; [done | apply preserved_ret]. Qed.

Lemma preserved_state {A} (m : CM W A) (w : W) : preserved m → R w (state_of (m w)).
Proof. intros Hm. apply Hm. Qed.

Lemma preserved_ret_state {A} (m : CM W A) (w w' : W) (a : A) :
  preserved m → m w = CRet w' a → R w w'.
Proof. intros Hm Hr. pose proof (Hm w) as H. by rewrite Hr in H. Qed.
End Preserved.

Lemma preserved_and {W A} (R S : relation W) (m : CM W A) :
  preserved R m → preserved S m → preserved (λ w w', R w w' ∧ S w w') m.
Proof. intros HR HS w. split; [apply HR | apply HS]. Qed.


(** ** Weakest preconditions

    [wp m Q F w]: running [m] from [w] either returns [a] in a state
    satisfying [Q a], or faults in a state satisfying [F]. *)
Section Wp.
Context {W : Type}.

Definition wp {A} (m : CM W A) (Q : A → W → Prop) (F : W → Prop) (w : W) : Prop :=
  match m w with CRet w' a => Q a w' | CFault _ w' => F w' end.

Lemma wp_ret {A} (a : A) Q F w : Q a w → wp (mret a) Q F w.
Proof. done. Qed.

Lemma wp_bind {A B} (m : CM W A) (k : A → CM W B) Q F w :
  wp m (λ a, wp (k a) Q F) F w → wp (m ≫= k) Q F w.
Proof. unfold wp. rewrite cm_bind_run. by destruct (m w). Qed.

Lemma wp_fault {A} f Q F w : F w → wp (cm_fault (A:=A) f) Q F w.
Proof. done. Qed.

Lemma wp_get Q F w : Q w w → wp cm_get Q F w.
Proof. done. Qed.

Lemma wp_when (b : bool) (m : CM W unit) Q F w :
  (if b then wp m Q F w else Q tt w) → wp (cm_when b m) Q F w.
Proof. by destruct b. Qed.

Lemma wp_eq {A} (m : CM W A) Q F w w' a : m w = CRet w' a → Q a w' → wp m Q F w.
Proof. unfold wp. by intros ->. Qed.

Lemma wp_ret_inv {A} (m : CM W A) Q F w w' a : wp m Q F w → m w = CRet w' a → Q a w'.
Proof. unfold wp. by intros H E; rewrite E in H. Qed.

Lemma wp_state {A} (m : CM W A) (P : W → Prop) w :
  wp m (λ _, P) P w → P (state_of (m w)).
Proof. unfold wp. by destruct (m w). Qed.

Lemma wp_mono {A} (m : CM W A) (Q Q' : A → W → Prop) (F F' : W → Prop) w :
  wp m Q F w → (∀ a w', Q a w' → Q' a w') → (∀ w', F w' → F' w') → wp m Q' F' w.
Proof. unfold wp. destruct (m w); auto. Qed.
End Wp.


Section WpPreserved.
Context {W : Type} (R : relation W) `{!PreOrder R}.

(** A computation that keeps [R] satisfies every postcondition that
    follows from [R]. *)
Lemma wp_preserved {A} (m : CM W A) Q F w :
  preserved R m → (∀ a w', R w w' → Q a w') → (∀ w', R w w' → F w') → wp m Q F w.
Proof. intros Hm HQ HF. specialize (Hm w). unfold wp. destruct (m w); simpl in *; auto. Qed.
End WpPreserved.

(** C integers used as truth values. *)
Definition c_true (z : Z) : bool := negb (z =? 0)%Z.

Lemma c_true_0 : c_true 0 = false.
Proof. reflexivity. Qed.
Lemma c_true_1 : c_true 1 = true.
Proof. reflexivity. Qed.
#[export] Hint Rewrite c_true_0 c_true_1 : tkinit_run.

(** Generic list facts shared by the byte-level proofs. *)
Lemma take_drop_app_exact {A} (p s r : list A) :
  take (length s) (drop (length p) (p ++ s ++ r)) = s.
Proof.
  rewrite drop_app_length. by rewrite take_app_length.
Qed.

Lemma length_filter_app {A} (P : A → Prop) `{∀ x, Decision (P x)} (l1 l2 : list A) :
  length (filter P (l1 ++ l2)) = length (filter P l1) + length (filter P l2).
Proof. by rewrite filter_app, length_app. Qed.
#[export] Hint Rewrite @length_filter_app : tkinit_run.
