(* ===== verification/CLib.v ===== *)
(** * The C library calls of [tkappinit.c]

    Bytes, [memcmp], [strcmp] and the [FILE] stream operations that
    [setup_zvfs] and [Tcl_AppInit] use, written from the C standard.
    Out-of-bounds accesses are undefined behaviour in C, so the functions
    that could make one return [option] ([None] = undefined). *)

From S2P Require Import Prelude.
From Stdlib Require Import ZArith.

Abbreviation byte := Byte.byte.
#[export] Instance byte_eq_dec : EqDecision byte := Byte.byte_eq_dec.

(** A byte read through [unsigned char], as [memcmp] compares it. *)
Definition uchar (b : byte) : Z := Z.of_N (Byte.to_N b).

(** [int memcmp(const void *s1, const void *s2, size_t n)]: the difference
    of the first differing pair of [unsigned char]s, 0 when the first [n]
    bytes agree.  Reading past either object is undefined. *)
Fixpoint memcmp (s1 s2 : list byte) (n : nat) : option Z :=
  match n, s1, s2 with
  | O, _, _ => Some 0%Z
  | S n', b1 :: s1', b2 :: s2' =>
      if decide (b1 = b2) then memcmp s1' s2' n' else Some (uchar b1 - uchar b2)%Z
  | S _, _, _ => None
  end.

(** [int strcmp(const char *s1, const char *s2)] on NUL-terminated strings;
    the end of a Rocq string plays the terminating NUL. *)
Definition char_code (c : Ascii.ascii) : Z := Z.of_N (Ascii.N_of_ascii c).

Fixpoint strcmp (s1 s2 : string) : Z :=
  match s1, s2 with
  | EmptyString, EmptyString => 0
  | EmptyString, String c2 _ => - char_code c2
  | String c1 _, EmptyString => char_code c1
  | String c1 s1', String c2 s2' =>
      if decide (c1 = c2) then
        (if decide (c1 = Ascii.zero) then 0 else strcmp s1' s2')
      else (char_code c1 - char_code c2)%Z
  end.

(** A string holding no NUL: the value of every C string handed out by Tcl
    (Tcl encodes an embedded NUL as the two bytes C0 80). *)
Fixpoint no_nul (s : string) : bool :=
  match s with
  | EmptyString => true
  | String c s' => negb (bool_decide (c = Ascii.zero)) && no_nul s'
  end.

(** ** Streams *)

(** An open [FILE *] read in binary mode: the file's bytes and the current
    position.  A file the process cannot open is absent from the file
    system map. *)
Record FILE := mkFILE { f_data : list byte; f_pos : Z }.

Definition SEEK_SET : Z := 0.
Definition SEEK_CUR : Z := 1.
Definition SEEK_END : Z := 2.

(** [FILE *fopen(const char *path, const char *mode)] over a file system
    mapping paths to contents; [NULL] when the file cannot be opened. *)
Definition fopen (fs : gmap string (list byte)) (path mode : string) : option FILE :=
  (λ d, mkFILE d 0) <$> fs !! path.

(** [int fseek(FILE *fp, long offset, int whence)]: 0 on success; -1 when
    the target position would be negative or [whence] is invalid (EINVAL),
    leaving the position unchanged. *)
Definition fseek (fp : FILE) (offset whence : Z) : FILE * Z :=
  let base :=
    if (whence =? SEEK_SET)%Z then Some 0%Z
    else if (whence =? SEEK_CUR)%Z then Some (f_pos fp)
    else if (whence =? SEEK_END)%Z then Some (Z.of_nat (length (f_data fp)))
    else None in
  match base with
  | None => (fp, (-1)%Z)
  | Some b =>
      if (b + offset <? 0)%Z then (fp, (-1)%Z)
      else (mkFILE (f_data fp) (b + offset), 0%Z)
  end.

(** [size_t fread(void *buf, size_t size, size_t nmemb, FILE *fp)]: copies
    up to [size * nmemb] bytes from the current position into the front
    of [buf] (a short read leaves the rest of [buf] as it was), advances
    the position, returns the number of whole items read.  Writing past
    the end of [buf] is undefined. *)
Definition fread (buf : list byte) (size nmemb : nat) (fp : FILE)
    : option (list byte * nat * FILE) :=
  if decide (length buf < size * nmemb) then None else
  let avail := drop (Z.to_nat (f_pos fp)) (f_data fp) in
  let got := take (size * nmemb) avail in
  Some (got ++ drop (length got) buf,
        (if decide (size = 0) then 0 else length got / size),
        mkFILE (f_data fp) (f_pos fp + Z.of_nat (length got))).

(** [int fclose(FILE *fp)] on a read-only stream: always 0. *)
Definition fclose (fp : FILE) : Z := 0.

(** ** Lemmas *)

Lemma uchar_inj (b1 b2 : byte) : uchar b1 = uchar b2 → b1 = b2.
Proof.
  unfold uchar. intros H. apply N2Z.inj in H.
  pose proof (Byte.of_to_N b1) as E1. pose proof (Byte.of_to_N b2) as E2.
  rewrite H in E1. congruence.
Qed.

Lemma uchar_range (b : byte) : (0 ≤ uchar b < 256)%Z.
Proof. unfold uchar. pose proof (Byte.to_N_bounded b). lia. Qed.

Lemma memcmp_zero_iff (s1 s2 : list byte) (n : nat) :
  n ≤ length s1 → n ≤ length s2 →
  memcmp s1 s2 n = Some 0%Z ↔ take n s1 = take n s2.
Proof.
  revert s1 s2. induction n as [|n IH]; intros [|b1 s1] [|b2 s2]; simpl;
    intros H1 H2; try done; try lia.
  case_decide as Hb.
  - subst. rewrite IH by lia. split; [by intros -> | intros Heq; by simplify_eq].
  - split; intros Heq; [|by simplify_eq].
    exfalso. apply Hb, uchar_inj. injection Heq. lia.
Qed.

(** Within bounds [memcmp] is defined. *)
Lemma memcmp_defined (s1 s2 : list byte) (n : nat) :
  n ≤ length s1 → n ≤ length s2 → is_Some (memcmp s1 s2 n).
Proof.
  revert s1 s2. induction n as [|n IH]; intros [|b1 s1] [|b2 s2]; simpl;
    intros H1 H2; try done; try lia.
  case_decide; [apply IH; lia | done].
Qed.

Lemma char_code_inj (c1 c2 : Ascii.ascii) : char_code c1 = char_code c2 → c1 = c2.
Proof.
  unfold char_code. intros H. apply N2Z.inj in H.
  rewrite <- (Ascii.ascii_N_embedding c1), <- (Ascii.ascii_N_embedding c2). by rewrite H.
Qed.

Lemma char_code_zero (c : Ascii.ascii) : char_code c = 0%Z → c = Ascii.zero.
Proof. intros H. by apply char_code_inj. Qed.

(** On NUL-free strings, [strcmp] returns 0 exactly on equal strings. *)
Lemma strcmp_eq_iff (s t : string) :
  no_nul s = true → no_nul t = true → strcmp s t = 0%Z ↔ s = t.
Proof.
  revert t. induction s as [|c1 s IH]; intros [|c2 t]; simpl; try done;
    rewrite ?andb_true_iff, ?negb_true_iff, ?bool_decide_eq_false.
  - intros _ [Hc _]. split; [|done]. intros H. destruct Hc. apply char_code_zero. lia.
  - intros [Hc _] _. split; [|done]. intros H. by destruct Hc; apply char_code_zero.
  - intros [Hc1 Hs] [Hc2 Ht]. case_decide as Hcc.
    + subst. rewrite decide_False by done. rewrite IH by done.
      split; [by intros -> | intros Heq; by simplify_eq].
    + split; intros Heq; [|by simplify_eq].
      exfalso. apply Hcc, char_code_inj. lia.
Qed.

(** [fseek(fp, off, SEEK_END)] succeeds exactly when [length + off >= 0]. *)
Lemma fseek_end (fp : FILE) (off : Z) :
  fseek fp off SEEK_END =
    if (Z.of_nat (length (f_data fp)) + off <? 0)%Z then (fp, (-1)%Z)
    else (mkFILE (f_data fp) (Z.of_nat (length (f_data fp)) + off), 0%Z).
Proof. reflexivity. Qed.

(** A read of one item of [n] bytes that lies inside the file fills the
    buffer with the [n] bytes at the position. *)
Lemma fread_within (buf : list byte) (n : nat) (fp : FILE) :
  0 < n → length buf = n → (0 ≤ f_pos fp)%Z →
  Z.to_nat (f_pos fp) + n ≤ length (f_data fp) →
  fread buf n 1 fp =
    Some (take n (drop (Z.to_nat (f_pos fp)) (f_data fp)), 1,
          mkFILE (f_data fp) (f_pos fp + Z.of_nat n)).
Proof.
  intros Hn Hbuf Hpos Hin. unfold fread.
  rewrite Nat.mul_1_r, decide_False by lia.
  assert (length (take n (drop (Z.to_nat (f_pos fp)) (f_data fp))) = n) as Hl.
  { rewrite length_take, length_drop. lia. }
  rewrite Hl, decide_False by lia. rewrite Nat.div_same by lia.
  rewrite <- Hbuf at 2. rewrite drop_all, app_nil_r. done.
Qed.

(** [buf[0] != '\0']: the C string in [buf] is not empty. *)
Definition c_nonempty (s : string) : bool :=
  match s with
  | EmptyString => false
  | String c _ => negb (bool_decide (c = Ascii.zero))
  end.

(** [p != NULL && strcmp(p, lit) == 0] for a [const char *p] that may be
    [NULL]. *)
Definition c_opt_streq (p : option string) (lit : string) : bool :=
  match p with
  | Some s => (strcmp s lit =? 0)%Z
  | None => false
  end.
