(* ===== verification/Tcl.v ===== *)
(** * The Tcl/Tk world [tkappinit.c] runs in

    The state the code reads and writes: one interpreter ([interp]), the
    process it lives in ([proc]), the file-local [static int tk_load_failed]
    of [tkappinit.c], and a ghost log of the calls made to external
    engines.  The Tcl API calls the file uses are written out as
    operations of the monad [TM]; the engines the file only calls
    ([Tcl_Init], [Tk_Init], the zvfs driver, [Tk_MainWindow], the macOS
    hooks, [TkImaging_Init]) are the fields of the class [TclRuntime]. *)

From S2P Require Import Prelude CLib.
From Stdlib Require Import ZArith Ascii.

Definition TCL_OK : Z := 0.
Definition TCL_ERROR : Z := 1.

(** A [Tcl_Obj] as the code handles it: a string, or a list once it has
    been converted by a list operation. *)
Inductive tcl_obj :=
| ObjString (s : string)
| ObjList (l : list string).

(** One interpreter: its global scalar variables, the elements of its
    global arrays (other than [env]) and its result string. *)
Record interp := mkInterp {
  i_globals : gmap string string;
  i_arrays : gmap (string * string) string;
  i_result : string
}.

(** The process: the executable's path as [Tcl_FindExecutable] recorded it,
    the files it can open for reading, its environment (Tcl's [env] array
    of every interpreter), Tcl's library path, the static packages
    registered with [Tcl_StaticPackage] (name, whether a SafeInit is given),
    and the state private to the external libraries. *)
Record proc := mkProc {
  p_exe : option string;
  p_files : gmap string (list byte);
  p_environ : gmap string string;
  p_library_path : tcl_obj;
  p_static : list (string * bool);
  p_private : gmap string string
}.

(** What external engines see and may change. *)
Record ext := mkExt { x_interp : interp; x_proc : proc }.

(** The external functions the file calls. *)
Inductive ext_fn :=
| FZvfs_Init | FZvfs_Mount | FTcl_Init | FTk_Init | FTk_MainWindow
| FTk_MacOSXOpenBundleResources | FTkMacOSXInitAppleEvents
| FTkMacOSXInitMenus | FTkImaging_Init.

#[export] Instance ext_fn_eq_dec : EqDecision ext_fn.
Proof. solve_decision. Defined.

(** A logged call: the function, its string arguments, and the state
    the callee saw. *)
Record event := Ev { ev_fn : ext_fn; ev_args : list (option string); ev_at : ext }.

(** The whole state: what externals see, the file's static
    [tk_load_failed] (no other file can reach it), and the ghost log. *)
Record world := mkWorld {
  w_ext : ext;
  tk_load_failed : Z;
  w_log : list event
}.

Abbreviation TM := (CM world).

(** ** State accessors and updaters *)

Definition w_interp (w : world) : interp := x_interp (w_ext w).
Definition w_proc (w : world) : proc := x_proc (w_ext w).

Definition upd_interp (f : interp → interp) (w : world) : world :=
  mkWorld (mkExt (f (w_interp w)) (w_proc w)) (tk_load_failed w) (w_log w).
Definition upd_proc (f : proc → proc) (w : world) : world :=
  mkWorld (mkExt (w_interp w) (f (w_proc w))) (tk_load_failed w) (w_log w).

Definition set_globals (g : gmap string string) (i : interp) : interp :=
  mkInterp g (i_arrays i) (i_result i).
Definition set_arrays (a : gmap (string * string) string) (i : interp) : interp :=
  mkInterp (i_globals i) a (i_result i).
Definition set_result (r : string) (i : interp) : interp :=
  mkInterp (i_globals i) (i_arrays i) r.
Definition set_environ (e : gmap string string) (p : proc) : proc :=
  mkProc (p_exe p) (p_files p) e (p_library_path p) (p_static p) (p_private p).
Definition set_library_path (o : tcl_obj) (p : proc) : proc :=
  mkProc (p_exe p) (p_files p) (p_environ p) o (p_static p) (p_private p).
Definition set_static (l : list (string * bool)) (p : proc) : proc :=
  mkProc (p_exe p) (p_files p) (p_environ p) (p_library_path p) l (p_private p).

(** ** The Tcl API, as far as the file uses it *)

(** [Tcl_SetVar(interp, name, value, TCL_GLOBAL_ONLY)]. *)
Definition Tcl_SetVar (name value : string) : TM unit :=
  cm_modify (upd_interp (λ i, set_globals (<[name:=value]> (i_globals i)) i)).

(** [Tcl_SetVar2(interp, part1, part2, value, TCL_GLOBAL_ONLY)]: an array
    element; the elements of [env] are the process environment. *)
Definition Tcl_SetVar2 (part1 part2 value : string) : TM unit :=
  if decide (part1 = "env") then
    cm_modify (upd_proc (λ p, set_environ (<[part2:=value]> (p_environ p)) p))
  else
    cm_modify (upd_interp (λ i, set_arrays (<[(part1, part2):=value]> (i_arrays i)) i)).

(** [Tcl_GetVar(interp, name, TCL_GLOBAL_ONLY)]: [NULL] when unset. *)
Definition Tcl_GetVar (name : string) : TM (option string) :=
  w ← cm_get; mret (i_globals (w_interp w) !! name).

(** [Tcl_SetResult(interp, msg, TCL_STATIC)]. *)
Definition Tcl_SetResult (msg : string) : TM unit :=
  cm_modify (upd_interp (set_result msg)).

(** [Tcl_GetNameOfExecutable()]: [NULL] before [Tcl_FindExecutable]. *)
Definition Tcl_GetNameOfExecutable : TM (option string) :=
  w ← cm_get; mret (p_exe (w_proc w)).

(** [Tcl_StaticPackage(NULL, name, init, safeInit)]: records the package
    for the process unless the same registration is already there
    (Tcl prepends new entries). *)
Definition Tcl_StaticPackage (name : string) (has_safe_init : bool) : TM unit :=
  cm_modify (upd_proc (λ p,
    if decide ((name, has_safe_init) ∈ p_static p) then p
    else set_static ((name, has_safe_init) :: p_static p) p)).

(** [TclGetLibraryPath()] / [TclSetLibraryPath(obj)]. *)
Definition TclGetLibraryPath : TM tcl_obj :=
  w ← cm_get; mret (p_library_path (w_proc w)).
Definition TclSetLibraryPath (o : tcl_obj) : TM unit :=
  cm_modify (upd_proc (set_library_path o)).

(** [fopen] on the process's file system. *)
Definition c_fopen (path mode : string) : TM (option FILE) :=
  w ← cm_get; mret (fopen (p_files (w_proc w)) path mode).

(** [assert(p != NULL)]. *)
Definition c_assert_nonnull {A} (what : string) (o : option A) : TM A :=
  match o with Some a => mret a | None => cm_fault (AssertionFailed what) end.

(** ** Tcl list syntax on strings without quoting characters *)

Definition is_list_space (c : Ascii.ascii) : bool :=
  bool_decide (c ∈ [" "; "009"; "010"; "011"; "012"; "013"]%char).

Definition is_list_quote (c : Ascii.ascii) : bool :=
  bool_decide (c ∈ ["{"; "}"; "034"; "092"]%char).

(** A string with no braces, double quotes or backslashes. *)
Fixpoint list_plain (s : string) : bool :=
  match s with
  | EmptyString => true
  | String c s' => negb (is_list_quote c) && list_plain s'
  end.

(** The whitespace-separated words of a string, [cur] being the word read
    so far (reversed). *)
Fixpoint words_acc (cur : list Ascii.ascii) (s : string) : list string :=
  match s with
  | EmptyString => if cur is [] then [] else [String.string_of_list_ascii (rev cur)]
  | String c s' =>
      if is_list_space c then
        (if cur is [] then [] else [String.string_of_list_ascii (rev cur)]) ++ words_acc [] s'
      else words_acc (c :: cur) s'
  end.
Definition words (s : string) : list string := words_acc [] s.

(** ** The external engines *)

(** What the file needs from Tcl, Tk and the zvfs driver.  Each engine gets
    the part of the state it can see ([ext]) and returns it updated with
    its C return value.  [list_of_string] is Tcl's list parser
    ([SetListFromAny]); its law is the part of the Tcl list syntax the
    development relies on. *)
Class TclRuntime := {
  Zvfs_Init_impl : ext → ext * Z;
  Zvfs_Mount_impl : option string → string → ext → ext * Z;
  Tcl_Init_impl : ext → ext * Z;
  Tk_Init_impl : ext → ext * Z;
  Tk_MainWindow_impl : ext → ext;
  Tk_MacOSXOpenBundleResources_impl : string → Z → Z → ext → ext * string;
  TkMacOSXInitAppleEvents_impl : ext → ext;
  TkMacOSXInitMenus_impl : ext → ext;
  TkImaging_Init_impl : ext → ext;
  list_of_string : string → option (list string);
  list_of_string_plain : ∀ s, list_plain s = true → list_of_string s = Some (words s)
}.

Section Calls.
Context `{!TclRuntime}.

(** Call an external engine: it sees [w_ext], its effect replaces
    [w_ext], and the call is logged. *)
Definition ext_call {A} (fn : ext_fn) (args : list (option string))
    (f : ext → ext * A) : TM A :=
  λ w, let r := f (w_ext w) in
       CRet (mkWorld r.1 (tk_load_failed w) (w_log w ++ [Ev fn args (w_ext w)])) r.2.

Definition Zvfs_Init : TM Z := ext_call FZvfs_Init [] Zvfs_Init_impl.
Definition Zvfs_Mount (archive : option string) (mount_point : string) : TM Z :=
  ext_call FZvfs_Mount [archive; Some mount_point] (Zvfs_Mount_impl archive mount_point).
Definition Tcl_Init : TM Z := ext_call FTcl_Init [] Tcl_Init_impl.
Definition Tk_Init : TM Z := ext_call FTk_Init [] Tk_Init_impl.
Definition Tk_MainWindow : TM unit :=
  ext_call FTk_MainWindow [] (λ x, (Tk_MainWindow_impl x, tt)).
Definition Tk_MacOSXOpenBundleResources (bundle : string) (max_len has_version : Z)
    : TM string :=
  ext_call FTk_MacOSXOpenBundleResources [Some bundle]
    (Tk_MacOSXOpenBundleResources_impl bundle max_len has_version).
Definition TkMacOSXInitAppleEvents : TM unit :=
  ext_call FTkMacOSXInitAppleEvents [] (λ x, (TkMacOSXInitAppleEvents_impl x, tt)).
Definition TkMacOSXInitMenus : TM unit :=
  ext_call FTkMacOSXInitMenus [] (λ x, (TkMacOSXInitMenus_impl x, tt)).
Definition TkImaging_Init : TM unit :=
  ext_call FTkImaging_Init [] (λ x, (TkImaging_Init_impl x, tt)).

(** [Tcl_ListObjAppendElement(NULL, listPtr, objPtr)]: converts the list
    object from its string form if needed (on a syntax error it returns
    [TCL_ERROR] and leaves the object alone), then appends. *)
Definition Tcl_ListObjAppendElement (l : tcl_obj) (elem : string) : tcl_obj * Z :=
  match l with
  | ObjList xs => (ObjList (xs ++ [elem]), TCL_OK)
  | ObjString s =>
      match list_of_string s with
      | Some xs => (ObjList (xs ++ [elem]), TCL_OK)
      | None => (l, TCL_ERROR)
      end
  end.
End Calls.

(** Number of calls to [fn] in a log. *)
Definition calls_to (fn : ext_fn) (log : list event) : nat :=
  length (filter (λ e, ev_fn e = fn) log).

(** The latch is unchanged and [Tk_Init] was not called. *)
Definition latch_kept (w w' : world) : Prop :=
  tk_load_failed w' = tk_load_failed w ∧
  calls_to FTk_Init (w_log w') = calls_to FTk_Init (w_log w).

(** The log of [w'] extends the log of [w]. *)
Definition log_grows (w w' : world) : Prop := w_log w `prefix_of` w_log w'.

#[export] Instance latch_kept_preorder : PreOrder latch_kept.
Proof.
  split; [intros w; by split|].
  intros w1 w2 w3 [H1 H2] [H3 H4]. split; congruence.
Qed.

#[export] Instance log_grows_preorder : PreOrder log_grows.
Proof.
  unfold log_grows. split; [intros w; done|].
  intros w1 w2 w3 H1 H2. by etrans.
Qed.

(** State changes through [upd_interp]/[upd_proc] touch neither the latch
    nor the log. *)
Section Primitives.
Context (R : relation world) `{!PreOrder R}.
Context (R_upd_interp : ∀ f w, R w (upd_interp f w)).
Context (R_upd_proc : ∀ f w, R w (upd_proc f w)).

Lemma preserved_Tcl_SetVar n v : preserved R (Tcl_SetVar n v).
Proof. intros w. apply R_upd_interp. Qed.
Lemma preserved_Tcl_SetVar2 a n v : preserved R (Tcl_SetVar2 a n v).
Proof. intros w. unfold Tcl_SetVar2. case_decide; [apply R_upd_proc | apply R_upd_interp]. Qed.
Lemma preserved_Tcl_GetVar n : preserved R (Tcl_GetVar n).
Proof. intros w. simpl. reflexivity. Qed.
Lemma preserved_Tcl_SetResult m : preserved R (Tcl_SetResult m).
Proof. intros w. apply R_upd_interp. Qed.
Lemma preserved_Tcl_GetNameOfExecutable : preserved R Tcl_GetNameOfExecutable.
Proof. intros w. simpl. reflexivity. Qed.
Lemma preserved_Tcl_StaticPackage n b : preserved R (Tcl_StaticPackage n b).
Proof. intros w. apply R_upd_proc. Qed.
Lemma preserved_TclGetLibraryPath : preserved R TclGetLibraryPath.
Proof. intros w. simpl. reflexivity. Qed.
Lemma preserved_TclSetLibraryPath o : preserved R (TclSetLibraryPath o).
Proof. intros w. apply R_upd_proc. Qed.
Lemma preserved_c_fopen p m : preserved R (c_fopen p m).
Proof. intros w. simpl. reflexivity. Qed.
Lemma preserved_c_assert_nonnull {A} s (o : option A) : preserved R (c_assert_nonnull s o).
Proof. intros w. destruct o; simpl; reflexivity. Qed.
End Primitives.

Lemma latch_kept_upd_interp f w : latch_kept w (upd_interp f w).
Proof. by split. Qed.
Lemma latch_kept_upd_proc f w : latch_kept w (upd_proc f w).
Proof. by split. Qed.
Lemma log_grows_upd_interp f w : log_grows w (upd_interp f w).
Proof. unfold log_grows. done. Qed.
Lemma log_grows_upd_proc f w : log_grows w (upd_proc f w).
Proof. unfold log_grows. done. Qed.

Section ExtCalls.
Context `{!TclRuntime}.

Lemma calls_to_snoc fn e log :
  calls_to fn (log ++ [e]) = calls_to fn log + (if decide (ev_fn e = fn) then 1 else 0).
Proof.
  unfold calls_to. rewrite filter_app, length_app, filter_cons, filter_nil.
  case_decide; simpl; lia.
Qed.

Lemma latch_kept_ext_call {A} fn args (f : ext → ext * A) :
  fn ≠ FTk_Init → preserved latch_kept (ext_call fn args f).
Proof.
  intros Hfn w. split; [done|]. simpl.
  rewrite calls_to_snoc. simpl. rewrite decide_False by done. lia.
Qed.

Lemma log_grows_ext_call {A} fn args (f : ext → ext * A) :
  preserved log_grows (ext_call fn args f).
Proof. intros w. unfold log_grows. simpl. by eexists. Qed.
End ExtCalls.

#[export] Hint Resolve preserved_ret preserved_get preserved_fault preserved_when
  preserved_Tcl_SetVar preserved_Tcl_SetVar2 preserved_Tcl_GetVar
  preserved_Tcl_SetResult preserved_Tcl_GetNameOfExecutable
  preserved_Tcl_StaticPackage preserved_TclGetLibraryPath
  preserved_TclSetLibraryPath preserved_c_fopen preserved_c_assert_nonnull
  latch_kept_upd_interp latch_kept_upd_proc log_grows_upd_interp log_grows_upd_proc
  log_grows_ext_call : tkinit.
#[export] Hint Extern 1 (preserved latch_kept (ext_call _ _ _)) =>
  apply latch_kept_ext_call; discriminate : tkinit.

(** Prove [preserved R m] by walking the structure of [m]. *)
Ltac solve_preserved :=
  repeat first
    [ progress intros
    | apply preserved_bind; try typeclasses eauto
    | apply preserved_when; try typeclasses eauto
    | case_match
    | solve [eauto with tkinit typeclass_instances] ].

(** ** [Tcl_StaticPackage] registrations *)

Definition static_registered (n : string) (b : bool) (w : world) : world :=
  upd_proc (λ p, if decide ((n, b) ∈ p_static p) then p
                 else set_static ((n, b) :: p_static p) p) w.

Lemma Tcl_StaticPackage_run n b w : Tcl_StaticPackage n b w = CRet (static_registered n b w) tt.
Proof. reflexivity. Qed.

Lemma static_registered_mem n b w : (n, b) ∈ p_static (w_proc (static_registered n b w)).
Proof.
  unfold static_registered, upd_proc, w_proc. simpl.
  destruct (decide _); simpl; [done | by left].
Qed.

Lemma static_registered_keeps n b w x :
  x ∈ p_static (w_proc w) → x ∈ p_static (w_proc (static_registered n b w)).
Proof.
  unfold static_registered, upd_proc, w_proc. simpl.
  destruct (decide _); simpl; [done | by right].
Qed.

Lemma static_registered_latch n b w : tk_load_failed (static_registered n b w) = tk_load_failed w.
Proof. reflexivity. Qed.

Lemma static_registered_log n b w : w_log (static_registered n b w) = w_log w.
Proof. reflexivity. Qed.

#[export] Hint Resolve static_registered_mem static_registered_keeps : tkinit.
#[export] Hint Rewrite static_registered_latch static_registered_log : tkinit_run.

(** Frames of the named engine calls. *)
Section EngineFrames.
Context `{!TclRuntime}.

Lemma latch_kept_Zvfs_Init : preserved latch_kept Zvfs_Init.
Proof. by apply latch_kept_ext_call. Qed.
Lemma latch_kept_Zvfs_Mount a m : preserved latch_kept (Zvfs_Mount a m).
Proof. by apply latch_kept_ext_call. Qed.
Lemma latch_kept_Tcl_Init : preserved latch_kept Tcl_Init.
Proof. by apply latch_kept_ext_call. Qed.
Lemma latch_kept_Tk_MainWindow : preserved latch_kept Tk_MainWindow.
Proof. by apply latch_kept_ext_call. Qed.
Lemma latch_kept_Tk_MacOSXOpenBundleResources b l h :
  preserved latch_kept (Tk_MacOSXOpenBundleResources b l h).
Proof. by apply latch_kept_ext_call. Qed.
Lemma latch_kept_TkMacOSXInitAppleEvents : preserved latch_kept TkMacOSXInitAppleEvents.
Proof. by apply latch_kept_ext_call. Qed.
Lemma latch_kept_TkMacOSXInitMenus : preserved latch_kept TkMacOSXInitMenus.
Proof. by apply latch_kept_ext_call. Qed.
Lemma latch_kept_TkImaging_Init : preserved latch_kept TkImaging_Init.
Proof. by apply latch_kept_ext_call. Qed.

Lemma log_grows_Zvfs_Init : preserved log_grows Zvfs_Init.
Proof. apply log_grows_ext_call. Qed.
Lemma log_grows_Zvfs_Mount a m : preserved log_grows (Zvfs_Mount a m).
Proof. apply log_grows_ext_call. Qed.
Lemma log_grows_Tcl_Init : preserved log_grows Tcl_Init.
Proof. apply log_grows_ext_call. Qed.
Lemma log_grows_Tk_Init : preserved log_grows Tk_Init.
Proof. apply log_grows_ext_call. Qed.
Lemma log_grows_Tk_MainWindow : preserved log_grows Tk_MainWindow.
Proof. apply log_grows_ext_call. Qed.
Lemma log_grows_Tk_MacOSXOpenBundleResources b l h :
  preserved log_grows (Tk_MacOSXOpenBundleResources b l h).
Proof. apply log_grows_ext_call. Qed.
Lemma log_grows_TkMacOSXInitAppleEvents : preserved log_grows TkMacOSXInitAppleEvents.
Proof. apply log_grows_ext_call. Qed.
Lemma log_grows_TkMacOSXInitMenus : preserved log_grows TkMacOSXInitMenus.
Proof. apply log_grows_ext_call. Qed.
Lemma log_grows_TkImaging_Init : preserved log_grows TkImaging_Init.
Proof. apply log_grows_ext_call. Qed.
End EngineFrames.

#[export] Hint Resolve latch_kept_Zvfs_Init latch_kept_Zvfs_Mount latch_kept_Tcl_Init
  latch_kept_Tk_MainWindow latch_kept_Tk_MacOSXOpenBundleResources
  latch_kept_TkMacOSXInitAppleEvents latch_kept_TkMacOSXInitMenus
  latch_kept_TkImaging_Init log_grows_Zvfs_Init log_grows_Zvfs_Mount log_grows_Tcl_Init
  log_grows_Tk_Init log_grows_Tk_MainWindow log_grows_Tk_MacOSXOpenBundleResources
  log_grows_TkMacOSXInitAppleEvents log_grows_TkMacOSXInitMenus log_grows_TkImaging_Init
  : tkinit.
