(* ===== verification/Stubs.v ===== *)
(** * Concrete Tcl/Tk runtimes and worlds

    Stub engines in the style of a test harness: each engine's C return
    value is a parameter, [Tk_Init] leaves an error message in the
    interpreter result when it fails, the zvfs driver records its mount
    in the private state.  They instantiate [TclRuntime] so that every
    theorem can be run on a concrete process; they are not part of the
    program. *)

From S2P Require Import Prelude CLib Tcl.
From Stdlib Require Import ZArith.

(** Tcl's list parser on the strings it treats as plain lists; strings with
    quoting characters are rejected by this stub. *)
Definition stub_list_of_string (s : string) : option (list string) :=
  if list_plain s then Some (words s) else None.

Lemma stub_list_of_string_plain (s : string) :
  list_plain s = true → stub_list_of_string s = Some (words s).
Proof. intros Hs. unfold stub_list_of_string. by rewrite Hs. Qed.

Definition ext_set_result (r : string) (x : ext) : ext :=
  mkExt (set_result r (x_interp x)) (x_proc x).

Definition ext_set_private (k v : string) (x : ext) : ext :=
  let p := x_proc x in
  mkExt (x_interp x)
    (mkProc (p_exe p) (p_files p) (p_environ p) (p_library_path p) (p_static p)
       (<[k:=v]> (p_private p))).

Definition TK_DISPLAY_ERROR : string :=
  "no display name and no $DISPLAY environment variable".

(** [stub_runtime tcl_rc tk_rc mount_rc tcl_bundle tk_bundle]: [Tcl_Init],
    [Tk_Init] and [Zvfs_Mount] return the given codes; the macOS bundle
    lookups return the given paths. *)
Definition stub_runtime (tcl_rc tk_rc mount_rc : Z)
    (tcl_bundle tk_bundle : string) : TclRuntime := {|
  Zvfs_Init_impl x := (ext_set_private "zvfs" "initialised" x, TCL_OK);
  Zvfs_Mount_impl arch mnt x :=
    (if (mount_rc =? TCL_OK)%Z then
       ext_set_private mnt (default "" arch) x else x, mount_rc);
  Tcl_Init_impl x := (x, tcl_rc);
  Tk_Init_impl x :=
    (if (tk_rc =? TCL_ERROR)%Z then ext_set_result TK_DISPLAY_ERROR x
     else ext_set_private "tk" "loaded" x, tk_rc);
  Tk_MainWindow_impl x := x;
  Tk_MacOSXOpenBundleResources_impl b _ _ x :=
    (x, if decide (b = "com.tcltk.tcllibrary") then tcl_bundle else tk_bundle);
  TkMacOSXInitAppleEvents_impl x := x;
  TkMacOSXInitMenus_impl x := x;
  TkImaging_Init_impl x := x;
  list_of_string := stub_list_of_string;
  list_of_string_plain := stub_list_of_string_plain
|}.

(** Everything succeeds. *)
Definition rt_ok : TclRuntime := stub_runtime TCL_OK TCL_OK TCL_OK "" "".
(** The zvfs mount fails. *)
Definition rt_mount_fails : TclRuntime := stub_runtime TCL_OK TCL_OK TCL_ERROR "" "".
(** [Tk_Init] fails (no display). *)
Definition rt_tk_fails : TclRuntime := stub_runtime TCL_OK TCL_ERROR TCL_OK "" "".
(** [Tcl_Init] fails. *)
Definition rt_tcl_fails : TclRuntime := stub_runtime TCL_ERROR TCL_OK TCL_OK "" "".

(** ** Concrete executables *)

Definition EXE : string := "/usr/local/bin/python3".

(** An end-of-central-directory record with no comment: the signature
    and 18 bytes of counts and offsets. *)
Definition eocd_record : list byte := [Byte.x50; Byte.x4b; Byte.x05; Byte.x06] ++ repeat Byte.x00 18.

(** An executable with no archive, and one with an (empty) zip appended. *)
Definition plain_image : list byte := repeat Byte.x7f 40.
Definition zipped_image : list byte := plain_image ++ eocd_record.

Definition empty_interp : interp := mkInterp ∅ ∅ "".

Definition proc_with (img : list byte) : proc :=
  mkProc (Some EXE) {[ EXE := img ]} {[ "HOME" := "/root" ]} (ObjString "") [] ∅.

(** A fresh interpreter in a process whose executable is [img]. *)
Definition world_with (img : list byte) : world :=
  mkWorld (mkExt empty_interp (proc_with img)) 0%Z [].
