(* ===== verification/Zvfs.v ===== *)
(** * [setup_zvfs]: finding a zip archive appended to the executable

    [setup_zvfs] (tkappinit.c lines 32-70) reads the 4 bytes that sit 22
    bytes before the end of the executable and compares them with the zip
    end-of-central-directory signature.  On a match it initialises and
    mounts the zvfs driver and points Tcl's library variables into the
    mount.  [zip_detect] is the detector as the spec states it (a pure
    function of the image); the theorems show that [setup_zvfs] computes
    it, which state it changes on each branch, and what it ignores. *)

From S2P Require Import Prelude CLib Tcl Stubs.
From Stdlib Require Import ZArith.

(** [#define ZVFS_MOUNT "/zvfs"] and the two library directories. *)
Definition ZVFS_MOUNT : string := "/zvfs".
Definition ZVFS_TCL_DIR : string := ZVFS_MOUNT +:+ "/tcl8.6".
Definition ZVFS_TK_DIR : string := ZVFS_MOUNT +:+ "/tk8.6".

(** [char sig[4] = {'P', 'K', 0x05, 0x06};] *)
Definition zip_sig : list byte := [Byte.x50; Byte.x4b; Byte.x05; Byte.x06].

Section SetupZvfs.
Context `{!TclRuntime}.

(** [static int setup_zvfs(Tcl_Interp *interp)]. *)
Definition setup_zvfs : TM Z :=
  prog_name ← Tcl_GetNameOfExecutable;
  prog_name ← c_assert_nonnull "prog_name != NULL" prog_name;
  ofp ← c_fopen prog_name "rb";
  match ofp with
  | None => mret 0%Z
  | Some fp =>
      let '(fp, rc) := fseek fp (-22) SEEK_END in
      if negb (rc =? 0)%Z then (let _ := fclose fp in mret 0%Z) else
      match fread [Byte.x00; Byte.x00; Byte.x00; Byte.x00] 4 1 fp with
      | None => cm_fault (UndefinedBehaviour "fread past the end of buf")
      | Some (buf, _, fp) =>
          let _ := fclose fp in
          match memcmp buf zip_sig 4 with
          | None => cm_fault (UndefinedBehaviour "memcmp past the end of buf")
          | Some c =>
              if negb (c =? 0)%Z then mret 0%Z else
              _ ← Zvfs_Init;
              exe ← Tcl_GetNameOfExecutable;
              _ ← Zvfs_Mount exe ZVFS_MOUNT;
              _ ← Tcl_SetVar2 "env" "TCL_LIBRARY" ZVFS_TCL_DIR;
              _ ← Tcl_SetVar "tcl_library" ZVFS_TCL_DIR;
              mret 1%Z
          end
      end
  end.
End SetupZvfs.

(** The detector of the spec: the image is at least 22 bytes long and the
    4 bytes at offset [length - 22] are the signature. *)
Definition zip_detect (img : list byte) : bool :=
  bool_decide (22 ≤ length img) &&
  bool_decide (take 4 (drop (length img - 22) img) = zip_sig).

(** The state [setup_zvfs] leaves after a match: the zvfs driver ran on the
    state it was given, then [env(TCL_LIBRARY)] and [tcl_library] were set. *)
Section Mounted.
Context `{!TclRuntime}.

Definition zvfs_mounted_world (w : world) : world :=
  let w1 := state_of (Zvfs_Init w) in
  let w2 := state_of (Zvfs_Mount (p_exe (w_proc w1)) ZVFS_MOUNT w1) in
  upd_interp (λ i, set_globals (<[ "tcl_library" := ZVFS_TCL_DIR ]> (i_globals i)) i)
    (upd_proc (λ p, set_environ (<[ "TCL_LIBRARY" := ZVFS_TCL_DIR ]> (p_environ p)) p) w2).
End Mounted.

(** ** Reading the signature *)

Lemma fseek_eocd_short (img : list byte) :
  length img < 22 → fseek (mkFILE img 0) (-22) SEEK_END = (mkFILE img 0, (-1)%Z).
Proof.
  intros H. rewrite fseek_end. simpl.
  destruct (Z.ltb_spec (Z.of_nat (length img) + -22) 0); [done | lia].
Qed.

Lemma fseek_eocd_long (img : list byte) :
  22 ≤ length img →
  fseek (mkFILE img 0) (-22) SEEK_END = (mkFILE img (Z.of_nat (length img - 22)), 0%Z).
Proof.
  intros H. rewrite fseek_end. simpl.
  destruct (Z.ltb_spec (Z.of_nat (length img) + -22) 0); [lia|].
  do 2 f_equal. lia.
Qed.

Lemma fread_eocd (img : list byte) :
  22 ≤ length img →
  ∃ fp', fread [Byte.x00; Byte.x00; Byte.x00; Byte.x00] 4 1
                 (mkFILE img (Z.of_nat (length img - 22)))
         = Some (take 4 (drop (length img - 22) img), 1, fp').
Proof.
  intros H. eexists. rewrite fread_within; simpl; [|lia..].
  by rewrite Nat2Z.id.
Qed.

(** [memcmp] of a 4-byte buffer with the signature is 0 exactly when the
    buffer is the signature. *)
Lemma memcmp_sig (buf : list byte) :
  length buf = 4 →
  ∃ c, memcmp buf zip_sig 4 = Some c ∧ ((c =? 0)%Z = bool_decide (buf = zip_sig)).
Proof.
  intros Hl. destruct (memcmp_defined buf zip_sig 4) as [c Hc]; [lia | done |].
  exists c. split; [done|].
  pose proof (memcmp_zero_iff buf zip_sig 4 ltac:(lia) ltac:(simpl; lia)) as Hiff.
  rewrite take_ge, (take_ge zip_sig), Hc in Hiff by (simpl; lia).
  destruct (Z.eqb_spec c 0) as [->|Hne]; case_bool_decide as Hb; try done.
  - exfalso. by apply Hb, Hiff.
  - exfalso. apply Hne. enough (Some c = Some 0%Z) by congruence. by apply Hiff.
Qed.

Section Spec.
Context `{!TclRuntime}.

Lemma setup_zvfs_open (w : world) (path : string) (img : list byte) :
  p_exe (w_proc w) = Some path →
  p_files (w_proc w) !! path = Some img →
  setup_zvfs w =
    (let '(fp, rc) := fseek (mkFILE img 0) (-22) SEEK_END in
     if negb (rc =? 0)%Z then mret 0%Z else
     match fread [Byte.x00; Byte.x00; Byte.x00; Byte.x00] 4 1 fp with
     | None => cm_fault (UndefinedBehaviour "fread past the end of buf")
     | Some (buf, _, fp) =>
         match memcmp buf zip_sig 4 with
         | None => cm_fault (UndefinedBehaviour "memcmp past the end of buf")
         | Some c =>
             if negb (c =? 0)%Z then mret 0%Z else
             _ ← Zvfs_Init;
             exe ← Tcl_GetNameOfExecutable;
             _ ← Zvfs_Mount exe ZVFS_MOUNT;
             _ ← Tcl_SetVar2 "env" "TCL_LIBRARY" ZVFS_TCL_DIR;
             _ ← Tcl_SetVar "tcl_library" ZVFS_TCL_DIR;
             mret 1%Z
         end
     end) w.
Proof.
  intros He Hf. unfold setup_zvfs, Tcl_GetNameOfExecutable, c_fopen.
  cm_unfold. rewrite He. simpl. unfold fopen. rewrite Hf. simpl. reflexivity.
Qed.

(** The tail of [setup_zvfs] after a match: exactly [zvfs_mounted_world]. *)
Lemma setup_zvfs_mount_tail (w : world) :
  (_ ← Zvfs_Init;
   exe ← Tcl_GetNameOfExecutable;
   _ ← Zvfs_Mount exe ZVFS_MOUNT;
   _ ← Tcl_SetVar2 "env" "TCL_LIBRARY" ZVFS_TCL_DIR;
   _ ← Tcl_SetVar "tcl_library" ZVFS_TCL_DIR;
   mret 1%Z) w = CRet (zvfs_mounted_world w) 1%Z.
Proof. reflexivity. Qed.

(** On a readable executable [setup_zvfs] returns 1 and mounts exactly
    when the detector accepts the image, and otherwise returns 0 with the
    state untouched. *)
Lemma setup_zvfs_readable (w : world) (path : string) (img : list byte) :
  p_exe (w_proc w) = Some path →
  p_files (w_proc w) !! path = Some img →
  setup_zvfs w =
    if zip_detect img then CRet (zvfs_mounted_world w) 1%Z else CRet w 0%Z.
Proof.
  intros He Hf. rewrite (setup_zvfs_open w path img He Hf). unfold zip_detect.
  destruct (decide (22 ≤ length img)) as [Hl|Hl].
  - rewrite fseek_eocd_long by done. cbn [negb Z.eqb].
    destruct (fread_eocd img Hl) as [fp' ->].
    destruct (memcmp_sig (take 4 (drop (length img - 22) img))) as [c [-> Hc]].
    { rewrite length_take, length_drop. lia. }
    rewrite Hc, (bool_decide_true (22 ≤ _)) by lia. simpl.
    case_bool_decide; [apply setup_zvfs_mount_tail | done].
  - rewrite fseek_eocd_short by lia. rewrite bool_decide_false by done. done.
Qed.
End Spec.

(** ** Facts about the detector and the mounted state *)

Lemma zip_detect_short (img : list byte) : length img < 22 → zip_detect img = false.
Proof. intros H. unfold zip_detect. by rewrite bool_decide_false by lia. Qed.

Lemma zip_detect_appended (pre rest : list byte) :
  length rest = 18 → zip_detect (pre ++ zip_sig ++ rest) = true.
Proof.
  intros Hr. unfold zip_detect. rewrite !length_app.
  replace (length pre + (length zip_sig + length rest) - 22) with (length pre)
    by (simpl; lia).
  rewrite bool_decide_true by (simpl; lia).
  rewrite bool_decide_true; [done|]. apply (take_drop_app_exact pre zip_sig rest).
Qed.

Section Mounted_facts.
Context `{!TclRuntime}.

Lemma zvfs_mounted_environ (w : world) :
  p_environ (w_proc (zvfs_mounted_world w)) !! "TCL_LIBRARY" = Some ZVFS_TCL_DIR.
Proof. apply lookup_insert_eq. Qed.

Lemma zvfs_mounted_globals (w : world) :
  i_globals (w_interp (zvfs_mounted_world w)) !! "tcl_library" = Some ZVFS_TCL_DIR.
Proof. apply lookup_insert_eq. Qed.

Lemma zvfs_mounted_latch (w : world) :
  tk_load_failed (zvfs_mounted_world w) = tk_load_failed w.
Proof. reflexivity. Qed.

Lemma zvfs_mounted_log (w : world) :
  w_log (zvfs_mounted_world w) =
    w_log w ++ [Ev FZvfs_Init [] (w_ext w);
                Ev FZvfs_Mount [p_exe (x_proc (Zvfs_Init_impl (w_ext w)).1); Some ZVFS_MOUNT]
                   (Zvfs_Init_impl (w_ext w)).1].
Proof. unfold zvfs_mounted_world. simpl. by rewrite <- app_assoc. Qed.
End Mounted_facts.

#[export] Hint Rewrite @zvfs_mounted_environ @zvfs_mounted_globals @zvfs_mounted_latch
  : tkinit_run.

Section Theorems.
Context `{!TclRuntime}.

(** When [Tcl_FindExecutable] has not recorded a name, the
    [assert(prog_name != NULL)] fails before anything is read. *)
Lemma setup_zvfs_no_exe (w : world) :
  p_exe (w_proc w) = None →
  setup_zvfs w = CFault (AssertionFailed "prog_name != NULL") w.
Proof.
  intros He. unfold setup_zvfs, Tcl_GetNameOfExecutable. cm_unfold. by rewrite He.
Qed.

(** An executable the process cannot open counts as no archive: 0 is
    returned and nothing is written. *)
Lemma setup_zvfs_unopenable (w : world) (path : string) :
  p_exe (w_proc w) = Some path → p_files (w_proc w) !! path = None →
  setup_zvfs w = CRet w 0%Z.
Proof.
  intros He Hf. unfold setup_zvfs, Tcl_GetNameOfExecutable, c_fopen.
  cm_unfold. rewrite He. simpl. unfold fopen. by rewrite Hf.
Qed.

(** C17: an image shorter than the 22-byte end record makes [fseek] fail:
    0 is returned and the state is untouched. *)
Theorem setup_zvfs_short_image (w : world) (path : string) (img : list byte) :
  p_exe (w_proc w) = Some path → p_files (w_proc w) !! path = Some img →
  length img < 22 → setup_zvfs w = CRet w 0%Z.
Proof.
  intros He Hf Hl. rewrite (setup_zvfs_readable w path img He Hf).
  by rewrite zip_detect_short.
Qed.

(** C18: an executable followed by a comment-less zip end record is found:
    1 is returned, [env(TCL_LIBRARY)] and [tcl_library] point into the
    mount, and the latch is untouched. *)
Theorem setup_zvfs_finds_appended_zip (w : world) (path : string) (pre rest : list byte) :
  p_exe (w_proc w) = Some path →
  p_files (w_proc w) !! path = Some (pre ++ zip_sig ++ rest) →
  length rest = 18 →
  ∃ w', setup_zvfs w = CRet w' 1%Z ∧
    p_environ (w_proc w') !! "TCL_LIBRARY" = Some ZVFS_TCL_DIR ∧
    i_globals (w_interp w') !! "tcl_library" = Some ZVFS_TCL_DIR ∧
    tk_load_failed w' = tk_load_failed w.
Proof.
  intros He Hf Hr. exists (zvfs_mounted_world w).
  rewrite (setup_zvfs_readable w path _ He Hf), zip_detect_appended by done.
  by autorewrite with tkinit_run.
Qed.

(** C14: the return values of [Zvfs_Init] and [Zvfs_Mount] are ignored:
    even when the mount fails, [setup_zvfs] reports success and points
    [env(TCL_LIBRARY)] and [tcl_library] at the unmounted [/zvfs/tcl8.6]. *)
Theorem setup_zvfs_ignores_mount_failure (w : world) (path : string) (img : list byte) :
  p_exe (w_proc w) = Some path → p_files (w_proc w) !! path = Some img →
  zip_detect img = true →
  (Zvfs_Mount_impl (p_exe (x_proc (Zvfs_Init_impl (w_ext w)).1)) ZVFS_MOUNT
     (Zvfs_Init_impl (w_ext w)).1).2 = TCL_ERROR →
  ∃ w', setup_zvfs w = CRet w' 1%Z ∧
    p_environ (w_proc w') !! "TCL_LIBRARY" = Some ZVFS_TCL_DIR ∧
    i_globals (w_interp w') !! "tcl_library" = Some ZVFS_TCL_DIR.
Proof.
  intros He Hf Hd _. exists (zvfs_mounted_world w).
  rewrite (setup_zvfs_readable w path img He Hf), Hd.
  by autorewrite with tkinit_run.
Qed.

(** C1: [setup_zvfs] refines the spec's detector on every input: a missing
    executable name trips the assertion; an executable that cannot be
    opened, or whose image the detector rejects, gives 0 with the state
    untouched (no variable written, no engine called); an accepted image
    gives 1 and the state of [zvfs_mounted_world]. *)
Theorem setup_zvfs_refines_detect (w : world) :
  setup_zvfs w =
    match p_exe (w_proc w) with
    | None => CFault (AssertionFailed "prog_name != NULL") w
    | Some path =>
        match p_files (w_proc w) !! path with
        | None => CRet w 0%Z
        | Some img =>
            if zip_detect img then CRet (zvfs_mounted_world w) 1%Z else CRet w 0%Z
        end
    end.
Proof.
  destruct (p_exe (w_proc w)) as [path|] eqn:He; [|by apply setup_zvfs_no_exe].
  destruct (p_files (w_proc w) !! path) as [img|] eqn:Hf.
  - by apply (setup_zvfs_readable w path).
  - by apply (setup_zvfs_unopenable w path).
Qed.
End Theorems.

(** ** Witnesses *)

Lemma setup_zvfs_short_image_witness :
  @setup_zvfs rt_ok (world_with (repeat Byte.x50 10)) = CRet (world_with (repeat Byte.x50 10)) 0%Z.
Proof. apply (@setup_zvfs_short_image rt_ok _ EXE (repeat Byte.x50 10)); simpl; [reflexivity | reflexivity | lia]. Defined.

Lemma setup_zvfs_finds_appended_zip_witness :
  ∃ w', @setup_zvfs rt_ok (world_with zipped_image) = CRet w' 1%Z ∧
    p_environ (w_proc w') !! "TCL_LIBRARY" = Some ZVFS_TCL_DIR ∧
    i_globals (w_interp w') !! "tcl_library" = Some ZVFS_TCL_DIR ∧
    tk_load_failed w' = tk_load_failed (world_with zipped_image).
Proof.
  apply (@setup_zvfs_finds_appended_zip rt_ok _ EXE plain_image (repeat Byte.x00 18));
    reflexivity.
Defined.

Lemma setup_zvfs_ignores_mount_failure_witness :
  ∃ w', @setup_zvfs rt_mount_fails (world_with zipped_image) = CRet w' 1%Z ∧
    p_environ (w_proc w') !! "TCL_LIBRARY" = Some ZVFS_TCL_DIR ∧
    i_globals (w_interp w') !! "tcl_library" = Some ZVFS_TCL_DIR.
Proof.
  apply (@setup_zvfs_ignores_mount_failure rt_mount_fails _ EXE zipped_image);
    vm_compute; reflexivity.
Defined.

(** ** Frame: [setup_zvfs] never touches the latch or calls [Tk_Init], and
    only appends to the log. *)
Section Frame.
Context `{!TclRuntime}.

Lemma setup_zvfs_latch_kept : preserved latch_kept setup_zvfs.
Proof. unfold setup_zvfs, Zvfs_Init, Zvfs_Mount. solve_preserved. Qed.

Lemma setup_zvfs_log_grows : preserved log_grows setup_zvfs.
Proof. unfold setup_zvfs, Zvfs_Init, Zvfs_Mount. solve_preserved. Qed.
End Frame.

#[export] Hint Resolve setup_zvfs_latch_kept setup_zvfs_log_grows : tkinit.

(** With a recorded executable name [setup_zvfs] always returns. *)
Lemma setup_zvfs_returns `{!TclRuntime} (w : world) (path : string) :
  p_exe (w_proc w) = Some path → ∃ w' z, setup_zvfs w = CRet w' z.
Proof.
  intros He. destruct (p_files (w_proc w) !! path) as [img|] eqn:Hf.
  - rewrite (setup_zvfs_readable w path img He Hf). destruct (zip_detect img); eauto.
  - rewrite (setup_zvfs_unopenable w path He Hf). eauto.
Qed.
