(* ===== verification/AppInit.v ===== *)
(** * [Tcl_AppInit]: per-interpreter start-up of Tcl and Tk

    [Tcl_AppInit] (tkappinit.c lines 72-220) under a build configuration
    (the preprocessor symbols it tests), written as the code's regions:
    the macOS bundle lookups, [setup_zvfs] and [Tcl_Init], then the Tk
    phase (skip flag, failure latch, Tk library paths, [Tk_Init], failure
    recording, post-initialisation hooks). *)

From S2P Require Import Prelude CLib Tcl Stubs Zvfs.
From Stdlib Require Import ZArith.

(** The preprocessor symbols [tkappinit.c] tests. *)
Record config := mkConfig {
  TKINTER_PROTECT_LOADTK : bool;
  TK_AQUA : bool;
  WITH_PIL : bool;
  WITH_PIL_OLD : bool;
  WITH_TIX : bool;
  WITH_BLT : bool;
  WITH_TOGL : bool
}.

(** [#define MAX_PATH_LEN 1024] (line 83). *)
Definition MAX_PATH_LEN : Z := 1024.

(** [TKINTER_LOADTK_ERRMSG], defined in [Modules/tkinter.h]. *)
Definition TKINTER_LOADTK_ERRMSG : string :=
  "Calling Tk_Init again after a previous call failed might deadlock".

(** Reading and setting the file's [static int tk_load_failed]. *)
Definition get_tk_load_failed : TM Z := w ← cm_get; mret (tk_load_failed w).
Definition set_tk_load_failed (v : Z) : TM unit :=
  cm_modify (λ w, mkWorld (w_ext w) v (w_log w)).

Section AppInit.
Context `{!TclRuntime} (cfg : config).

(** Lines 81-103 ([TK_AQUA]): the Tcl library of the bundle, set twice
    (the block is duplicated in the source).  Returns [tclLibPath]. *)
Definition aqua_tcl_library : TM string :=
  tclLibPath ← Tk_MacOSXOpenBundleResources "com.tcltk.tcllibrary" MAX_PATH_LEN 0;
  _ ← cm_when (c_nonempty tclLibPath)
        (_ ← Tcl_SetVar "tcl_library" tclLibPath;
         _ ← Tcl_SetVar "tclDefaultLibrary" tclLibPath;
         Tcl_SetVar "tcl_pkgPath" tclLibPath);
  _ ← cm_when (c_nonempty tclLibPath)
        (_ ← Tcl_SetVar "tcl_library" tclLibPath;
         _ ← Tcl_SetVar "tclDefaultLibrary" tclLibPath;
         Tcl_SetVar "tcl_pkgPath" tclLibPath);
  mret tclLibPath.

(** Lines 109-129 ([TK_AQUA]): the Tk library of the bundle appended to
    the library path.  When [tclLibPath] is empty the [else] branch
    declares a new [pathPtr] that shadows the outer one, which stays
    uninitialised ([None]) and is then used. *)
Definition aqua_tk_library (tclLibPath : string) : TM unit :=
  tkLibPath ← Tk_MacOSXOpenBundleResources "com.tcltk.tklibrary" MAX_PATH_LEN 1;
  pathPtr ← (if c_nonempty tclLibPath then mret (Some (ObjString tclLibPath))
             else (_ ← TclGetLibraryPath; mret None));
  pathPtr ← (if c_nonempty tkLibPath then
               _ ← Tcl_SetVar "tk_library" tkLibPath;
               match pathPtr with
               | None => cm_fault (UndefinedBehaviour "Tcl_ListObjAppendElement on uninitialised pathPtr")
               | Some p => mret (Some (Tcl_ListObjAppendElement p tkLibPath).1)
               end
             else mret pathPtr);
  match pathPtr with
  | None => cm_fault (UndefinedBehaviour "TclSetLibraryPath on uninitialised pathPtr")
  | Some p => TclSetLibraryPath p
  end.

(** Lines 135-140: [_tkinter_skip_tk_init] is ["1"]. *)
Definition skip_tk_init_requested : TM bool :=
  v ← Tcl_GetVar "_tkinter_skip_tk_init";
  mret (c_opt_streq v "1").

(** Lines 142-152 ([TKINTER_PROTECT_LOADTK]): a previous [Tk_Init] failed
    in this process or in this interpreter. *)
Definition tk_previously_failed : TM bool :=
  if TKINTER_PROTECT_LOADTK cfg then
    v ← Tcl_GetVar "_tkinter_tk_failed";
    f ← get_tk_load_failed;
    mret (c_true f || c_opt_streq v "1")
  else mret false.

(** Lines 154-158: Tk's library inside the mount. *)
Definition set_tk_library_paths (zvfs_mounted : Z) : TM unit :=
  cm_when (c_true zvfs_mounted)
    (_ ← Tcl_SetVar2 "env" "TK_LIBRARY" ZVFS_TK_DIR;
     Tcl_SetVar "tk_library" ZVFS_TK_DIR).

(** Lines 160-163 ([TKINTER_PROTECT_LOADTK]): remember the failure. *)
Definition record_tk_failure : TM unit :=
  cm_when (TKINTER_PROTECT_LOADTK cfg)
    (_ ← set_tk_load_failed 1;
     Tcl_SetVar "_tkinter_tk_failed" "1").

(** Lines 191-214: the statically linked packages Tix, BLT (both with a
    SafeInit) and Togl (without). *)
Definition register_static_packages : TM unit :=
  _ ← cm_when (WITH_TIX cfg) (Tcl_StaticPackage "Tix" true);
  _ ← cm_when (WITH_BLT cfg) (Tcl_StaticPackage "Blt" true);
  cm_when (WITH_TOGL cfg) (Tcl_StaticPackage "Togl" false).

(** Lines 167-219: after a successful [Tk_Init]. ([WITH_PIL_OLD] only
    declares a function; nothing runs.) *)
Definition post_tk_init : TM Z :=
  _ ← Tk_MainWindow;
  _ ← cm_when (TK_AQUA cfg) (_ ← TkMacOSXInitAppleEvents; TkMacOSXInitMenus);
  _ ← cm_when (WITH_PIL cfg) TkImaging_Init;
  _ ← register_static_packages;
  mret TCL_OK.

(** Lines 135-219: the Tk phase, once Tcl is initialised. *)
Definition tk_phase (zvfs_mounted : Z) : TM Z :=
  skip ← skip_tk_init_requested;
  if (skip : bool) then mret TCL_OK else
  failed ← tk_previously_failed;
  if (failed : bool) then (_ ← Tcl_SetResult TKINTER_LOADTK_ERRMSG; mret TCL_ERROR) else
  _ ← set_tk_library_paths zvfs_mounted;
  rc ← Tk_Init;
  if (rc =? TCL_ERROR)%Z then (_ ← record_tk_failure; mret TCL_ERROR) else
  post_tk_init.

(** [int Tcl_AppInit(Tcl_Interp *interp)]. *)
Definition Tcl_AppInit : TM Z :=
  tclLibPath ← (if TK_AQUA cfg then aqua_tcl_library else mret "");
  zvfs_mounted ← setup_zvfs;
  rc ← Tcl_Init;
  if (rc =? TCL_ERROR)%Z then mret TCL_ERROR else
  _ ← cm_when (TK_AQUA cfg) (aqua_tk_library tclLibPath);
  tk_phase zvfs_mounted.
End AppInit.

(** ** The flag tests *)

(** A Tcl variable that is unset, or holds a (NUL-free) value other than
    ["1"]. *)
Definition flag_not_1 (o : option string) : bool :=
  match o with
  | None => true
  | Some s => negb (bool_decide (s = "1")) && no_nul s
  end.

Lemma c_opt_streq_1 (o : option string) : o = Some "1" → c_opt_streq o "1" = true.
Proof. by intros ->. Qed.

Lemma c_opt_streq_not_1 (o : option string) : flag_not_1 o = true → c_opt_streq o "1" = false.
Proof.
  intros Ho. destruct o as [s|]; [|done]. simpl in Ho.
  apply andb_true_iff in Ho as [Hne Hs]. apply negb_true_iff, bool_decide_eq_false in Hne.
  simpl. destruct (Z.eqb_spec (strcmp s "1") 0) as [E|]; [|done].
  exfalso. apply Hne. by apply strcmp_eq_iff.
Qed.

Definition skip_var (w : world) : option string :=
  i_globals (w_interp w) !! "_tkinter_skip_tk_init".
Definition failed_var (w : world) : option string :=
  i_globals (w_interp w) !! "_tkinter_tk_failed".

Section Runs.
Context `{!TclRuntime} (cfg : config).

Lemma skip_tk_init_requested_run (w : world) :
  skip_tk_init_requested w = CRet w (c_opt_streq (skip_var w) "1").
Proof. reflexivity. Qed.

Lemma tk_previously_failed_run (w : world) :
  tk_previously_failed cfg w =
    CRet w (TKINTER_PROTECT_LOADTK cfg &&
            (c_true (tk_load_failed w) || c_opt_streq (failed_var w) "1")).
Proof. unfold tk_previously_failed. by destruct (TKINTER_PROTECT_LOADTK cfg). Qed.

(** Everything up to the [Tk_Init] call, when neither the skip flag nor a
    previous failure stops the phase. *)
Lemma tk_phase_reaches_tk_init (z : Z) (w : world) :
  c_opt_streq (skip_var w) "1" = false →
  (TKINTER_PROTECT_LOADTK cfg &&
     (c_true (tk_load_failed w) || c_opt_streq (failed_var w) "1")) = false →
  tk_phase cfg z w =
    (rc ← Tk_Init;
     if (rc =? TCL_ERROR)%Z then (_ ← record_tk_failure cfg; mret TCL_ERROR)
     else post_tk_init cfg) (state_of (set_tk_library_paths z w)).
Proof.
  intros Hs Hf. unfold tk_phase.
  rewrite (cm_bind_ok _ _ _ _ _ (skip_tk_init_requested_run w)), Hs.
  rewrite (cm_bind_ok _ _ _ _ _ (tk_previously_failed_run w)), Hf.
  unfold set_tk_library_paths. by destruct (c_true z).
Qed.
End Runs.

(** ** Frames of the regions *)
Section Frames.
Context `{!TclRuntime} (cfg : config).

Lemma get_tk_load_failed_preserved R `{!PreOrder R} : preserved R get_tk_load_failed.
Proof. unfold get_tk_load_failed. solve_preserved. Qed.

Lemma log_grows_set_tk_load_failed v : preserved log_grows (set_tk_load_failed v).
Proof. intros w. unfold log_grows. done. Qed.

Lemma tk_previously_failed_preserved R `{!PreOrder R} : preserved R (tk_previously_failed cfg).
Proof. intros w. rewrite tk_previously_failed_run. simpl. reflexivity. Qed.

Lemma skip_tk_init_requested_preserved R `{!PreOrder R} : preserved R skip_tk_init_requested.
Proof. intros w. rewrite skip_tk_init_requested_run. simpl. reflexivity. Qed.
End Frames.

#[export] Hint Resolve get_tk_load_failed_preserved log_grows_set_tk_load_failed
  tk_previously_failed_preserved skip_tk_init_requested_preserved : tkinit.

Section Frames2.
Context `{!TclRuntime} (cfg : config).

Lemma aqua_tcl_library_latch_kept : preserved latch_kept aqua_tcl_library.
Proof. unfold aqua_tcl_library, Tk_MacOSXOpenBundleResources. solve_preserved. Qed.

Lemma aqua_tk_library_latch_kept s : preserved latch_kept (aqua_tk_library s).
Proof. unfold aqua_tk_library, Tk_MacOSXOpenBundleResources. solve_preserved. Qed.

Lemma Tcl_Init_latch_kept : preserved latch_kept Tcl_Init.
Proof. unfold Tcl_Init. solve_preserved. Qed.

Lemma set_tk_library_paths_latch_kept z : preserved latch_kept (set_tk_library_paths z).
Proof. unfold set_tk_library_paths. solve_preserved. Qed.

Lemma post_tk_init_latch_kept : preserved latch_kept (post_tk_init cfg).
Proof.
  unfold post_tk_init, register_static_packages, Tk_MainWindow,
    TkMacOSXInitAppleEvents, TkMacOSXInitMenus, TkImaging_Init.
  solve_preserved.
Qed.

Lemma Tcl_AppInit_log_grows : preserved log_grows (Tcl_AppInit cfg).
Proof.
  unfold Tcl_AppInit, tk_phase, aqua_tcl_library, aqua_tk_library, post_tk_init,
    register_static_packages, record_tk_failure, set_tk_library_paths, Tcl_Init, Tk_Init, Tk_MainWindow,
    TkMacOSXInitAppleEvents, TkMacOSXInitMenus, TkImaging_Init,
    Tk_MacOSXOpenBundleResources.
  solve_preserved.
Qed.
End Frames2.

#[export] Hint Resolve aqua_tcl_library_latch_kept aqua_tk_library_latch_kept
  Tcl_Init_latch_kept set_tk_library_paths_latch_kept post_tk_init_latch_kept
  Tcl_AppInit_log_grows : tkinit.

Section Frames3.
Context `{!TclRuntime} (cfg : config).

Lemma post_tk_init_log_grows : preserved log_grows (post_tk_init cfg).
Proof.
  unfold post_tk_init, register_static_packages, Tk_MainWindow,
    TkMacOSXInitAppleEvents, TkMacOSXInitMenus, TkImaging_Init.
  solve_preserved.
Qed.

Lemma record_tk_failure_log_grows : preserved log_grows (record_tk_failure cfg).
Proof. unfold record_tk_failure. solve_preserved. Qed.

(** The state after lines 154-158. *)
Definition tk_paths_world (z : Z) (w : world) : world :=
  if c_true z then
    upd_interp (λ i, set_globals (<["tk_library" := ZVFS_TK_DIR]> (i_globals i)) i)
      (upd_proc (λ p, set_environ (<["TK_LIBRARY" := ZVFS_TK_DIR]> (p_environ p)) p) w)
  else w.

Lemma set_tk_library_paths_run (z : Z) (w : world) :
  set_tk_library_paths z w = CRet (tk_paths_world z w) tt.
Proof. unfold set_tk_library_paths, tk_paths_world. destruct (c_true z); reflexivity. Qed.

Lemma tk_paths_world_latch z w : tk_load_failed (tk_paths_world z w) = tk_load_failed w.
Proof. unfold tk_paths_world. by destruct (c_true z). Qed.

Lemma tk_paths_world_log z w : w_log (tk_paths_world z w) = w_log w.
Proof. unfold tk_paths_world. by destruct (c_true z). Qed.

Lemma tk_paths_world_failed_var z w : failed_var (tk_paths_world z w) = failed_var w.
Proof.
  unfold tk_paths_world, failed_var. destruct (c_true z); [|done].
  simpl. by rewrite lookup_insert_ne.
Qed.

(** What [Tk_Init] returns on the state it is called in. *)
Definition tk_init_at (z : Z) (w : world) : ext * Z :=
  Tk_Init_impl (w_ext (tk_paths_world z w)).

(** The state right after the [Tk_Init] call. *)
Definition after_tk_init (z : Z) (w : world) : world :=
  mkWorld (tk_init_at z w).1 (tk_load_failed w)
    (w_log w ++ [Ev FTk_Init [] (w_ext (tk_paths_world z w))]).

Lemma flags_off_tk_init (z : Z) (w : world) :
  c_opt_streq (skip_var w) "1" = false →
  (TKINTER_PROTECT_LOADTK cfg &&
     (c_true (tk_load_failed w) || c_opt_streq (failed_var w) "1")) = false →
  tk_phase cfg z w =
    (if ((tk_init_at z w).2 =? TCL_ERROR)%Z
     then (_ ← record_tk_failure cfg; mret TCL_ERROR) else post_tk_init cfg)
      (after_tk_init z w).
Proof.
  intros Hs Hf. rewrite (tk_phase_reaches_tk_init cfg z w Hs Hf), set_tk_library_paths_run.
  simpl state_of. rewrite cm_bind_run. unfold Tk_Init at 1, ext_call at 1.
  rewrite tk_paths_world_latch, tk_paths_world_log. reflexivity.
Qed.
End Frames3.

#[export] Hint Resolve post_tk_init_log_grows record_tk_failure_log_grows : tkinit.
#[export] Hint Rewrite @tk_paths_world_latch @tk_paths_world_log @tk_paths_world_failed_var
  : tkinit_run.

(** ** The Tk phase: one theorem per branch *)
Section TkPhase.
Context `{!TclRuntime} (cfg : config).

(** C8: with [_tkinter_skip_tk_init] set to ["1"] the Tk phase returns
    [TCL_OK] at once and changes nothing: no path, latch, flag, result or
    engine call. *)
Theorem tk_phase_skip (z : Z) (w : world) :
  skip_var w = Some "1" → tk_phase cfg z w = CRet w TCL_OK.
Proof.
  intros Hs. unfold tk_phase.
  rewrite (cm_bind_ok _ _ _ _ _ (skip_tk_init_requested_run w)), (c_opt_streq_1 _ Hs).
  reflexivity.
Qed.

(** C5: under [TKINTER_PROTECT_LOADTK], when [Tk_Init] failed before in
    this process ([tk_load_failed]) or in this interpreter
    ([_tkinter_tk_failed] is ["1"]) and no skip was asked for, the phase
    sets the result to [TKINTER_LOADTK_ERRMSG], returns [TCL_ERROR], and
    changes nothing else (in particular [Tk_Init] is not called). *)
Theorem tk_phase_previous_failure (z : Z) (w : world) :
  TKINTER_PROTECT_LOADTK cfg = true → flag_not_1 (skip_var w) = true →
  (tk_load_failed w ≠ 0%Z ∨ failed_var w = Some "1") →
  tk_phase cfg z w = CRet (upd_interp (set_result TKINTER_LOADTK_ERRMSG) w) TCL_ERROR.
Proof.
  intros Hp Hs Hf. unfold tk_phase.
  rewrite (cm_bind_ok _ _ _ _ _ (skip_tk_init_requested_run w)), (c_opt_streq_not_1 _ Hs).
  rewrite (cm_bind_ok _ _ _ _ _ (tk_previously_failed_run cfg w)), Hp.
  replace (c_true (tk_load_failed w) || c_opt_streq (failed_var w) "1") with true.
  { reflexivity. }
  destruct Hf as [Hl | ->]; [|by rewrite orb_true_r].
  unfold c_true. by rewrite (proj2 (Z.eqb_neq _ _) Hl).
Qed.
End TkPhase.

Section Registrations.
Context (cfg : config).

Lemma register_static_packages_spec (w : world) :
  ∃ w', register_static_packages cfg w = CRet w' tt ∧
    tk_load_failed w' = tk_load_failed w ∧ w_log w' = w_log w ∧
    (∀ x, x ∈ p_static (w_proc w) → x ∈ p_static (w_proc w')) ∧
    (WITH_TIX cfg = true → ("Tix", true) ∈ p_static (w_proc w')) ∧
    (WITH_BLT cfg = true → ("Blt", true) ∈ p_static (w_proc w')) ∧
    (WITH_TOGL cfg = true → ("Togl", false) ∈ p_static (w_proc w')).
Proof.
  unfold register_static_packages.
  destruct (WITH_TIX cfg), (WITH_BLT cfg), (WITH_TOGL cfg); cm_unfold;
    rewrite ?Tcl_StaticPackage_run; eexists; (split; [reflexivity|]);
    autorewrite with tkinit_run; split_and!; intros; try done; eauto 6 with tkinit.
Qed.
End Registrations.

(** No earlier [Tk_Init] failure is visible to the latch test. *)
Definition no_tk_failure_seen (cfg : config) (w : world) : bool :=
  negb (TKINTER_PROTECT_LOADTK cfg) ||
  ((tk_load_failed w =? 0)%Z && flag_not_1 (failed_var w)).

Lemma no_tk_failure_seen_false (cfg : config) (w : world) :
  no_tk_failure_seen cfg w = true →
  (TKINTER_PROTECT_LOADTK cfg &&
     (c_true (tk_load_failed w) || c_opt_streq (failed_var w) "1")) = false.
Proof.
  unfold no_tk_failure_seen. destruct (TKINTER_PROTECT_LOADTK cfg); [|done].
  simpl. intros [Hl Hf]%andb_true_iff. apply Z.eqb_eq in Hl.
  by rewrite Hl, c_opt_streq_not_1.
Qed.

Lemma calls_to_snoc_same fn args x log :
  calls_to fn (log ++ [Ev fn args x]) = S (calls_to fn log).
Proof. rewrite calls_to_snoc. simpl. rewrite decide_True by done. lia. Qed.

Section TkPhase2.
Context `{!TclRuntime} (cfg : config).

(** C6: when [Tk_Init] fails, the phase returns [TCL_ERROR] leaving the
    interpreter result [Tk_Init] produced (not [TKINTER_LOADTK_ERRMSG]),
    [Tk_Init] has been called once, and under [TKINTER_PROTECT_LOADTK]
    the latch [tk_load_failed] and [_tkinter_tk_failed] are both set. *)
Theorem tk_phase_tk_init_fails (z : Z) (w : world) :
  flag_not_1 (skip_var w) = true → no_tk_failure_seen cfg w = true →
  (tk_init_at z w).2 = TCL_ERROR →
  ∃ w', tk_phase cfg z w = CRet w' TCL_ERROR ∧
    i_result (w_interp w') = i_result (x_interp (tk_init_at z w).1) ∧
    calls_to FTk_Init (w_log w') = S (calls_to FTk_Init (w_log w)) ∧
    (TKINTER_PROTECT_LOADTK cfg = true →
       tk_load_failed w' = 1%Z ∧ failed_var w' = Some "1").
Proof.
  intros Hs Hn Htk.
  rewrite (flags_off_tk_init cfg z w (c_opt_streq_not_1 _ Hs) (no_tk_failure_seen_false cfg w Hn)), Htk.
  unfold record_tk_failure, after_tk_init. cm_unfold.
  destruct (TKINTER_PROTECT_LOADTK cfg); simpl; eexists; split_and!;
    try reflexivity; try apply calls_to_snoc_same; try done.
  intros _. split; [done|]. apply lookup_insert_eq.
Qed.

(** C13: when zvfs was mounted and the phase gets to [Tk_Init], the state
    [Tk_Init] sees has [env(TK_LIBRARY)] and [tk_library] set to
    [/zvfs/tk8.6]: the paths are written strictly before the call, and
    that call is the next logged event. *)
Theorem tk_phase_tk_init_sees_zvfs_paths (z : Z) (w : world) :
  c_true z = true → flag_not_1 (skip_var w) = true → no_tk_failure_seen cfg w = true →
  ∃ x post, w_log (state_of (tk_phase cfg z w)) = w_log w ++ Ev FTk_Init [] x :: post ∧
    p_environ (x_proc x) !! "TK_LIBRARY" = Some ZVFS_TK_DIR ∧
    i_globals (x_interp x) !! "tk_library" = Some ZVFS_TK_DIR.
Proof.
  intros Hz Hs Hn.
  rewrite (flags_off_tk_init cfg z w (c_opt_streq_not_1 _ Hs) (no_tk_failure_seen_false cfg w Hn)).
  destruct (preserved_state log_grows
    (if ((tk_init_at z w).2 =? TCL_ERROR)%Z then (_ ← record_tk_failure cfg; mret TCL_ERROR)
     else post_tk_init cfg) (after_tk_init z w)) as [post Hpost];
    [case_match; solve_preserved|].
  exists (w_ext (tk_paths_world z w)), post. unfold log_grows in Hpost.
  rewrite Hpost. unfold after_tk_init, tk_paths_world. simpl. rewrite <- app_assoc.
  rewrite Hz. simpl. split_and!; [done | apply lookup_insert_eq | apply lookup_insert_eq].
Qed.
End TkPhase2.

Section TkPhase3.
Context `{!TclRuntime} (cfg : config).

(** The hooks before the registrations never fault, keep the latch and
    do not call [Tk_Init]. *)
Lemma post_tk_init_hooks (w : world) :
  ∃ wh, latch_kept w wh ∧
    post_tk_init cfg w = (_ ← register_static_packages cfg; mret TCL_OK) wh.
Proof.
  unfold post_tk_init, Tk_MainWindow, TkMacOSXInitAppleEvents, TkMacOSXInitMenus,
    TkImaging_Init.
  rewrite cm_bind_run. unfold ext_call at 1. cbn [state_of].
  destruct (TK_AQUA cfg), (WITH_PIL cfg); cm_unfold; cbn -[calls_to]; eexists;
    (split; [|reflexivity]); split; try reflexivity;
    cbn [w_log]; rewrite ?calls_to_snoc; simpl; lia.
Qed.

(** C16: when [Tk_Init] succeeds the phase returns [TCL_OK], the latch is
    unchanged, [Tk_Init] was called once, and each statically linked
    package of the configuration is registered. *)
Theorem tk_phase_success (z : Z) (w : world) :
  flag_not_1 (skip_var w) = true → no_tk_failure_seen cfg w = true →
  (tk_init_at z w).2 ≠ TCL_ERROR →
  ∃ w', tk_phase cfg z w = CRet w' TCL_OK ∧
    tk_load_failed w' = tk_load_failed w ∧
    calls_to FTk_Init (w_log w') = S (calls_to FTk_Init (w_log w)) ∧
    (WITH_TIX cfg = true → ("Tix", true) ∈ p_static (w_proc w')) ∧
    (WITH_BLT cfg = true → ("Blt", true) ∈ p_static (w_proc w')) ∧
    (WITH_TOGL cfg = true → ("Togl", false) ∈ p_static (w_proc w')).
Proof.
  intros Hs Hn Htk.
  rewrite (flags_off_tk_init cfg z w (c_opt_streq_not_1 _ Hs) (no_tk_failure_seen_false cfg w Hn)).
  rewrite (proj2 (Z.eqb_neq _ _) Htk).
  destruct (post_tk_init_hooks (after_tk_init z w)) as (wh & [Hl Hc] & ->).
  destruct (register_static_packages_spec cfg wh)
    as (w' & Hr & Hl' & Hlog & _ & Htix & Hblt & Htogl).
  rewrite (cm_bind_ok _ _ _ _ _ Hr). exists w'. split_and!; try done.
  - rewrite Hl', Hl. reflexivity.
  - rewrite Hlog, Hc. apply calls_to_snoc_same.
Qed.

(** C22: without [TKINTER_PROTECT_LOADTK] there is no latch: unless the
    skip flag is ["1"], every run of the phase calls [Tk_Init] again,
    whatever [tk_load_failed] and [_tkinter_tk_failed] hold. *)
Theorem tk_phase_unprotected_retries (z : Z) (w : world) :
  TKINTER_PROTECT_LOADTK cfg = false → flag_not_1 (skip_var w) = true →
  calls_to FTk_Init (w_log (state_of (tk_phase cfg z w))) = S (calls_to FTk_Init (w_log w)).
Proof.
  intros Hp Hs.
  rewrite (flags_off_tk_init cfg z w (c_opt_streq_not_1 _ Hs)) by (by rewrite Hp).
  destruct (_ =? _)%Z.
  - unfold record_tk_failure. rewrite Hp. apply calls_to_snoc_same.
  - destruct (post_tk_init_latch_kept cfg (after_tk_init z w)) as [_ ->].
    apply calls_to_snoc_same.
Qed.
End TkPhase3.

(** ** Runs of the Tk phase at the level of the tests the code makes *)
Section TkPhaseRuns.
Context `{!TclRuntime} (cfg : config).

Lemma tk_phase_skip_run (z : Z) (w : world) :
  c_opt_streq (skip_var w) "1" = true → tk_phase cfg z w = CRet w TCL_OK.
Proof.
  intros Hs. unfold tk_phase.
  by rewrite (cm_bind_ok _ _ _ _ _ (skip_tk_init_requested_run w)), Hs.
Qed.

Lemma tk_phase_fail_fast_run (z : Z) (w : world) :
  TKINTER_PROTECT_LOADTK cfg = true → c_opt_streq (skip_var w) "1" = false →
  (c_true (tk_load_failed w) || c_opt_streq (failed_var w) "1") = true →
  tk_phase cfg z w = CRet (upd_interp (set_result TKINTER_LOADTK_ERRMSG) w) TCL_ERROR.
Proof.
  intros Hp Hs Hf. unfold tk_phase.
  rewrite (cm_bind_ok _ _ _ _ _ (skip_tk_init_requested_run w)), Hs.
  rewrite (cm_bind_ok _ _ _ _ _ (tk_previously_failed_run cfg w)), Hp, Hf.
  reflexivity.
Qed.

Lemma Tcl_Init_run (w : world) :
  Tcl_Init w = CRet (mkWorld (Tcl_Init_impl (w_ext w)).1 (tk_load_failed w)
                       (w_log w ++ [Ev FTcl_Init [] (w_ext w)]))
                    (Tcl_Init_impl (w_ext w)).2.
Proof. reflexivity. Qed.

Lemma tk_phase_log_grows z : preserved log_grows (tk_phase cfg z).
Proof.
  unfold tk_phase, set_tk_library_paths, Tk_Init. solve_preserved.
Qed.

Lemma aqua_tk_library_log_grows s : preserved log_grows (aqua_tk_library s).
Proof. unfold aqua_tk_library, Tk_MacOSXOpenBundleResources. solve_preserved. Qed.
End TkPhaseRuns.

#[export] Hint Resolve tk_phase_log_grows aqua_tk_library_log_grows : tkinit.

(** [tk_load_failed] only ever stays as it is or becomes 1. *)
Definition latch_mono (w w' : world) : Prop :=
  tk_load_failed w' = tk_load_failed w ∨ tk_load_failed w' = 1%Z.

#[export] Instance latch_mono_preorder : PreOrder latch_mono.
Proof.
  unfold latch_mono. split; [intros w; by left|].
  intros w1 w2 w3 [H|H] [Hb|Hb]; rewrite ?Hb, ?H; auto.
Qed.

Lemma latch_mono_upd_interp f w : latch_mono w (upd_interp f w).
Proof. by left. Qed.
Lemma latch_mono_upd_proc f w : latch_mono w (upd_proc f w).
Proof. by left. Qed.
Lemma latch_mono_ext_call `{!TclRuntime} {A} fn args (f : ext → ext * A) :
  preserved latch_mono (ext_call fn args f).
Proof. intros w. by left. Qed.
Lemma latch_mono_set_tk_load_failed : preserved latch_mono (set_tk_load_failed 1).
Proof. intros w. by right. Qed.

#[export] Hint Resolve latch_mono_upd_interp latch_mono_upd_proc latch_mono_ext_call
  latch_mono_set_tk_load_failed : tkinit.

Section AppInitFrames.
Context `{!TclRuntime} (cfg : config).

Lemma Tcl_AppInit_latch_mono_preserved : preserved latch_mono (Tcl_AppInit cfg).
Proof.
  unfold Tcl_AppInit, tk_phase, aqua_tcl_library, aqua_tk_library, post_tk_init,
    register_static_packages, record_tk_failure, set_tk_library_paths, setup_zvfs.
  solve_preserved.
Qed.
End AppInitFrames.

Section AppInitLatched.
Context `{!TclRuntime} (cfg : config).

(** The steps of [Tcl_AppInit] before the Tk phase keep the latch. *)
Lemma Tcl_AppInit_wp (w : world) (Q : Z → world → Prop) (F : world → Prop) :
  (∀ w', latch_kept w w' → F w') →
  (∀ w' x, latch_kept w w' → (Tcl_Init_impl x).2 = TCL_ERROR → Q TCL_ERROR w') →
  (∀ z w' x, latch_kept w w' → (Tcl_Init_impl x).2 ≠ TCL_ERROR →
     wp (tk_phase cfg z) Q F w') →
  wp (Tcl_AppInit cfg) Q F w.
Proof.
  intros HF HE HT. unfold Tcl_AppInit.
  apply wp_bind. eapply (wp_preserved latch_kept);
    [destruct (TK_AQUA cfg); solve_preserved | | done].
  intros s w0 H0. apply wp_bind. eapply (wp_preserved latch_kept); [solve_preserved| |].
  2: { intros w1 H1. apply HF. by etrans. }
  intros z w1 H1. apply wp_bind. eapply wp_eq; [apply Tcl_Init_run|].
  assert (latch_kept w (mkWorld (Tcl_Init_impl (w_ext w1)).1 (tk_load_failed w1)
            (w_log w1 ++ [Ev FTcl_Init [] (w_ext w1)]))) as H2.
  { etrans; [by etrans|]. by apply (Tcl_Init_latch_kept w1). }
  destruct (Z.eqb_spec (Tcl_Init_impl (w_ext w1)).2 TCL_ERROR) as [Ht|Ht].
  { apply wp_ret. by eapply HE. }
  apply wp_bind. eapply (wp_preserved latch_kept); [solve_preserved| |].
  2: { intros w3 H3. apply HF. by etrans. }
  intros [] w3 H3. eapply HT; [by etrans | exact Ht].
Qed.

(** Once [tk_load_failed] is set (with [TKINTER_PROTECT_LOADTK]),
    [Tcl_AppInit] keeps the latch, never calls [Tk_Init], and returns
    either [TCL_OK] because the skip flag is ["1"] or [TCL_ERROR]; when
    [Tcl_Init] itself succeeded the result is [TKINTER_LOADTK_ERRMSG]. *)
Lemma Tcl_AppInit_latched (w : world) :
  TKINTER_PROTECT_LOADTK cfg = true → c_true (tk_load_failed w) = true →
  wp (Tcl_AppInit cfg)
    (λ r w', latch_kept w w' ∧
       ((r = TCL_OK ∧ c_opt_streq (skip_var w') "1" = true) ∨
        (r = TCL_ERROR ∧
           ((∀ x, (Tcl_Init_impl x).2 ≠ TCL_ERROR) →
            i_result (w_interp w') = TKINTER_LOADTK_ERRMSG))))
    (latch_kept w) w.
Proof.
  intros Hp Hl. apply Tcl_AppInit_wp; [done| |].
  - intros w' x Hw' Hx. split; [done|]. right. split; [done|].
    intros Htcl. by destruct (Htcl x).
  - intros z w' x [Hl' Hc] _. rewrite <- Hl' in Hl.
    destruct (c_opt_streq (skip_var w') "1") eqn:Hs.
    + eapply wp_eq; [by apply tk_phase_skip_run|]. split; [done|]. by left.
    + eapply wp_eq; [apply tk_phase_fail_fast_run; [done | done | by rewrite Hl]|].
      split; [done|]. by right.
Qed.
End AppInitLatched.

Section AppInitTcl.
Context `{!TclRuntime} (cfg : config).

(** C12: on a build without [TK_AQUA], when the executable carries the
    signature, the [Tcl_Init] call is the next engine call after the zvfs
    mount, and the state it sees has
    [env(TCL_LIBRARY)] and [tcl_library] set to [/zvfs/tcl8.6]: the
    paths are written strictly before Tcl reads them. *)
Theorem Tcl_AppInit_tcl_init_sees_zvfs_library (w : world) (path : string) (img : list byte) :
  TK_AQUA cfg = false → p_exe (w_proc w) = Some path →
  p_files (w_proc w) !! path = Some img → zip_detect img = true →
  ∃ x post, w_log (state_of (Tcl_AppInit cfg w)) =
              w_log (zvfs_mounted_world w) ++ Ev FTcl_Init [] x :: post ∧
    p_environ (x_proc x) !! "TCL_LIBRARY" = Some ZVFS_TCL_DIR ∧
    i_globals (x_interp x) !! "tcl_library" = Some ZVFS_TCL_DIR.
Proof.
  intros Ha He Hf Hd. pose proof (setup_zvfs_readable w path img He Hf) as Hs.
  rewrite Hd in Hs. unfold Tcl_AppInit. rewrite Ha, cm_ret_bind, (cm_bind_ok _ _ _ _ _ Hs).
  rewrite (cm_bind_ok _ _ _ _ _ (Tcl_Init_run _)).
  match goal with
  | |- context [state_of (?k ?w1)] =>
      destruct (preserved_state log_grows k w1) as [post Hpost]; [solve_preserved|]
  end.
  exists (w_ext (zvfs_mounted_world w)), post. rewrite Hpost. simpl.
  rewrite <- app_assoc. split_and!; [done | apply zvfs_mounted_environ | apply zvfs_mounted_globals].
Qed.
End AppInitTcl.

(** ** The [TK_AQUA] branches *)
Section Aqua.
Context `{!TclRuntime} (cfg : config).

Lemma aqua_tcl_library_empty (w : world) :
  (Tk_MacOSXOpenBundleResources_impl "com.tcltk.tcllibrary" MAX_PATH_LEN 0 (w_ext w)).2 = "" →
  aqua_tcl_library w =
    CRet (state_of (Tk_MacOSXOpenBundleResources "com.tcltk.tcllibrary" MAX_PATH_LEN 0 w)) "".
Proof.
  intros Hb. unfold aqua_tcl_library. rewrite cm_bind_run.
  unfold Tk_MacOSXOpenBundleResources at 1, ext_call at 1. simpl. by rewrite Hb.
Qed.

Lemma aqua_tk_library_empty_faults (w : world) :
  ∃ what w', aqua_tk_library "" w = CFault (UndefinedBehaviour what) w'.
Proof.
  unfold aqua_tk_library. rewrite cm_bind_run.
  unfold Tk_MacOSXOpenBundleResources at 1, ext_call at 1. cbn [c_nonempty].
  rewrite cm_bind_run. simpl.
  destruct (c_nonempty _); cm_unfold; simpl; eauto.
Qed.

(** C19: under [TK_AQUA], when the bundle has no Tcl library
    ([tclLibPath] is empty) and [Tcl_Init] succeeds, [Tcl_AppInit] uses
    the uninitialised outer [pathPtr] (the [else] branch of line 116
    declares a shadowing one): undefined behaviour. *)
Theorem Tcl_AppInit_aqua_uninitialised_pathPtr (w : world) :
  TK_AQUA cfg = true → p_exe (w_proc w) ≠ None →
  (∀ b l h x, p_exe (x_proc (Tk_MacOSXOpenBundleResources_impl b l h x).1) = p_exe (x_proc x)) →
  (∀ l h x, (Tk_MacOSXOpenBundleResources_impl "com.tcltk.tcllibrary" l h x).2 = "") →
  (∀ x, (Tcl_Init_impl x).2 ≠ TCL_ERROR) →
  ∃ what w', Tcl_AppInit cfg w = CFault (UndefinedBehaviour what) w'.
Proof.
  intros Ha He Hexe Hb Htcl. unfold Tcl_AppInit. rewrite Ha.
  rewrite (cm_bind_ok _ _ _ _ _ (aqua_tcl_library_empty w (Hb _ _ _))).
  destruct (p_exe (w_proc w)) as [path|] eqn:Hp; [|done].
  destruct (setup_zvfs_returns
    (state_of (Tk_MacOSXOpenBundleResources "com.tcltk.tcllibrary" MAX_PATH_LEN 0 w)) path)
    as (w1 & z & Hs).
  { simpl. unfold w_proc in *. simpl. by rewrite Hexe. }
  rewrite (cm_bind_ok _ _ _ _ _ Hs), (cm_bind_ok _ _ _ _ _ (Tcl_Init_run _)).
  rewrite ?(proj2 (Z.eqb_neq _ _) (Htcl _)).
  destruct (aqua_tk_library_empty_faults
    (mkWorld (Tcl_Init_impl (w_ext w1)).1 (tk_load_failed w1)
       (w_log w1 ++ [Ev FTcl_Init [] (w_ext w1)]))) as (what & w' & Hf).
  exists what, w'. simpl. by rewrite (cm_bind_fault _ _ _ _ _ Hf).
Qed.
End Aqua.

(** ** Build configurations *)

(** CPython's usual build: the latch on, no macOS, no extra packages. *)
Definition cfg_protect : config := mkConfig true false false false false false false.
(** The same without [TKINTER_PROTECT_LOADTK]. *)
Definition cfg_unprotected : config := mkConfig false false false false false false false.
(** A macOS framework build. *)
Definition cfg_aqua : config := mkConfig true true false false false false false.
(** With Tix, BLT and Togl linked in. *)
Definition cfg_packages : config := mkConfig true false false false true true true.

Definition TCL_BUNDLE : string := "/Library/Frameworks/Tcl.framework/Resources/Scripts".
Definition TK_BUNDLE : string := "/Library/Frameworks/Tk.framework/Resources/Scripts".
Definition rt_aqua : TclRuntime := stub_runtime TCL_OK TCL_OK TCL_OK TCL_BUNDLE TK_BUNDLE.

(** A fresh interpreter whose embedder asked to skip Tk. *)
Definition skip_world (img : list byte) : world :=
  upd_interp (set_globals {[ "_tkinter_skip_tk_init" := "1" ]}) (world_with img).

(** ** Witnesses *)

(** A fresh interpreter in a process whose [tk_load_failed] is already set. *)
Definition latched_world : world := mkWorld (w_ext (world_with plain_image)) 1%Z [].

Lemma tk_phase_skip_witness :
  @tk_phase rt_ok cfg_protect 0 (skip_world plain_image) = CRet (skip_world plain_image) TCL_OK.
Proof. apply (@tk_phase_skip rt_ok cfg_protect 0 (skip_world plain_image)). reflexivity. Defined.

Lemma tk_phase_previous_failure_witness :
  @tk_phase rt_ok cfg_protect 0 latched_world =
    CRet (upd_interp (set_result TKINTER_LOADTK_ERRMSG) latched_world) TCL_ERROR.
Proof.
  apply (@tk_phase_previous_failure rt_ok cfg_protect 0 latched_world);
    [reflexivity | reflexivity | left; discriminate].
Defined.

Lemma tk_phase_tk_init_fails_witness :
  ∃ w', @tk_phase rt_tk_fails cfg_protect 0 (world_with plain_image) = CRet w' TCL_ERROR ∧
    i_result (w_interp w') =
      i_result (x_interp (@tk_init_at rt_tk_fails 0 (world_with plain_image)).1) ∧
    calls_to FTk_Init (w_log w') = S (calls_to FTk_Init (w_log (world_with plain_image))) ∧
    (TKINTER_PROTECT_LOADTK cfg_protect = true →
       tk_load_failed w' = 1%Z ∧ failed_var w' = Some "1").
Proof.
  apply (@tk_phase_tk_init_fails rt_tk_fails cfg_protect 0 (world_with plain_image));
    reflexivity.
Defined.

Lemma tk_phase_tk_init_sees_zvfs_paths_witness :
  ∃ x post, w_log (state_of (@tk_phase rt_ok cfg_protect 1 (world_with plain_image))) =
              w_log (world_with plain_image) ++ Ev FTk_Init [] x :: post ∧
    p_environ (x_proc x) !! "TK_LIBRARY" = Some ZVFS_TK_DIR ∧
    i_globals (x_interp x) !! "tk_library" = Some ZVFS_TK_DIR.
Proof.
  apply (@tk_phase_tk_init_sees_zvfs_paths rt_ok cfg_protect 1 (world_with plain_image));
    reflexivity.
Defined.

Lemma tk_phase_success_witness :
  ∃ w', @tk_phase rt_ok cfg_packages 0 (world_with plain_image) = CRet w' TCL_OK ∧
    tk_load_failed w' = tk_load_failed (world_with plain_image) ∧
    calls_to FTk_Init (w_log w') = S (calls_to FTk_Init (w_log (world_with plain_image))) ∧
    (WITH_TIX cfg_packages = true → ("Tix", true) ∈ p_static (w_proc w')) ∧
    (WITH_BLT cfg_packages = true → ("Blt", true) ∈ p_static (w_proc w')) ∧
    (WITH_TOGL cfg_packages = true → ("Togl", false) ∈ p_static (w_proc w')).
Proof.
  apply (@tk_phase_success rt_ok cfg_packages 0 (world_with plain_image));
    [reflexivity | reflexivity | discriminate].
Defined.

Lemma tk_phase_unprotected_retries_witness :
  calls_to FTk_Init (w_log (state_of (@tk_phase rt_tk_fails cfg_unprotected 0 latched_world))) =
    S (calls_to FTk_Init (w_log latched_world)).
Proof.
  apply (@tk_phase_unprotected_retries rt_tk_fails cfg_unprotected 0 latched_world);
    reflexivity.
Defined.

Lemma Tcl_AppInit_tcl_init_sees_zvfs_library_witness :
  ∃ x post, w_log (state_of (@Tcl_AppInit rt_ok cfg_protect (world_with zipped_image))) =
              w_log (@zvfs_mounted_world rt_ok (world_with zipped_image)) ++
              Ev FTcl_Init [] x :: post ∧
    p_environ (x_proc x) !! "TCL_LIBRARY" = Some ZVFS_TCL_DIR ∧
    i_globals (x_interp x) !! "tcl_library" = Some ZVFS_TCL_DIR.
Proof.
  apply (@Tcl_AppInit_tcl_init_sees_zvfs_library rt_ok cfg_protect (world_with zipped_image)
           EXE zipped_image); reflexivity.
Defined.

(** A macOS runtime whose bundle has no Tcl library. *)
Definition rt_aqua_no_tcl : TclRuntime := stub_runtime TCL_OK TCL_OK TCL_OK "" TK_BUNDLE.

Lemma Tcl_AppInit_aqua_uninitialised_pathPtr_witness :
  ∃ what w', @Tcl_AppInit rt_aqua_no_tcl cfg_aqua (world_with plain_image) =
               CFault (UndefinedBehaviour what) w'.
Proof.
  apply (@Tcl_AppInit_aqua_uninitialised_pathPtr rt_aqua_no_tcl cfg_aqua (world_with plain_image));
    [reflexivity | discriminate | intros; reflexivity | intros; reflexivity
    | intros x; discriminate].
Defined.
