(* ===== verification/Sequencer.v ===== *)
(** * The InitSequencer contract and its refinement by [Tcl_AppInit]

    The abstract machine of the spec's InitSequencer: the phases
    [DetectArchive → MountVFS → ResolveScriptingPaths → InitScriptingEngine
    → CheckSkipFlag → CheckGuiLatch → ResolveGuiPaths → InitGuiToolkit →
    Done], their outcomes and error kinds, as a function [sequence] of what
    the environment answers (is there an archive, did each engine succeed,
    what do the flags hold).  [sequencer_contract] says what a run must
    show: the engine calls in the log are those of the phases visited, the
    return code is the outcome's, the latch moves only on a fresh GUI
    failure, and a latched failure leaves the stable message.  The main
    theorem shows that [Tcl_AppInit] (non-Aqua builds) satisfies it.

    The contract does not ask for the stable message on a fresh GUI
    failure, which the spec does: the code leaves [Tk_Init]'s own message
    there (see [tk_phase_tk_init_fails]).  Nor does it ask the latch to be
    consulted when the build lacks [TKINTER_PROTECT_LOADTK]: [sequence]
    takes that build flag as a parameter. *)

From S2P Require Import Prelude CLib Tcl Stubs Zvfs AppInit.
From Stdlib Require Import ZArith.

(** ** The abstract machine *)

Inductive phase :=
| DetectArchive | MountVFS | ResolveScriptingPaths | InitScriptingEngine
| CheckSkipFlag | CheckGuiLatch | ResolveGuiPaths | InitGuiToolkit
| RunHooks | Done.

(** The error kinds that are surfaced to the caller. *)
Inductive init_error :=
| ScriptingEngineInitFailed | GuiInitFailed | GuiInitPreviouslyFailed.

Inductive outcome := Succeeded | SkippedGui | Failed (e : init_error).

#[export] Instance phase_eq_dec : EqDecision phase.
Proof. solve_decision. Defined.
#[export] Instance init_error_eq_dec : EqDecision init_error.
Proof. solve_decision. Defined.
#[export] Instance outcome_eq_dec : EqDecision outcome.
Proof. solve_decision. Defined.

(** What the environment answers during one run. *)
Record observations := mkObs {
  ob_archive : bool;   (** the executable ends with an archive record *)
  ob_tcl_ok : bool;    (** the scripting engine initialised *)
  ob_skip : bool;      (** the skip flag holds the literal ["1"] *)
  ob_latched : bool;   (** a GUI failure was recorded before *)
  ob_tk_ok : bool      (** the GUI toolkit initialised *)
}.

(** From [CheckSkipFlag] on. *)
Definition gui_sequence (protect skip latched tk_ok : bool) : list phase * outcome :=
  if skip then ([CheckSkipFlag; Done], SkippedGui)
  else if protect && latched then ([CheckSkipFlag; CheckGuiLatch], Failed GuiInitPreviouslyFailed)
  else if tk_ok then
    ([CheckSkipFlag; CheckGuiLatch; ResolveGuiPaths; InitGuiToolkit; RunHooks; Done], Succeeded)
  else ([CheckSkipFlag; CheckGuiLatch; ResolveGuiPaths; InitGuiToolkit], Failed GuiInitFailed).

(** The phases up to [InitScriptingEngine]. *)
Definition scripting_phases (archive : bool) : list phase :=
  DetectArchive :: (if archive then [MountVFS] else []) ++ [ResolveScriptingPaths; InitScriptingEngine].

(** The phases visited and the outcome.  [protect] is whether the build
    has the latch at all. *)
Definition sequence (protect : bool) (o : observations) : list phase * outcome :=
  if ob_tcl_ok o then
    let '(tr, out) := gui_sequence protect (ob_skip o) (ob_latched o) (ob_tk_ok o) in
    (scripting_phases (ob_archive o) ++ tr, out)
  else (scripting_phases (ob_archive o), Failed ScriptingEngineInitFailed).

(** The engine entry points each phase calls. *)
Definition phase_calls (p : phase) : list ext_fn :=
  match p with
  | MountVFS => [FZvfs_Init; FZvfs_Mount]
  | InitScriptingEngine => [FTcl_Init]
  | InitGuiToolkit => [FTk_Init]
  | RunHooks => [FTk_MainWindow]
  | _ => []
  end.

Definition trace_calls (tr : list phase) : list ext_fn := tr ≫= phase_calls.

Definition outcome_rc (out : outcome) : Z :=
  match out with Failed _ => TCL_ERROR | _ => TCL_OK end.

(** The latch becomes 1 on a fresh GUI failure of a protected build and
    is otherwise left as it was. *)
Definition latch_after (protect : bool) (out : outcome) (l : Z) : Z :=
  if protect && bool_decide (out = Failed GuiInitFailed) then 1%Z else l.

(** ** Observing a run *)

Definition sequencer_fns : list ext_fn :=
  [FZvfs_Init; FZvfs_Mount; FTcl_Init; FTk_Init; FTk_MainWindow].

(** The sequencer's engine calls in a log, in order. *)
Definition sequencer_calls (l : list event) : list ext_fn :=
  filter (λ fn, fn ∈ sequencer_fns) (ev_fn <$> l).

(** The state the first call to [fn] in [l] was made in. *)
Definition call_at (fn : ext_fn) (l : list event) : option ext :=
  ev_at <$> head (filter (λ e, ev_fn e = fn) l).

(** Whether the executable the process records ends with an archive. *)
Definition archive_present (w : world) : bool :=
  match p_exe (w_proc w) with
  | Some path =>
      match p_files (w_proc w) !! path with
      | Some img => zip_detect img
      | None => false
      end
  | None => false
  end.

Definition flag_is_1 (x : ext) (name : string) : bool :=
  c_opt_streq (i_globals (x_interp x) !! name) "1".

Section Observe.
Context `{!TclRuntime}.

Definition engine_ok (rc : Z) : bool := negb (rc =? TCL_ERROR)%Z.

(** The answers of a run that started in [w] and logged [new]: the flags
    are read in the state [Tcl_Init] left. *)
Definition observe (w : world) (new : list event) : observations :=
  let after_tcl := (λ x, (Tcl_Init_impl x).1) <$> call_at FTcl_Init new in
  {| ob_archive := archive_present w;
     ob_tcl_ok := default false ((λ x, engine_ok (Tcl_Init_impl x).2) <$> call_at FTcl_Init new);
     ob_skip := default false ((λ x, flag_is_1 x "_tkinter_skip_tk_init") <$> after_tcl);
     ob_latched := c_true (tk_load_failed w) ||
                   default false ((λ x, flag_is_1 x "_tkinter_tk_failed") <$> after_tcl);
     ob_tk_ok := default true ((λ x, engine_ok (Tk_Init_impl x).2) <$> call_at FTk_Init new) |}.

(** A run that logged [new] and went from latch [l0] to [w'] returning
    [rc] matches the phases [tr] and outcome [out]. *)
Definition run_matches (protect : bool) (tr_out : list phase * outcome) (l0 : Z)
    (new : list event) (rc : Z) (w' : world) : Prop :=
  let '(tr, out) := tr_out in
  sequencer_calls new = trace_calls tr ∧ rc = outcome_rc out ∧
  tk_load_failed w' = latch_after protect out l0 ∧
  (out = Failed GuiInitPreviouslyFailed → i_result (w_interp w') = TKINTER_LOADTK_ERRMSG).

(** The contract of one run from [w] to [w'] returning [rc]. *)
Definition sequencer_contract (protect : bool) (w : world) (rc : Z) (w' : world) : Prop :=
  ∃ new, w_log w' = w_log w ++ new ∧
    run_matches protect (sequence protect (observe w new)) (tk_load_failed w) new rc w'.
End Observe.

(** ** Logs *)

Lemma sequencer_calls_app l1 l2 :
  sequencer_calls (l1 ++ l2) = sequencer_calls l1 ++ sequencer_calls l2.
Proof. unfold sequencer_calls. by rewrite fmap_app, filter_app. Qed.

Lemma sequencer_calls_cons e l :
  sequencer_calls (e :: l) = sequencer_calls [e] ++ sequencer_calls l.
Proof. apply (sequencer_calls_app [e] l). Qed.

Lemma call_at_app_miss fn l1 l2 :
  Forall (λ e, ev_fn e ≠ fn) l1 → call_at fn (l1 ++ l2) = call_at fn l2.
Proof.
  induction 1 as [|e l1 He _ IH]; [done|].
  unfold call_at in *. simpl. rewrite filter_cons, decide_False by done. exact IH.
Qed.

Lemma call_at_cons_miss fn e l : ev_fn e ≠ fn → call_at fn (e :: l) = call_at fn l.
Proof. intros Hne. apply (call_at_app_miss fn [e] l). by constructor. Qed.

Lemma call_at_hit fn args x l : call_at fn (Ev fn args x :: l) = Some x.
Proof. unfold call_at. simpl. by rewrite filter_cons, decide_True. Qed.

Lemma trace_calls_app tr1 tr2 : trace_calls (tr1 ++ tr2) = trace_calls tr1 ++ trace_calls tr2.
Proof. unfold trace_calls. by rewrite bind_app. Qed.

Lemma latch_after_other protect out l :
  out ≠ Failed GuiInitFailed → latch_after protect out l = l.
Proof. intros Hne. unfold latch_after. rewrite bool_decide_eq_false_2 by done. by destruct protect. Qed.

Lemma engine_ok_error rc : rc = TCL_ERROR → engine_ok rc = false.
Proof. by intros ->. Qed.

Lemma engine_ok_true rc : rc ≠ TCL_ERROR → engine_ok rc = true.
Proof. intros Hne. unfold engine_ok. by rewrite (proj2 (Z.eqb_neq _ _) Hne). Qed.

(** Close a [run_matches] goal once the run and the branch are known. *)
Ltac run_matches_solve :=
  simpl; split_and!; try done; rewrite ?latch_after_other by done; done.

#[export] Hint Rewrite sequencer_calls_app trace_calls_app call_at_hit : tkinit_run.

(** ** The Tk phase follows [gui_sequence] *)
Section TkPhase.
Context `{!TclRuntime} (cfg : config).

Lemma post_tk_init_follows (w : world) :
  ∃ w' new, post_tk_init cfg w = CRet w' TCL_OK ∧ w_log w' = w_log w ++ new ∧
    sequencer_calls new = [FTk_MainWindow] ∧ tk_load_failed w' = tk_load_failed w.
Proof.
  unfold post_tk_init, Tk_MainWindow, TkMacOSXInitAppleEvents, TkMacOSXInitMenus, TkImaging_Init.
  destruct (TK_AQUA cfg), (WITH_PIL cfg); cm_unfold; simpl;
  match goal with |- context [register_static_packages cfg ?w] =>
    destruct (register_static_packages_spec cfg w) as (w' & -> & Hl & Hlog & _) end;
  eexists _, _; (split_and!; [reflexivity | rewrite Hlog; simpl; rewrite <- ?app_assoc; reflexivity
                              | reflexivity | exact Hl]).
Qed.

(** Every run of the Tk phase follows [gui_sequence] on the flags it
    reads and the answer of [Tk_Init] in its log. *)
Lemma tk_phase_follows (z : Z) (w : world) :
  ∃ w' rc new, tk_phase cfg z w = CRet w' rc ∧ w_log w' = w_log w ++ new ∧
    run_matches (TKINTER_PROTECT_LOADTK cfg)
      (gui_sequence (TKINTER_PROTECT_LOADTK cfg) (flag_is_1 (w_ext w) "_tkinter_skip_tk_init")
         (c_true (tk_load_failed w) || flag_is_1 (w_ext w) "_tkinter_tk_failed")
         (default true ((λ x, engine_ok (Tk_Init_impl x).2) <$> call_at FTk_Init new)))
      (tk_load_failed w) new rc w'.
Proof.
  change (flag_is_1 (w_ext w) "_tkinter_skip_tk_init") with (c_opt_streq (skip_var w) "1").
  change (flag_is_1 (w_ext w) "_tkinter_tk_failed") with (c_opt_streq (failed_var w) "1").
  destruct (c_opt_streq (skip_var w) "1") eqn:Hs.
  { exists w, TCL_OK, []. rewrite (tk_phase_skip_run cfg z w Hs), app_nil_r.
    run_matches_solve. }
  destruct (TKINTER_PROTECT_LOADTK cfg) eqn:Hp; [destruct (_ || _) eqn:Hl|]; simpl.
  { exists (upd_interp (set_result TKINTER_LOADTK_ERRMSG) w), TCL_ERROR, [].
    rewrite (tk_phase_fail_fast_run cfg z w Hp Hs Hl), app_nil_r.
    run_matches_solve. }
  all: rewrite (flags_off_tk_init cfg z w Hs) by (rewrite Hp; done).
  all: destruct (Z.eqb_spec (tk_init_at z w).2 TCL_ERROR) as [He|He]; unfold tk_init_at in He.
  all: first [ solve [unfold record_tk_failure, after_tk_init; rewrite Hp; cm_unfold; simpl;
          eexists _, _, [_]; (split; [reflexivity|]); (split; [reflexivity|]);
          rewrite call_at_hit; simpl; rewrite engine_ok_error by done; run_matches_solve]
       | solve [destruct (post_tk_init_follows (after_tk_init z w)) as (w' & new & -> & Hlog & Hc & Hl');
          exists w', TCL_OK, (Ev FTk_Init [] (w_ext (tk_paths_world z w)) :: new);
          (split; [done|]); split;
          [rewrite Hlog; unfold after_tk_init; simpl; by rewrite <- app_assoc|];
          rewrite call_at_hit; simpl; rewrite engine_ok_true by done;
          unfold run_matches; rewrite sequencer_calls_cons, Hc, Hl'; run_matches_solve] ].
Qed.
End TkPhase.

(** Events that are neither [Tcl_Init] nor [Tk_Init]. *)
Definition not_engine_init (e : event) : Prop := ev_fn e ≠ FTcl_Init ∧ ev_fn e ≠ FTk_Init.

Lemma run_matches_app protect tr0 tr out l0 pre new rc w' :
  sequencer_calls pre = trace_calls tr0 →
  run_matches protect (tr, out) l0 new rc w' →
  run_matches protect (tr0 ++ tr, out) l0 (pre ++ new) rc w'.
Proof.
  intros Hpre (Hc & Hrc & Hl & Hr). split_and!; try done.
  by rewrite sequencer_calls_app, trace_calls_app, Hpre, Hc.
Qed.

Section Refinement.
Context `{!TclRuntime} (cfg : config).

(** [setup_zvfs] calls the zvfs driver exactly when the archive is there,
    and neither engine initialiser. *)
Lemma setup_zvfs_follows (w : world) (path : string) :
  p_exe (w_proc w) = Some path →
  ∃ w1 z pre, setup_zvfs w = CRet w1 z ∧ w_log w1 = w_log w ++ pre ∧
    tk_load_failed w1 = tk_load_failed w ∧
    sequencer_calls pre = (if archive_present w then [FZvfs_Init; FZvfs_Mount] else []) ∧
    Forall not_engine_init pre.
Proof.
  intros He. unfold archive_present. rewrite He.
  destruct (p_files (w_proc w) !! path) as [img|] eqn:Hf.
  - rewrite (setup_zvfs_readable w path img He Hf). destruct (zip_detect img).
    + eexists _, _, _. split; [reflexivity|]. rewrite zvfs_mounted_log.
      split_and!; [reflexivity | apply zvfs_mounted_latch | reflexivity |].
      repeat constructor; discriminate.
    + exists w, 0%Z, []. rewrite app_nil_r. by split_and!.
  - rewrite (setup_zvfs_unopenable w path He Hf).
    exists w, 0%Z, []. rewrite app_nil_r. by split_and!.
Qed.

(** What a run whose first engine initialiser is the [Tcl_Init] call made
    in [x] observes. *)
Lemma observe_after_tcl (w : world) (pre new : list event) (x : ext) :
  Forall not_engine_init pre →
  observe w (pre ++ Ev FTcl_Init [] x :: new) =
    mkObs (archive_present w) (engine_ok (Tcl_Init_impl x).2)
      (flag_is_1 (Tcl_Init_impl x).1 "_tkinter_skip_tk_init")
      (c_true (tk_load_failed w) || flag_is_1 (Tcl_Init_impl x).1 "_tkinter_tk_failed")
      (default true ((λ y, engine_ok (Tk_Init_impl y).2) <$> call_at FTk_Init new)).
Proof.
  intros Hpre. unfold observe.
  rewrite !(call_at_app_miss _ pre) by (eapply Forall_impl; [exact Hpre|]; by intros ? []).
  by rewrite call_at_hit, call_at_cons_miss.
Qed.

(** C2: [Tcl_AppInit] refines the spec's InitSequencer.  In a build
    without [TK_AQUA], for any engines, whenever the process records its
    executable name, [Tcl_AppInit] returns (it does not fault) and the run
    satisfies [sequencer_contract]: the engine calls it logs (zvfs init and
    mount, [Tcl_Init], [Tk_Init], [Tk_MainWindow]) are, in order, those of
    the phases [sequence] visits on the answers the run observed; the
    return code is the outcome's; the latch changes only on a fresh
    [Tk_Init] failure of a protected build; and a latched refusal leaves
    [TKINTER_LOADTK_ERRMSG] as the result. *)
Theorem Tcl_AppInit_refines_sequencer (w : world) (path : string) :
  TK_AQUA cfg = false → p_exe (w_proc w) = Some path →
  ∃ w' rc, Tcl_AppInit cfg w = CRet w' rc ∧
    sequencer_contract (TKINTER_PROTECT_LOADTK cfg) w rc w'.
Proof.
  intros Ha He.
  destruct (setup_zvfs_follows w path He) as (w1 & z & pre & Hs & Hlog1 & Hl1 & Hc1 & Hpre).
  assert (Hpc : sequencer_calls (pre ++ [Ev FTcl_Init [] (w_ext w1)]) =
                trace_calls (scripting_phases (archive_present w))).
  { rewrite sequencer_calls_app, Hc1. by destruct (archive_present w). }
  unfold Tcl_AppInit. rewrite Ha, cm_ret_bind, (cm_bind_ok _ _ _ _ _ Hs).
  rewrite (cm_bind_ok _ _ _ _ _ (Tcl_Init_run w1)).
  destruct (Z.eqb_spec (Tcl_Init_impl (w_ext w1)).2 TCL_ERROR) as [Ht|Ht].
  - eexists _, _. split; [reflexivity|]. exists (pre ++ [Ev FTcl_Init [] (w_ext w1)]).
    cbn [w_log tk_load_failed]. rewrite Hlog1, app_assoc. split; [done|].
    rewrite observe_after_tcl, engine_ok_error by done.
    unfold sequence, run_matches. cbn [ob_tcl_ok ob_archive]. rewrite Hpc, Hl1.
    split_and!; try done. by rewrite latch_after_other.
  - destruct (tk_phase_follows cfg z (mkWorld (Tcl_Init_impl (w_ext w1)).1 (tk_load_failed w1)
                 (w_log w1 ++ [Ev FTcl_Init [] (w_ext w1)]))) as (w' & rc & new & Htk & Hlog & Hm).
    exists w', rc. split; [exact Htk|]. exists (pre ++ Ev FTcl_Init [] (w_ext w1) :: new).
    cbn [w_log w_ext tk_load_failed] in Hlog, Hm. rewrite Hl1 in Hm.
    split; [by rewrite Hlog, Hlog1, <- !app_assoc|].
    rewrite observe_after_tcl, engine_ok_true by done.
    unfold sequence. cbn [ob_tcl_ok ob_archive ob_skip ob_latched ob_tk_ok].
    revert Hm. destruct (gui_sequence _ _ _ _) as [tr out]. intros Hm.
    replace (pre ++ Ev FTcl_Init [] (w_ext w1) :: new)
      with ((pre ++ [Ev FTcl_Init [] (w_ext w1)]) ++ new) by by rewrite <- app_assoc.
    by apply run_matches_app.
Qed.
End Refinement.

(** ** Clients of the contract *)

Lemma sequence_latched (o : observations) :
  ob_latched o = true →
  (FTk_Init ∉ trace_calls (sequence true o).1) ∧ ((sequence true o).2 ≠ Failed GuiInitFailed).
Proof.
  destruct o as [[] [] [] [] []]; simpl; intros; try discriminate;
    (split; [apply (bool_decide_unpack _); reflexivity | done]).
Qed.

(** From the contract alone: a run of a protected build that starts
    latched keeps the latch and makes no [Tk_Init] call. *)
Lemma sequencer_contract_latched `{!TclRuntime} (w : world) (rc : Z) (w' : world) :
  sequencer_contract true w rc w' → c_true (tk_load_failed w) = true →
  tk_load_failed w' = tk_load_failed w ∧
  ∃ new, w_log w' = w_log w ++ new ∧ FTk_Init ∉ sequencer_calls new.
Proof.
  intros (new & Hlog & Hm) Hl.
  assert (Hob : ob_latched (observe w new) = true) by (simpl; by rewrite Hl).
  destruct (sequence_latched _ Hob) as [Hn Hne]. revert Hm Hn Hne.
  destruct (sequence true (observe w new)) as [tr out]. intros (Hc & _ & Hl' & _) Hn Hne.
  split; [by rewrite Hl', latch_after_other|]. exists new. split; [done|]. by rewrite Hc.
Qed.

Lemma Tcl_AppInit_refines_sequencer_witness :
  TK_AQUA cfg_protect = false ∧ p_exe (w_proc (world_with zipped_image)) = Some EXE ∧
  ∃ w' rc, @Tcl_AppInit rt_ok cfg_protect (world_with zipped_image) = CRet w' rc ∧
    @sequencer_contract rt_ok true (world_with zipped_image) rc w'.
Proof.
  split; [reflexivity|]. split; [reflexivity|].
  apply (@Tcl_AppInit_refines_sequencer rt_ok cfg_protect (world_with zipped_image) EXE);
    reflexivity.
Defined.
