(* ===== verification/Aqua.v ===== *)
(** * The [TK_AQUA] pre-[Tcl_Init] block, duplicated in the source

    Lines 93-97 and 99-103 of [tkappinit.c] are the same block twice
    (copied from [tkMacOSXAppInit.c]).  [aqua_tcl_library_once] is the
    block written once; the theorem shows the duplicate is harmless:
    [aqua_tcl_library] and the single block leave the same state and
    return the same path on every input.

    Also: the library path the Aqua branch builds reads back as exactly the
    two bundle paths when the Tcl path is one list word (the round trip
    the code relies on when it appends to [Tcl_NewStringObj(tclLibPath)]),
    and [Tcl_AppInit] always returns, on every build, when the executable
    name is recorded and an Aqua build finds its Tcl bundle. *)

From S2P Require Import Prelude CLib Tcl Stubs Zvfs AppInit Sequencer.
From Stdlib Require Import ZArith Ascii.

Section Once.
Context `{!TclRuntime}.

(** The reference: lines 89-97 without the repeated block. *)
Definition aqua_tcl_library_once : TM string :=
  tclLibPath ← Tk_MacOSXOpenBundleResources "com.tcltk.tcllibrary" MAX_PATH_LEN 0;
  _ ← cm_when (c_nonempty tclLibPath)
        (_ ← Tcl_SetVar "tcl_library" tclLibPath;
         _ ← Tcl_SetVar "tclDefaultLibrary" tclLibPath;
         Tcl_SetVar "tcl_pkgPath" tclLibPath);
  mret tclLibPath.
End Once.

(** Writing the same three variables with the same value twice is
    writing them once, whatever the names. *)
Lemma insert3_idemp {A} (m : gmap string A) (a b c : string) (v : A) :
  <[c:=v]> (<[b:=v]> (<[a:=v]> (<[c:=v]> (<[b:=v]> (<[a:=v]> m))))) =
  <[c:=v]> (<[b:=v]> (<[a:=v]> m)).
Proof. apply map_eq. intros k. rewrite !lookup_insert. by repeat case_decide. Qed.

Section Equiv.
Context `{!TclRuntime}.

(** C21: the duplicated block is harmless: on every state,
    [aqua_tcl_library] (the code, with lines 99-103 repeating lines 93-97)
    returns the same path and leaves the same state as the block run once. *)
Theorem aqua_tcl_library_duplicate_harmless (w : world) :
  aqua_tcl_library w = aqua_tcl_library_once w.
Proof.
  unfold aqua_tcl_library, aqua_tcl_library_once. rewrite !cm_bind_run.
  destruct (Tk_MacOSXOpenBundleResources _ _ _ w) as [w1 p|]; [|done].
  destruct (c_nonempty p); [|done]. cm_unfold. simpl.
  unfold upd_interp, set_globals. simpl. by rewrite insert3_idemp.
Qed.
End Equiv.

(** ** The Tcl list round trip *)

(** No Tcl list whitespace in the string. *)
Fixpoint one_word (s : string) : bool :=
  match s with
  | EmptyString => true
  | String c s' => negb (is_list_space c) && one_word s'
  end.

Lemma words_acc_one_word (cur : list Ascii.ascii) (s : string) :
  one_word s = true → rev cur ++ String.list_ascii_of_string s ≠ [] →
  words_acc cur s = [String.string_of_list_ascii (rev cur ++ String.list_ascii_of_string s)].
Proof.
  revert cur. induction s as [|c s IH]; intros cur Hw Hne; simpl in *.
  - rewrite app_nil_r in *. destruct cur; [done|]. reflexivity.
  - apply andb_true_iff in Hw as [Hc Hw]. apply negb_true_iff in Hc. rewrite Hc.
    rewrite IH by (done || (simpl; rewrite <- app_assoc; by destruct (rev cur))).
    simpl. by rewrite <- app_assoc.
Qed.

(** A non-empty string without list whitespace is a one-element list. *)
Lemma words_one_word (s : string) : s ≠ "" → one_word s = true → words s = [s].
Proof.
  intros Hne Hw. unfold words. rewrite words_acc_one_word by (done || by destruct s).
  simpl. by rewrite String.string_of_list_ascii_of_string.
Qed.

Section RoundTrip.
Context `{!TclRuntime}.

(** C20: on an Aqua build, when the Tcl bundle path is a single list word
    (no whitespace, braces, quotes or backslashes) and the Tk bundle is
    found, the pre-[Tk_Init] block sets [tk_library] and the library path
    reads back as exactly [[tclLibPath; tkLibPath]]. *)
Theorem aqua_tk_library_path_roundtrip (tcl : string) (w : world) :
  c_nonempty tcl = true → list_plain tcl = true → one_word tcl = true →
  c_nonempty (Tk_MacOSXOpenBundleResources_impl "com.tcltk.tklibrary" MAX_PATH_LEN 1 (w_ext w)).2
    = true →
  ∃ w', aqua_tk_library tcl w = CRet w' tt ∧
    p_library_path (w_proc w') =
      ObjList [tcl; (Tk_MacOSXOpenBundleResources_impl "com.tcltk.tklibrary" MAX_PATH_LEN 1 (w_ext w)).2] ∧
    i_globals (w_interp w') !! "tk_library" =
      Some (Tk_MacOSXOpenBundleResources_impl "com.tcltk.tklibrary" MAX_PATH_LEN 1 (w_ext w)).2.
Proof.
  intros Hn Hp Hw Htk. unfold aqua_tk_library. rewrite Hn.
  unfold Tk_MacOSXOpenBundleResources, ext_call at 1. cm_unfold. simpl. rewrite Htk.
  simpl. rewrite list_of_string_plain, words_one_word by (done || by destruct tcl).
  eexists. split; [reflexivity|]. split; [reflexivity|]. apply lookup_insert_eq.
Qed.
End RoundTrip.

(** Reading a word without list whitespace only extends the current word. *)
Lemma words_acc_app_word (cur : list Ascii.ascii) (a s : string) :
  one_word a = true →
  words_acc cur (a +:+ s) = words_acc (rev (String.list_ascii_of_string a) ++ cur) s.
Proof.
  revert cur. induction a as [|c a IH]; intros cur Hw; [done|].
  simpl in Hw |- *. apply andb_true_iff in Hw as [Hc Hw]. apply negb_true_iff in Hc.
  rewrite Hc, IH by done. by rewrite <- app_assoc.
Qed.

(** Two words separated by a space are two list elements. *)
Lemma words_two (a b : string) :
  a ≠ "" → b ≠ "" → one_word a = true → one_word b = true → words (a +:+ String " "%char b) = [a; b].
Proof.
  intros Ha Hb Hwa Hwb. unfold words. rewrite words_acc_app_word, app_nil_r by done. simpl.
  destruct (rev (String.list_ascii_of_string a)) eqn:Hr.
  { destruct a; [done|]. simpl in Hr. by destruct (rev _). }
  rewrite <- Hr, rev_involutive, String.string_of_list_ascii_of_string.
  change (words_acc [] b) with (words b). by rewrite (words_one_word b).
Qed.

Lemma list_plain_app (a b : string) : list_plain (a +:+ b) = list_plain a && list_plain b.
Proof. induction a as [|c a IH]; [done|]. simpl. by rewrite IH, andb_assoc. Qed.

Lemma c_nonempty_app (a b : string) : a ≠ "" → c_nonempty (a +:+ b) = c_nonempty a.
Proof. by destruct a. Qed.

Section SpacedPath.
Context `{!TclRuntime}.

(** C25: the Aqua block appends the Tk path to [Tcl_NewStringObj(tclLibPath)]
    taken as a Tcl list, so a Tcl bundle path made of two plain words
    [a] and [b] separated by a space (a directory name with a space) is
    split: when the Tk bundle is found the library path becomes the three
    entries [[a; b; tkLibPath]], not [[a b; tkLibPath]]. *)
Theorem aqua_tk_library_splits_spaced_path (a b : string) (w : world) :
  c_nonempty a = true → b ≠ "" → one_word a = true → one_word b = true →
  list_plain a = true → list_plain b = true →
  c_nonempty (Tk_MacOSXOpenBundleResources_impl "com.tcltk.tklibrary" MAX_PATH_LEN 1 (w_ext w)).2
    = true →
  ∃ w', aqua_tk_library (a +:+ String " "%char b) w = CRet w' tt ∧
    p_library_path (w_proc w') =
      ObjList [a; b; (Tk_MacOSXOpenBundleResources_impl "com.tcltk.tklibrary" MAX_PATH_LEN 1 (w_ext w)).2].
Proof.
  intros Hn Hb Hwa Hwb Hpa Hpb Htk.
  assert (Ha : a ≠ "") by (by intros ->).
  unfold aqua_tk_library. rewrite c_nonempty_app, Hn by done.
  unfold Tk_MacOSXOpenBundleResources, ext_call at 1. cm_unfold. simpl. rewrite Htk.
  simpl. rewrite list_of_string_plain, words_two by (done || by rewrite list_plain_app; simpl; rewrite Hpa, Hpb).
  eexists. split; reflexivity.
Qed.
End SpacedPath.

(** ** [Tcl_AppInit] returns *)
Section Returns.
Context `{!TclRuntime} (cfg : config).

Lemma aqua_tk_library_returns (tcl : string) (w : world) :
  c_nonempty tcl = true → ∃ w', aqua_tk_library tcl w = CRet w' tt.
Proof.
  intros Hn. unfold aqua_tk_library. rewrite Hn.
  unfold Tk_MacOSXOpenBundleResources, ext_call at 1. cm_unfold. simpl.
  repeat case_match; simplify_eq/=; eauto.
Qed.

(** The macOS Tcl bundle lookup, with a bundle found and the executable
    name left alone, returns a non-empty path and keeps the name. *)
Lemma aqua_tcl_library_found (w : world) :
  (∀ b l h x, p_exe (x_proc (Tk_MacOSXOpenBundleResources_impl b l h x).1) = p_exe (x_proc x)) →
  (∀ l h x, c_nonempty (Tk_MacOSXOpenBundleResources_impl "com.tcltk.tcllibrary" l h x).2 = true) →
  ∃ w0 s, aqua_tcl_library w = CRet w0 s ∧ c_nonempty s = true ∧
    p_exe (w_proc w0) = p_exe (w_proc w).
Proof.
  intros Hexe Hb. unfold aqua_tcl_library, Tk_MacOSXOpenBundleResources, ext_call at 1.
  cm_unfold. simpl. rewrite Hb. simpl. eexists _, _. split; [reflexivity|].
  split; [apply Hb | apply Hexe].
Qed.

(** Lines 81-103 on any build: nothing on a non-Aqua build; on an Aqua
    build whose Tcl bundle is found, a non-empty [tclLibPath], the
    executable name kept. *)
Lemma Tcl_AppInit_stage0 (w : world) (path : string) :
  p_exe (w_proc w) = Some path →
  (∀ b l h x, p_exe (x_proc (Tk_MacOSXOpenBundleResources_impl b l h x).1) = p_exe (x_proc x)) →
  (TK_AQUA cfg = true →
     ∀ l h x, c_nonempty (Tk_MacOSXOpenBundleResources_impl "com.tcltk.tcllibrary" l h x).2 = true) →
  ∃ w0 s, (if TK_AQUA cfg then aqua_tcl_library else mret "") w = CRet w0 s ∧
    (TK_AQUA cfg = true → c_nonempty s = true) ∧ p_exe (w_proc w0) = Some path.
Proof.
  intros Hp Hexe Hb. destruct (TK_AQUA cfg); [|by exists w, ""].
  destruct (aqua_tcl_library_found w Hexe (Hb eq_refl)) as (w0 & s & ? & ? & ?).
  exists w0, s. split_and!; congruence.
Qed.

(** From line 106 on: once the first region returned with a usable
    [tclLibPath] and the executable name, the rest of [Tcl_AppInit]
    returns. *)
Lemma Tcl_AppInit_after_stage0 (w w0 : world) (s path : string) :
  (if TK_AQUA cfg then aqua_tcl_library else mret "") w = CRet w0 s →
  (TK_AQUA cfg = true → c_nonempty s = true) → p_exe (w_proc w0) = Some path →
  ∃ w' rc, Tcl_AppInit cfg w = CRet w' rc.
Proof.
  intros H0 Hs He0. destruct (setup_zvfs_returns w0 path He0) as (w1 & z & H1).
  unfold Tcl_AppInit. rewrite (cm_bind_ok _ _ _ _ _ H0), (cm_bind_ok _ _ _ _ _ H1).
  rewrite (cm_bind_ok _ _ _ _ _ (Tcl_Init_run w1)). destruct (_ =? _)%Z; [by eexists _, _|].
  match goal with |- context [(cm_when _ _ ≫= _) ?w2] =>
    assert (∃ w3, cm_when (TK_AQUA cfg) (aqua_tk_library s) w2 = CRet w3 tt) as [w3 H3] end.
  { destruct (TK_AQUA cfg); [by apply aqua_tk_library_returns, Hs | by eexists]. }
  rewrite (cm_bind_ok _ _ _ _ _ H3).
  destruct (tk_phase_follows cfg z w3) as (w' & rc & _ & Htk & _). eauto.
Qed.

(** C9: [Tcl_AppInit] terminates without a fault on every build whenever
    the executable name is recorded and, on an Aqua build, the Tcl bundle
    is found (the bundle lookups leaving the executable name alone): only
    the missing-name [assert] and the uninitialised [pathPtr] of the Aqua
    branch stop it. *)
Theorem Tcl_AppInit_returns (w : world) :
  p_exe (w_proc w) ≠ None →
  (∀ b l h x, p_exe (x_proc (Tk_MacOSXOpenBundleResources_impl b l h x).1) = p_exe (x_proc x)) →
  (TK_AQUA cfg = true →
     ∀ l h x, c_nonempty (Tk_MacOSXOpenBundleResources_impl "com.tcltk.tcllibrary" l h x).2 = true) →
  ∃ w' rc, Tcl_AppInit cfg w = CRet w' rc.
Proof.
  intros He Hexe Hb. destruct (p_exe (w_proc w)) as [path|] eqn:Hp; [|done].
  destruct (Tcl_AppInit_stage0 w path Hp Hexe Hb) as (w0 & s & H0 & Hs & He0).
  exact (Tcl_AppInit_after_stage0 w w0 s path H0 Hs He0).
Qed.
End Returns.

(** ** Witnesses: the macOS stub runtime *)

Lemma aqua_tk_library_path_roundtrip_witness :
  c_nonempty TCL_BUNDLE = true ∧ list_plain TCL_BUNDLE = true ∧ one_word TCL_BUNDLE = true ∧
  ∃ w', @aqua_tk_library rt_aqua TCL_BUNDLE (world_with plain_image) = CRet w' tt ∧
    p_library_path (w_proc w') = ObjList [TCL_BUNDLE; TK_BUNDLE] ∧
    i_globals (w_interp w') !! "tk_library" = Some TK_BUNDLE.
Proof.
  split_and!; [reflexivity | reflexivity | reflexivity |].
  apply (@aqua_tk_library_path_roundtrip rt_aqua TCL_BUNDLE (world_with plain_image));
    vm_compute; reflexivity.
Defined.

Lemma Tcl_AppInit_returns_witness :
  TK_AQUA cfg_aqua = true ∧
  ∃ w' rc, @Tcl_AppInit rt_aqua cfg_aqua (world_with plain_image) = CRet w' rc.
Proof.
  split; [reflexivity|].
  apply (@Tcl_AppInit_returns rt_aqua cfg_aqua (world_with plain_image)).
  - vm_compute. discriminate.
  - intros b l h x. reflexivity.
  - intros _ l h x. vm_compute. reflexivity.
Defined.

Lemma aqua_tk_library_splits_spaced_path_witness :
  ∃ w', @aqua_tk_library (stub_runtime TCL_OK TCL_OK TCL_OK "/Users/me/Tcl Scripts" TK_BUNDLE)
          ("/Users/me/Tcl" +:+ String " "%char "Scripts") (world_with plain_image) = CRet w' tt ∧
    p_library_path (w_proc w') = ObjList ["/Users/me/Tcl"; "Scripts"; TK_BUNDLE].
Proof.
  apply (@aqua_tk_library_splits_spaced_path
           (stub_runtime TCL_OK TCL_OK TCL_OK "/Users/me/Tcl Scripts" TK_BUNDLE)
           "/Users/me/Tcl" "Scripts" (world_with plain_image));
    [reflexivity | discriminate | reflexivity.. ].
Defined.
