(* ===== verification/Process.v ===== *)
(** * Many interpreters in one process

    [_tkinter.create()] (in [Modules/_tkinter.c], not part of this
    repository's sources) creates an interpreter and runs [Tcl_AppInit] on
    it; the process keeps its environment, its static packages, the
    engines' private state and the file-static [tk_load_failed] from one
    interpreter to the next.  [create_interp] is one such creation,
    [pstep] the step relation of the process, and the theorems are
    invariants of every reachable process state, proved by induction on
    [rtc pstep]. *)

From S2P Require Import Prelude CLib Tcl Stubs Zvfs AppInit.
From Stdlib Require Import ZArith.

(** The process between two interpreter creations: what the next
    [Tcl_AppInit] shares with the previous ones, and every interpreter
    created so far with the code [Tcl_AppInit] returned for it. *)
Record pstate := mkPState {
  ps_proc : proc;
  ps_latch : Z;
  ps_log : list event;
  ps_interps : list (interp * Z)
}.

Section Process.
Context `{!TclRuntime} (cfg : config).

(** The world [Tcl_AppInit] starts from for a new interpreter [i] (whose
    global variables the embedding application may have preset). *)
Definition start_world (i : interp) (s : pstate) : world :=
  mkWorld (mkExt i (ps_proc s)) (ps_latch s) (ps_log s).

(** One interpreter creation; [None] when [Tcl_AppInit] aborts. *)
Definition create_interp (i : interp) (s : pstate) : option pstate :=
  match Tcl_AppInit cfg (start_world i s) with
  | CRet w rc => Some (mkPState (w_proc w) (tk_load_failed w) (w_log w)
                         (ps_interps s ++ [(w_interp w, rc)]))
  | CFault _ _ => None
  end.

Inductive pstep : pstate → pstate → Prop :=
| pstep_create i s s' : create_interp i s = Some s' → pstep s s'.

(** Creating the given interpreters one after the other. *)
Fixpoint create_all (ips : list interp) (s : pstate) : option pstate :=
  match ips with
  | [] => Some s
  | i :: ips' => s' ← create_interp i s; create_all ips' s'
  end.
End Process.

Definition pstate_world (s : pstate) : world :=
  mkWorld (mkExt empty_interp (ps_proc s)) (ps_latch s) (ps_log s).

(** A process where nothing has happened yet. *)
Definition initial_pstate (img : list byte) : pstate :=
  mkPState (proc_with img) 0%Z [] [].

(** What a creation after the latch was set may produce: either the
    interpreter asked to skip Tk and got [TCL_OK], or it got [TCL_ERROR]
    with [TKINTER_LOADTK_ERRMSG] when [Tcl_Init] itself works. *)
Definition latched_outcome `{!TclRuntime} (ir : interp * Z) : Prop :=
  (ir.2 = TCL_OK ∧ c_opt_streq (i_globals ir.1 !! "_tkinter_skip_tk_init") "1" = true) ∨
  (ir.2 = TCL_ERROR ∧
     ((∀ x, (Tcl_Init_impl x).2 ≠ TCL_ERROR) → i_result ir.1 = TKINTER_LOADTK_ERRMSG)).

Section Steps.
Context `{!TclRuntime} (cfg : config).

Lemma create_interp_inv (i : interp) (s s' : pstate) :
  create_interp cfg i s = Some s' →
  ∃ w rc, Tcl_AppInit cfg (start_world i s) = CRet w rc ∧
    s' = mkPState (w_proc w) (tk_load_failed w) (w_log w) (ps_interps s ++ [(w_interp w, rc)]).
Proof.
  unfold create_interp. destruct (Tcl_AppInit cfg (start_world i s)) as [w rc|];
    [|done]. intros Hs. simplify_eq. eauto.
Qed.

Lemma create_interp_latch_mono (i : interp) (s s' : pstate) :
  create_interp cfg i s = Some s' → ps_latch s' = ps_latch s ∨ ps_latch s' = 1%Z.
Proof.
  intros Hc. destruct (create_interp_inv i _ _ Hc) as (w & rc & Hr & ->).
  pose proof (preserved_state _ _ (start_world i s) (Tcl_AppInit_latch_mono_preserved cfg)) as Hm.
  rewrite Hr in Hm. exact Hm.
Qed.

Lemma create_interp_latched (i : interp) (s s' : pstate) :
  TKINTER_PROTECT_LOADTK cfg = true → c_true (ps_latch s) = true →
  create_interp cfg i s = Some s' →
  ps_latch s' = ps_latch s ∧
  calls_to FTk_Init (ps_log s') = calls_to FTk_Init (ps_log s) ∧
  ∃ ir, ps_interps s' = ps_interps s ++ [ir] ∧ latched_outcome ir.
Proof.
  intros Hp Hl Hc. destruct (create_interp_inv i _ _ Hc) as (w & rc & Hr & ->).
  pose proof (Tcl_AppInit_latched cfg (start_world i s) Hp Hl) as Hwp.
  destruct (wp_ret_inv _ _ _ _ _ _ Hwp Hr) as [[Hl' Hc'] Ho]. simpl.
  split_and!; [done | done |]. eexists; split; [done|].
  unfold latched_outcome. simpl. exact Ho.
Qed.
End Steps.

Section Invariants.
Context `{!TclRuntime} (cfg : config).

(** C7: the latch never resets: along any run of the process,
    [tk_load_failed] keeps its value or becomes 1 (so once set, it stays
    set for the life of the process). *)
Theorem process_latch_never_resets (s s' : pstate) :
  rtc (pstep cfg) s s' → ps_latch s' = ps_latch s ∨ ps_latch s' = 1%Z.
Proof.
  induction 1 as [s|s s1 s' Hstep _ IH]; [by left|].
  destruct Hstep as [i ?? Hc].
  pose proof (create_interp_latch_mono cfg i _ _ Hc). lia.
Qed.

(** C3: with [TKINTER_PROTECT_LOADTK], once [tk_load_failed] is set, every
    later interpreter creation leaves the latch as it is, never calls
    [Tk_Init] again, and yields either a successful Tk-less interpreter
    (skip flag ["1"]) or [TCL_ERROR] with [TKINTER_LOADTK_ERRMSG]. *)
Theorem process_latched_tk_init_frozen (s s' : pstate) :
  TKINTER_PROTECT_LOADTK cfg = true → c_true (ps_latch s) = true →
  rtc (pstep cfg) s s' →
  ps_latch s' = ps_latch s ∧
  calls_to FTk_Init (ps_log s') = calls_to FTk_Init (ps_log s) ∧
  ∃ created, ps_interps s' = ps_interps s ++ created ∧ Forall latched_outcome created.
Proof.
  intros Hp Hl Hrtc. induction Hrtc as [s|s s1 s' Hstep _ IH].
  - split_and!; [done | done |]. exists []. by rewrite app_nil_r.
  - destruct Hstep as [i ?? Hc].
    destruct (create_interp_latched cfg i _ _ Hp Hl Hc) as (E1 & C1 & ir & I1 & O1).
    rewrite E1 in IH. destruct (IH Hl) as (E2 & C2 & created & I2 & O2).
    split_and!; [congruence | congruence |].
    exists (ir :: created). split; [by rewrite I2, I1, <- app_assoc | by constructor].
Qed.
End Invariants.

(** ** Concrete interpreters *)

Definition skip_interp : interp := mkInterp {[ "_tkinter_skip_tk_init" := "1" ]} ∅ "".

(** ** Witnesses *)

(** The process after a first interpreter whose [Tk_Init] failed, and after
    a second one. *)
Definition after_first_tk_failure : pstate :=
  default (initial_pstate plain_image)
    (@create_interp rt_tk_fails cfg_protect empty_interp (initial_pstate plain_image)).
Definition after_second_interp : pstate :=
  default after_first_tk_failure
    (@create_interp rt_tk_fails cfg_protect empty_interp after_first_tk_failure).

Lemma process_latch_never_resets_witness :
  ps_latch after_first_tk_failure = ps_latch (initial_pstate plain_image) ∨
  ps_latch after_first_tk_failure = 1%Z.
Proof.
  apply (@process_latch_never_resets rt_tk_fails cfg_protect).
  eapply rtc_l; [|apply rtc_refl].
  apply (@pstep_create rt_tk_fails cfg_protect empty_interp). vm_compute. reflexivity.
Defined.

Lemma process_latched_tk_init_frozen_witness :
  ps_latch after_second_interp = ps_latch after_first_tk_failure ∧
  calls_to FTk_Init (ps_log after_second_interp) = calls_to FTk_Init (ps_log after_first_tk_failure) ∧
  ∃ created, ps_interps after_second_interp = ps_interps after_first_tk_failure ++ created ∧
    Forall (@latched_outcome rt_tk_fails) created.
Proof.
  apply (@process_latched_tk_init_frozen rt_tk_fails cfg_protect); [reflexivity | vm_compute; reflexivity |].
  eapply rtc_l; [|apply rtc_refl].
  apply (@pstep_create rt_tk_fails cfg_protect empty_interp). vm_compute. reflexivity.
Defined.
