(* ===== verification/LatchBound.v ===== *)
(** * At most one failed [Tk_Init] per process

    What the latch is for (spec, GuiInitLatch): "once one attempt has
    failed, no interpreter in this process may attempt GUI initialization
    again".  Counted on the ghost log of engine calls: in a build with
    [TKINTER_PROTECT_LOADTK], along every run of the process from a state
    with no failure recorded, the log holds at most one [Tk_Init] call
    that failed, and [tk_load_failed] only ever holds 0 or 1.  The per-run
    half composes the frame lemmas of [Tcl_AppInit]'s first regions with
    the Tk-phase refinement of [Sequencer]. *)

From S2P Require Import Prelude CLib Tcl Stubs Zvfs AppInit Sequencer Process.
From Stdlib Require Import ZArith.

Section Counting.
Context `{!TclRuntime}.

(** A logged [Tk_Init] call whose answer was [TCL_ERROR]. *)
Definition tk_failed_call (e : event) : bool :=
  bool_decide (ev_fn e = FTk_Init) && negb (engine_ok (Tk_Init_impl (ev_at e)).2).

Definition failed_tk_calls (l : list event) : nat :=
  length (filter (λ e, tk_failed_call e = true) l).

Lemma failed_tk_calls_app l1 l2 :
  failed_tk_calls (l1 ++ l2) = failed_tk_calls l1 + failed_tk_calls l2.
Proof. apply length_filter_app. Qed.

Lemma failed_tk_calls_le l : failed_tk_calls l ≤ calls_to FTk_Init l.
Proof.
  unfold failed_tk_calls, calls_to. induction l as [|e l IH]; [done|].
  rewrite !filter_cons. destruct (tk_failed_call e) eqn:Ht.
  - apply andb_true_iff, proj1, bool_decide_eq_true in Ht.
    rewrite !decide_True by done. simpl. lia.
  - rewrite decide_False by done. case_decide; simpl; lia.
Qed.

(** With at most one [Tk_Init] call, a failed one is the first one. *)
Lemma failed_tk_calls_first l :
  calls_to FTk_Init l ≤ 1 → failed_tk_calls l ≠ 0 →
  ∃ x, call_at FTk_Init l = Some x ∧ engine_ok (Tk_Init_impl x).2 = false.
Proof.
  induction l as [|[fn args x] l IH]; [done|]. intros Hc Hf.
  destruct (tk_failed_call (Ev fn args x)) eqn:Ht.
  { apply andb_true_iff in Ht as [Hfn Hok]. apply bool_decide_eq_true in Hfn. simpl in *. subst.
    exists x. rewrite call_at_hit. split; [done|]. by apply negb_true_iff. }
  pose proof (failed_tk_calls_le l) as Hle.
  unfold failed_tk_calls, calls_to in *. rewrite filter_cons, decide_False in Hf by (by rewrite Ht).
  rewrite filter_cons in Hc. simpl in *. case_decide as E.
  - simpl in Hc. lia.
  - rewrite call_at_cons_miss by done. apply IH; done.
Qed.

(** [Tk_Init] calls counted through the sequencer's view of the log. *)
Lemma calls_to_tk_sequencer l :
  calls_to FTk_Init l = length (filter (λ fn, fn = FTk_Init) (sequencer_calls l)).
Proof.
  induction l as [|[fn args x] l IH]; [done|].
  rewrite sequencer_calls_cons, filter_app, length_app, <- IH.
  unfold calls_to. rewrite filter_cons. destruct fn; reflexivity.
Qed.
End Counting.

(** The abstract machine visits [InitGuiToolkit] at most once, and a
    failing toolkit that was called is a fresh GUI failure. *)
Lemma gui_sequence_one_tk (p s l t : bool) :
  let '(tr, out) := gui_sequence p s l t in
  length (filter (λ fn, fn = FTk_Init) (trace_calls tr)) ≤ 1 ∧
  (t = false → length (filter (λ fn, fn = FTk_Init) (trace_calls tr)) = 1 →
   out = Failed GuiInitFailed).
Proof. destruct p, s, l, t; simpl; split; (done || lia || intros; simplify_eq). Qed.

Section OneRun.
Context `{!TclRuntime} (cfg : config).

(** One run of the Tk phase makes at most one [Tk_Init] call; when that
    call failed, a protected build has set the latch. *)
Lemma tk_phase_one_attempt (z : Z) (w w' : world) (rc : Z) :
  tk_phase cfg z w = CRet w' rc →
  ∃ new, w_log w' = w_log w ++ new ∧ calls_to FTk_Init new ≤ 1 ∧
    (failed_tk_calls new ≠ 0 → TKINTER_PROTECT_LOADTK cfg = true → tk_load_failed w' = 1%Z).
Proof.
  intros Hrun. destruct (tk_phase_follows cfg z w) as (w2 & rc2 & new & H2 & Hlog & Hm).
  rewrite Hrun in H2. injection H2 as <- <-. exists new. split; [done|].
  match type of Hm with run_matches _ (gui_sequence ?p ?s ?l ?t) _ _ _ _ =>
    pose proof (gui_sequence_one_tk p s l t) as Hg; remember t as tk eqn:Htk end.
  revert Hm Hg. destruct (gui_sequence _ _ _ _) as [tr out].
  intros (Hc & _ & Hl & _) [Hle Hfail].
  rewrite calls_to_tk_sequencer, Hc. split; [done|]. intros Hf Hp.
  pose proof (failed_tk_calls_le new) as Hfl. rewrite calls_to_tk_sequencer, Hc in Hfl.
  destruct (failed_tk_calls_first new) as (x & Hx & Hok);
    [by rewrite calls_to_tk_sequencer, Hc | done |].
  rewrite Hl, Hfail; [by rewrite Hp | by rewrite Htk, Hx | lia].
Qed.
End OneRun.

Section Prefix.
Context `{!TclRuntime} (cfg : config).

(** A step that keeps the latch and only extends the log. *)
Lemma frozen_ret {A} (m : TM A) (w w' : world) (a : A) :
  preserved latch_kept m → preserved log_grows m → m w = CRet w' a →
  latch_kept w w' ∧ log_grows w w'.
Proof. intros Hl Hg Hr. split; eapply preserved_ret_state; eauto. Qed.

Lemma frozen_new (w w' : world) :
  latch_kept w w' → log_grows w w' →
  ∃ new, w_log w' = w_log w ++ new ∧ calls_to FTk_Init new = 0 ∧
    tk_load_failed w' = tk_load_failed w.
Proof.
  intros [Hl Hc] [new Hn]. exists new. rewrite Hn in Hc.
  unfold calls_to in *. rewrite length_filter_app in Hc. split_and!; [done | lia | done].
Qed.

Lemma aqua_tcl_library_log_grows : preserved log_grows (aqua_tcl_library).
Proof. unfold aqua_tcl_library, Tk_MacOSXOpenBundleResources. solve_preserved. Qed.

#[local] Hint Resolve aqua_tcl_library_latch_kept aqua_tcl_library_log_grows
  aqua_tk_library_latch_kept : tkinit.

(** A run of [Tcl_AppInit] either stops before the Tk phase with the
    latch and [Tk_Init] count untouched, or gets there that way. *)
Lemma Tcl_AppInit_cases (w w' : world) (rc : Z) :
  Tcl_AppInit cfg w = CRet w' rc →
  ((latch_kept w w' ∧ log_grows w w') ∧ rc = TCL_ERROR) ∨
  ∃ z w2, (latch_kept w w2 ∧ log_grows w w2) ∧ tk_phase cfg z w2 = CRet w' rc.
Proof.
  unfold Tcl_AppInit. intros Hrun.
  apply cm_bind_ret_inv in Hrun as (w0 & s & H0 & Hrun).
  apply cm_bind_ret_inv in Hrun as (w1 & z & H1 & Hrun).
  apply cm_bind_ret_inv in Hrun as (w2 & r & H2 & Hrun).
  apply frozen_ret in H0 as [L0 G0]; [|destruct (TK_AQUA cfg); solve_preserved..].
  apply frozen_ret in H1 as [L1 G1]; [|solve_preserved..].
  apply frozen_ret in H2 as [L2 G2]; [|solve_preserved..].
  destruct (r =? TCL_ERROR)%Z.
  { injection Hrun as <- <-. left. split; [|done]. split; by do 2 (etrans; [eassumption|]). }
  apply cm_bind_ret_inv in Hrun as (w3 & [] & H3 & Hrun).
  apply frozen_ret in H3 as [L3 G3]; [|solve_preserved..].
  right. exists z, w3. split; [|done].
  split; by do 3 (etrans; [eassumption|]).
Qed.
End Prefix.

Section Runs.
Context `{!TclRuntime} (cfg : config).

Lemma calls_to_app fn l1 l2 : calls_to fn (l1 ++ l2) = calls_to fn l1 + calls_to fn l2.
Proof. apply length_filter_app. Qed.

(** One run of [Tcl_AppInit] (any build) makes at most one [Tk_Init]
    call; when that call failed, a protected build has set the latch. *)
Lemma Tcl_AppInit_one_attempt (w w' : world) (rc : Z) :
  Tcl_AppInit cfg w = CRet w' rc →
  ∃ new, w_log w' = w_log w ++ new ∧ calls_to FTk_Init new ≤ 1 ∧
    (failed_tk_calls new ≠ 0 → TKINTER_PROTECT_LOADTK cfg = true → tk_load_failed w' = 1%Z).
Proof.
  intros Hrun. pose proof (failed_tk_calls_le) as Hle.
  destruct (Tcl_AppInit_cases cfg w w' rc Hrun) as [[[L G] _] | (z & w2 & [L G] & Htk)].
  - destruct (frozen_new _ _ L G) as (new & Hn & Hc & _).
    exists new. split_and!; [done | lia | intros Hf; specialize (Hle new); lia].
  - destruct (frozen_new _ _ L G) as (pre & Hn & Hc & _).
    destruct (tk_phase_one_attempt cfg z w2 w' rc Htk) as (new & Hn2 & Hc2 & Hf2).
    exists (pre ++ new). rewrite Hn2, Hn, <- app_assoc, calls_to_app, failed_tk_calls_app.
    split_and!; [done | lia |]. intros Hf. specialize (Hle pre). apply Hf2. lia.
Qed.
End Runs.

(** ** The process *)

(** No failed [Tk_Init] yet and the latch clear, or the latch set and at
    most one failed [Tk_Init]. *)
Definition latch_inv `{!TclRuntime} (s : pstate) : Prop :=
  (ps_latch s = 0%Z ∧ failed_tk_calls (ps_log s) = 0) ∨
  (ps_latch s = 1%Z ∧ failed_tk_calls (ps_log s) ≤ 1).

Section Invariant.
Context `{!TclRuntime} (cfg : config).

Lemma create_interp_latch_inv (i : interp) (s s' : pstate) :
  TKINTER_PROTECT_LOADTK cfg = true → latch_inv s → create_interp cfg i s = Some s' →
  latch_inv s'.
Proof.
  intros Hp Hinv Hc. pose proof (create_interp_latch_mono cfg i _ _ Hc) as Hm.
  destruct (create_interp_inv cfg i _ _ Hc) as (w & rc & Hr & ->).
  destruct (Tcl_AppInit_one_attempt cfg _ _ _ Hr) as (new & Hn & Hle & Hf).
  pose proof (failed_tk_calls_le new). unfold latch_inv in *. simpl in *.
  rewrite Hn, failed_tk_calls_app. destruct Hinv as [[Hl0 Hf0] | [Hl1 Hf1]].
  - rewrite Hf0. destruct (decide (failed_tk_calls new = 0)) as [E|E].
    + rewrite E. destruct Hm as [-> | ->]; [left | right]; split; (done || lia).
    + right. split; [by apply Hf | lia].
  - destruct (create_interp_latched cfg i s _ Hp ltac:(by rewrite Hl1) Hc)
      as (Hl' & Hc' & _).
    simpl in Hl', Hc'. rewrite Hn, calls_to_app in Hc'. right. split; [congruence | lia].
Qed.

(** C4: in a build with [TKINTER_PROTECT_LOADTK], along every run of the
    process that starts with the latch clear and no failed [Tk_Init], the
    latch only ever holds 0 or 1 and the log holds at most one [Tk_Init]
    call that failed, however many interpreters are created: a failing GUI
    toolkit is tried once per process. *)
Theorem process_at_most_one_failed_tk_init (s s' : pstate) :
  TKINTER_PROTECT_LOADTK cfg = true →
  ps_latch s = 0%Z → failed_tk_calls (ps_log s) = 0 →
  rtc (pstep cfg) s s' →
  failed_tk_calls (ps_log s') ≤ 1 ∧ (ps_latch s' = 0%Z ∨ ps_latch s' = 1%Z).
Proof.
  intros Hp Hl Hf Hrtc.
  assert (Hinv : latch_inv s) by (left; by split). clear Hl Hf.
  induction Hrtc as [s|s s1 s' [i ?? Hc] _ IH]; [|by eapply IH, create_interp_latch_inv].
  destruct Hinv as [[-> ->] | [-> ?]]; split; (lia || by auto).
Qed.
End Invariant.

(** ** Witness: a failing Tk, two interpreters *)

Lemma process_at_most_one_failed_tk_init_witness :
  @failed_tk_calls rt_tk_fails (ps_log after_second_interp) ≤ 1 ∧
  (ps_latch after_second_interp = 0%Z ∨ ps_latch after_second_interp = 1%Z).
Proof.
  apply (@process_at_most_one_failed_tk_init rt_tk_fails cfg_protect (initial_pstate plain_image));
    [reflexivity | reflexivity | reflexivity |].
  apply (rtc_l _ _ after_first_tk_failure).
  { apply (@pstep_create rt_tk_fails cfg_protect empty_interp). vm_compute. reflexivity. }
  apply (rtc_l _ _ after_second_interp); [|apply rtc_refl].
  apply (@pstep_create rt_tk_fails cfg_protect empty_interp). vm_compute. reflexivity.
Defined.
