(* ===== verification/Progress.v ===== *)
(** * What [Tcl_AppInit] returns, and a process that always makes progress

    Two properties of the whole start-up seen from its caller:
    - every return of [Tcl_AppInit] is a proper completion code for
      [_tkinter.create()], [TCL_OK] or [TCL_ERROR], whatever codes the
      engines answer (a [Tk_Init] answering [TCL_RETURN] counts as
      success);
    - when the engines keep the executable name (the interface
      [RuntimeKeepsExe]), a process can create every interpreter it is
      asked for: [create_all] returns, along a run of [pstep], one result
      per interpreter. *)

From S2P Require Import Prelude CLib Tcl Stubs Zvfs AppInit Sequencer Aqua Process LatchBound.
From Stdlib Require Import ZArith.

(** ** The engines keep the executable name *)

Definition keeps_exe {A} (f : ext → ext * A) : Prop :=
  ∀ x, p_exe (x_proc (f x).1) = p_exe (x_proc x).

(** What the engines promise the process driver: none of them changes the
    name [Tcl_GetNameOfExecutable] answers. *)
Class RuntimeKeepsExe `{!TclRuntime} : Prop := {
  keeps_Zvfs_Init : keeps_exe Zvfs_Init_impl;
  keeps_Zvfs_Mount a m : keeps_exe (Zvfs_Mount_impl a m);
  keeps_Tcl_Init : keeps_exe Tcl_Init_impl;
  keeps_Tk_Init : keeps_exe Tk_Init_impl;
  keeps_Tk_MainWindow : keeps_exe (λ x, (Tk_MainWindow_impl x, tt));
  keeps_bundle b l h : keeps_exe (Tk_MacOSXOpenBundleResources_impl b l h);
  keeps_AppleEvents : keeps_exe (λ x, (TkMacOSXInitAppleEvents_impl x, tt));
  keeps_Menus : keeps_exe (λ x, (TkMacOSXInitMenus_impl x, tt));
  keeps_Imaging : keeps_exe (λ x, (TkImaging_Init_impl x, tt))
}.

(** The stub engines of [Stubs] keep it. *)
#[export] Instance stub_runtime_keeps_exe tcl_rc tk_rc mount_rc tb kb :
  @RuntimeKeepsExe (stub_runtime tcl_rc tk_rc mount_rc tb kb).
Proof.
  split; intros; intros x; simpl; repeat case_match; reflexivity.
Qed.

Definition exe_kept (w w' : world) : Prop := p_exe (w_proc w') = p_exe (w_proc w).

#[export] Instance exe_kept_preorder : PreOrder exe_kept.
Proof. split; [done | intros ??? H1 H2; unfold exe_kept in *; congruence]. Qed.

Section ExeFrames.
Context `{!TclRuntime}.

Lemma exe_kept_ext_call {A} fn args (f : ext → ext * A) :
  keeps_exe f → preserved exe_kept (ext_call fn args f).
Proof. intros Hf w. apply Hf. Qed.

Lemma exe_kept_Tcl_SetVar n v : preserved exe_kept (Tcl_SetVar n v).
Proof. by intros w. Qed.
Lemma exe_kept_Tcl_SetVar2 a n v : preserved exe_kept (Tcl_SetVar2 a n v).
Proof. intros w. unfold Tcl_SetVar2. by case_decide. Qed.
Lemma exe_kept_Tcl_SetResult m : preserved exe_kept (Tcl_SetResult m).
Proof. by intros w. Qed.
Lemma exe_kept_Tcl_StaticPackage n b : preserved exe_kept (Tcl_StaticPackage n b).
Proof. intros w. simpl. unfold exe_kept, w_proc. simpl. by case_decide. Qed.
Lemma exe_kept_TclSetLibraryPath o : preserved exe_kept (TclSetLibraryPath o).
Proof. by intros w. Qed.
Lemma exe_kept_set_tk_load_failed v : preserved exe_kept (set_tk_load_failed v).
Proof. by intros w. Qed.
End ExeFrames.

#[export] Hint Resolve exe_kept_Tcl_SetVar exe_kept_Tcl_SetVar2 exe_kept_Tcl_SetResult
  exe_kept_Tcl_StaticPackage exe_kept_TclSetLibraryPath exe_kept_set_tk_load_failed : tkinit.
#[export] Hint Extern 1 (preserved exe_kept (ext_call _ _ _)) =>
  apply exe_kept_ext_call;
  first [ apply keeps_Zvfs_Init | apply keeps_Zvfs_Mount | apply keeps_Tcl_Init
        | apply keeps_Tk_Init | apply keeps_Tk_MainWindow | apply keeps_bundle
        | apply keeps_AppleEvents | apply keeps_Menus | apply keeps_Imaging ] : tkinit.

Section KeepsExe.
Context `{!TclRuntime, !RuntimeKeepsExe} (cfg : config).

Lemma Tcl_AppInit_keeps_exe : preserved exe_kept (Tcl_AppInit cfg).
Proof.
  unfold Tcl_AppInit, aqua_tcl_library, aqua_tk_library, setup_zvfs, tk_phase,
    skip_tk_init_requested, tk_previously_failed, get_tk_load_failed, set_tk_library_paths,
    record_tk_failure, post_tk_init, register_static_packages,
    Zvfs_Init, Zvfs_Mount, Tcl_Init, Tk_Init, Tk_MainWindow, Tk_MacOSXOpenBundleResources,
    TkMacOSXInitAppleEvents, TkMacOSXInitMenus, TkImaging_Init.
  solve_preserved.
Qed.
End KeepsExe.

(** ** Completion codes *)
Section Codes.
Context `{!TclRuntime} (cfg : config).

(** C11: every return of [Tcl_AppInit] is [TCL_OK] or [TCL_ERROR], on every
    build and whatever the engines answer: the code compares the engines'
    codes with [TCL_ERROR] only and returns its own constants. *)
Theorem Tcl_AppInit_rc_valid (w w' : world) (rc : Z) :
  Tcl_AppInit cfg w = CRet w' rc → rc = TCL_OK ∨ rc = TCL_ERROR.
Proof.
  intros Hrun. destruct (Tcl_AppInit_cases cfg w w' rc Hrun) as [[_ ->] | (z & w2 & _ & Htk)];
    [by right|].
  destruct (tk_phase_follows cfg z w2) as (w3 & rc3 & new & H3 & _ & Hm).
  rewrite Htk in H3. injection H3 as <- <-. revert Hm.
  destruct (gui_sequence _ _ _ _) as [tr [| |e]]; intros (_ & -> & _); [left | left | right]; done.
Qed.
End Codes.

(** ** Progress of the process *)
Section Progress.
Context `{!TclRuntime, !RuntimeKeepsExe} (cfg : config).

(** An Aqua build finds its Tcl bundle. *)
Definition tcl_bundle_found : Prop :=
  TK_AQUA cfg = true →
  ∀ l h x, c_nonempty (Tk_MacOSXOpenBundleResources_impl "com.tcltk.tcllibrary" l h x).2 = true.

Lemma create_interp_progress (i : interp) (s : pstate) :
  p_exe (ps_proc s) ≠ None → tcl_bundle_found →
  ∃ s', create_interp cfg i s = Some s' ∧ p_exe (ps_proc s') = p_exe (ps_proc s) ∧
    length (ps_interps s') = S (length (ps_interps s)).
Proof.
  intros He Hb. destruct (p_exe (ps_proc s)) as [path|] eqn:Hp; [|done].
  destruct (Tcl_AppInit_stage0 cfg (start_world i s) path Hp keeps_bundle Hb)
    as (w0 & str & Hs0 & Hs & He0).
  destruct (Tcl_AppInit_after_stage0 cfg _ w0 str path Hs0 Hs He0) as (w' & rc & Hr).
  pose proof (preserved_ret_state _ _ _ _ _ (Tcl_AppInit_keeps_exe cfg) Hr) as Hexe.
  unfold create_interp. rewrite Hr. eexists. split; [reflexivity|]. simpl.
  rewrite length_app. simpl. split; [|lia]. unfold exe_kept in Hexe. rewrite Hexe. exact Hp.
Qed.

(** C10: a process whose engines keep the executable name never gets
    stuck: from any state with the name recorded, on a build that is not
    Aqua or finds its Tcl bundle, every list of interpreters asked for is
    created ([create_all] returns), along a run of [pstep], with one
    [Tcl_AppInit] result recorded per interpreter. *)
Theorem create_all_progress (ips : list interp) (s : pstate) :
  p_exe (ps_proc s) ≠ None → tcl_bundle_found →
  ∃ s', create_all cfg ips s = Some s' ∧ rtc (pstep cfg) s s' ∧
    length (ps_interps s') = length (ps_interps s) + length ips.
Proof.
  intros He Hb. induction ips as [|i ips IH] in s, He |- *.
  { exists s. split_and!; [done | apply rtc_refl | simpl; lia]. }
  destruct (create_interp_progress i s He Hb) as (s1 & Hc & Hexe & Hlen).
  destruct (IH s1) as (s' & Ha & Hr & Hl'); [by rewrite Hexe|].
  exists s'. simpl. rewrite Hc. split_and!; [exact Ha | | lia].
  eapply rtc_l; [by econstructor | exact Hr].
Qed.
End Progress.

(** ** Concrete runs *)

(** A [Tk_Init] answering [TCL_RETURN] (2). *)
Definition rt_tk_return : TclRuntime := stub_runtime TCL_OK 2 TCL_OK "" "".

Definition tk_return_world : world :=
  state_of (@Tcl_AppInit rt_tk_return cfg_packages (world_with plain_image)).

(** ** Any answer of [Tk_Init] but [TCL_ERROR] is success *)

Lemma calls_to_zero_Forall (fn : ext_fn) (l : list event) :
  calls_to fn l = 0 → Forall (λ e, ev_fn e ≠ fn) l.
Proof.
  unfold calls_to. intros H. apply length_zero_iff_nil in H.
  apply Forall_forall. intros e He Hfn.
  assert (e ∈ filter (λ e, ev_fn e = fn) l) as Hin by (apply list_elem_of_filter; done).
  rewrite H in Hin. by apply not_elem_of_nil in Hin.
Qed.

Lemma call_at_sequencer_calls (fn : ext_fn) (l : list event) (x : ext) :
  call_at fn l = Some x → fn ∈ sequencer_fns → fn ∈ sequencer_calls l.
Proof.
  unfold call_at, sequencer_calls. intros Hc Hfn.
  destruct (filter (λ e, ev_fn e = fn) l) as [|e l'] eqn:Hf; [done|].
  assert (He : e ∈ filter (λ e, ev_fn e = fn) l) by (rewrite Hf; left).
  apply list_elem_of_filter in He as [<- He].
  apply list_elem_of_filter. split; [done|]. by apply list_elem_of_fmap_2.
Qed.

Section TkAnswer.
Context `{!TclRuntime} (cfg : config).

(** C26: [Tcl_AppInit] compares [Tk_Init]'s answer with [TCL_ERROR] only.
    On every build, in every run whose [Tk_Init] call answers anything
    but [TCL_ERROR] ([TCL_RETURN], [TCL_BREAK] and [TCL_CONTINUE]
    included), the toolkit is taken as initialised: [Tcl_AppInit] returns
    [TCL_OK], the latch is unchanged, and the post-initialisation hooks run
    ([Tk_MainWindow] is called). *)
Theorem Tcl_AppInit_tk_return_code_is_success (w w' : world) (rc : Z) (new : list event) (y : ext) :
  Tcl_AppInit cfg w = CRet w' rc → w_log w' = w_log w ++ new →
  call_at FTk_Init new = Some y → (Tk_Init_impl y).2 ≠ TCL_ERROR →
  rc = TCL_OK ∧ tk_load_failed w' = tk_load_failed w ∧ FTk_MainWindow ∈ sequencer_calls new.
Proof.
  intros Hrun Hl Hc Ht.
  destruct (Tcl_AppInit_cases cfg w w' rc Hrun) as [[[[_ Ck] _] _] | (z & w2 & ([L2 C2] & [m Hm]) & Htk)].
  { rewrite Hl, calls_to_app in Ck.
    pose proof (calls_to_zero_Forall FTk_Init new ltac:(lia)) as F.
    rewrite <- (app_nil_r new), call_at_app_miss in Hc by done. done. }
  destruct (tk_phase_follows cfg z w2) as (w3 & rc3 & new2 & Htk' & Hlog & Hmatch).
  rewrite Htk in Htk'. injection Htk' as <- <-.
  rewrite Hlog, Hm, <- app_assoc in Hl. apply app_inv_head in Hl as <-.
  rewrite Hm, calls_to_app in C2.
  rewrite call_at_app_miss in Hc by (apply calls_to_zero_Forall; lia).
  pose proof (call_at_sequencer_calls _ _ _ Hc ltac:(set_solver)) as Hin.
  rewrite Hc in Hmatch. cbn [fmap option_fmap option_map default] in Hmatch.
  rewrite engine_ok_true in Hmatch by done. revert Hmatch. unfold gui_sequence.
  repeat case_match; intros (Hs & -> & Hl' & _); simplify_eq/=; rewrite Hs in Hin;
    try (simpl in Hin; by apply not_elem_of_nil in Hin).
  rewrite Hl', latch_after_other, L2 by done. split_and!; [done..|].
  rewrite sequencer_calls_app, Hs. apply elem_of_app. right. simpl.
  apply list_elem_of_further, list_elem_of_here.
Qed.
End TkAnswer.

Lemma Tcl_AppInit_rc_valid_witness :
  @Tcl_AppInit rt_tk_return cfg_packages (world_with plain_image) = CRet tk_return_world TCL_OK ∧
  (TCL_OK = TCL_OK ∨ TCL_OK = TCL_ERROR).
Proof.
  assert (Hrun : @Tcl_AppInit rt_tk_return cfg_packages (world_with plain_image) =
                 CRet tk_return_world TCL_OK) by (vm_compute; reflexivity).
  split; [exact Hrun | exact (@Tcl_AppInit_rc_valid rt_tk_return cfg_packages _ _ _ Hrun)].
Defined.

Lemma create_all_progress_witness :
  p_exe (ps_proc (initial_pstate zipped_image)) ≠ None ∧
  ∃ s', @create_all rt_ok cfg_protect [empty_interp; skip_interp; empty_interp]
          (initial_pstate zipped_image) = Some s' ∧
    rtc (@pstep rt_ok cfg_protect) (initial_pstate zipped_image) s' ∧
    length (ps_interps s') = length (ps_interps (initial_pstate zipped_image)) + 3.
Proof.
  split; [vm_compute; discriminate|].
  apply (@create_all_progress rt_ok (stub_runtime_keeps_exe _ _ _ _ _) cfg_protect
           [empty_interp; skip_interp; empty_interp] (initial_pstate zipped_image)).
  - vm_compute. discriminate.
  - intros Ha. discriminate Ha.
Defined.

Definition tk_return_at : ext :=
  default (w_ext (world_with plain_image)) (call_at FTk_Init (w_log tk_return_world)).

Lemma Tcl_AppInit_tk_return_code_is_success_witness :
  @Tcl_AppInit rt_tk_return cfg_packages (world_with plain_image) = CRet tk_return_world TCL_OK ∧
  call_at FTk_Init (w_log tk_return_world) = Some tk_return_at ∧
  (@Tk_Init_impl rt_tk_return tk_return_at).2 = 2%Z ∧
  FTk_MainWindow ∈ sequencer_calls (w_log tk_return_world).
Proof.
  assert (H1 : @Tcl_AppInit rt_tk_return cfg_packages (world_with plain_image) =
                 CRet tk_return_world TCL_OK) by (vm_compute; reflexivity).
  assert (H2 : w_log tk_return_world = w_log (world_with plain_image) ++ w_log tk_return_world)
    by reflexivity.
  assert (H3 : call_at FTk_Init (w_log tk_return_world) = Some tk_return_at)
    by (vm_compute; reflexivity).
  assert (H4 : (@Tk_Init_impl rt_tk_return tk_return_at).2 = 2%Z) by (vm_compute; reflexivity).
  do 3 (split; [assumption|]).
  refine (proj2 (proj2 (@Tcl_AppInit_tk_return_code_is_success rt_tk_return cfg_packages
            _ _ _ _ _ H1 H2 H3 _))). by rewrite H4.
Defined.
