(* ===== verification/Mounts.v ===== *)
(** * The archive across the interpreters of a process

    Every interpreter runs [setup_zvfs] again (the mount is redone, and the
    code ignores whether it worked), so in a process whose executable
    carries a zip every [Tcl_Init] call of every interpreter finds
    [env(TCL_LIBRARY)] and [tcl_library] pointing into the mount, on every
    build.  Stated as a property of the ghost log, lifted from one run to
    every reachable process state.  The engines must leave the executable
    image alone: its name ([RuntimeKeepsExe]) and its bytes
    ([RuntimeKeepsFiles]).  The other half of the library-path contract:
    without an archive (on a build without [TK_AQUA]) the code hands each
    engine initialiser exactly the state the previous one left.  Also the
    boundaries of the detector: an executable of exactly 22 bytes (the
    case the spec names), and archives whose end record carries a short
    comment, which are never detected. *)

From S2P Require Import Prelude CLib Tcl Stubs Zvfs AppInit Sequencer Aqua Process Progress.
From Stdlib Require Import ZArith.

(** ** The engines keep the files *)

Definition keeps_files {A} (f : ext → ext * A) : Prop :=
  ∀ x, p_files (x_proc (f x).1) = p_files (x_proc x).

(** What the engines promise: none of them changes the files, in
    particular the bytes of the executable. *)
Class RuntimeKeepsFiles `{!TclRuntime} : Prop := {
  files_Zvfs_Init : keeps_files Zvfs_Init_impl;
  files_Zvfs_Mount a m : keeps_files (Zvfs_Mount_impl a m);
  files_Tcl_Init : keeps_files Tcl_Init_impl;
  files_Tk_Init : keeps_files Tk_Init_impl;
  files_Tk_MainWindow : keeps_files (λ x, (Tk_MainWindow_impl x, tt));
  files_bundle b l h : keeps_files (Tk_MacOSXOpenBundleResources_impl b l h);
  files_AppleEvents : keeps_files (λ x, (TkMacOSXInitAppleEvents_impl x, tt));
  files_Menus : keeps_files (λ x, (TkMacOSXInitMenus_impl x, tt));
  files_Imaging : keeps_files (λ x, (TkImaging_Init_impl x, tt))
}.

#[export] Instance stub_runtime_keeps_files tcl_rc tk_rc mount_rc tb kb :
  @RuntimeKeepsFiles (stub_runtime tcl_rc tk_rc mount_rc tb kb).
Proof. split; intros; intros x; simpl; repeat case_match; reflexivity. Qed.

Definition files_kept (w w' : world) : Prop := p_files (w_proc w') = p_files (w_proc w).

#[export] Instance files_kept_preorder : PreOrder files_kept.
Proof. split; [done | intros ??? H1 H2; unfold files_kept in *; congruence]. Qed.

Section FilesFrames.
Context `{!TclRuntime}.

Lemma files_kept_ext_call {A} fn args (f : ext → ext * A) :
  keeps_files f → preserved files_kept (ext_call fn args f).
Proof. intros Hf w. apply Hf. Qed.

Lemma files_kept_Tcl_SetVar2 a n v : preserved files_kept (Tcl_SetVar2 a n v).
Proof. intros w. unfold Tcl_SetVar2. by case_decide. Qed.
Lemma files_kept_Tcl_StaticPackage n b : preserved files_kept (Tcl_StaticPackage n b).
Proof. intros w. simpl. unfold files_kept, w_proc. simpl. by case_decide. Qed.
Lemma files_kept_upd_interp f w : files_kept w (upd_interp f w).
Proof. done. Qed.
Lemma files_kept_TclSetLibraryPath o : preserved files_kept (TclSetLibraryPath o).
Proof. by intros w. Qed.
Lemma files_kept_set_tk_load_failed v : preserved files_kept (set_tk_load_failed v).
Proof. by intros w. Qed.
End FilesFrames.

#[export] Hint Resolve files_kept_Tcl_SetVar2 files_kept_Tcl_StaticPackage files_kept_upd_interp
  files_kept_TclSetLibraryPath files_kept_set_tk_load_failed : tkinit.
#[export] Hint Extern 1 (preserved files_kept (ext_call _ _ _)) =>
  apply files_kept_ext_call;
  first [ apply files_Zvfs_Init | apply files_Zvfs_Mount | apply files_Tcl_Init
        | apply files_Tk_Init | apply files_Tk_MainWindow | apply files_bundle
        | apply files_AppleEvents | apply files_Menus | apply files_Imaging ] : tkinit.

Section KeepsFiles.
Context `{!TclRuntime, !RuntimeKeepsFiles} (cfg : config).

Lemma Tcl_AppInit_keeps_files : preserved files_kept (Tcl_AppInit cfg).
Proof.
  unfold Tcl_AppInit, aqua_tcl_library, aqua_tk_library, setup_zvfs, tk_phase,
    skip_tk_init_requested, tk_previously_failed, get_tk_load_failed, set_tk_library_paths,
    record_tk_failure, post_tk_init, register_static_packages,
    Zvfs_Init, Zvfs_Mount, Tcl_Init, Tk_Init, Tk_MainWindow, Tk_MacOSXOpenBundleResources,
    TkMacOSXInitAppleEvents, TkMacOSXInitMenus, TkImaging_Init.
  solve_preserved.
Qed.
End KeepsFiles.

(** ** No [Tcl_Init] call *)

(** The log of [w'] extends that of [w] by calls other than [Tcl_Init]. *)
Definition no_tcl_init (w w' : world) : Prop :=
  ∃ new, w_log w' = w_log w ++ new ∧ Forall (λ e, ev_fn e ≠ FTcl_Init) new.

#[export] Instance no_tcl_init_preorder : PreOrder no_tcl_init.
Proof.
  split; [intros w; exists []; by rewrite app_nil_r|].
  intros w1 w2 w3 (n1 & H1 & F1) (n2 & H2 & F2). exists (n1 ++ n2).
  rewrite H2, H1, app_assoc. split; [done | by apply Forall_app].
Qed.

Lemma no_tcl_init_upd_interp f w : no_tcl_init w (upd_interp f w).
Proof. exists []. by rewrite app_nil_r. Qed.
Lemma no_tcl_init_upd_proc f w : no_tcl_init w (upd_proc f w).
Proof. exists []. by rewrite app_nil_r. Qed.
Lemma no_tcl_init_set_tk_load_failed v : preserved no_tcl_init (set_tk_load_failed v).
Proof. intros w. exists []. by rewrite app_nil_r. Qed.

Lemma no_tcl_init_ext_call `{!TclRuntime} {A} fn args (f : ext → ext * A) :
  fn ≠ FTcl_Init → preserved no_tcl_init (ext_call fn args f).
Proof. intros Hfn w. exists [Ev fn args (w_ext w)]. split; [done | by repeat constructor]. Qed.

Section EngineFrames.
Context `{!TclRuntime}.
Lemma no_tcl_init_Zvfs_Init : preserved no_tcl_init Zvfs_Init.
Proof. by apply no_tcl_init_ext_call. Qed.
Lemma no_tcl_init_Zvfs_Mount a m : preserved no_tcl_init (Zvfs_Mount a m).
Proof. by apply no_tcl_init_ext_call. Qed.
Lemma no_tcl_init_Tk_Init : preserved no_tcl_init Tk_Init.
Proof. by apply no_tcl_init_ext_call. Qed.
Lemma no_tcl_init_Tk_MainWindow : preserved no_tcl_init Tk_MainWindow.
Proof. by apply no_tcl_init_ext_call. Qed.
Lemma no_tcl_init_bundle b l h : preserved no_tcl_init (Tk_MacOSXOpenBundleResources b l h).
Proof. by apply no_tcl_init_ext_call. Qed.
Lemma no_tcl_init_AppleEvents : preserved no_tcl_init TkMacOSXInitAppleEvents.
Proof. by apply no_tcl_init_ext_call. Qed.
Lemma no_tcl_init_Menus : preserved no_tcl_init TkMacOSXInitMenus.
Proof. by apply no_tcl_init_ext_call. Qed.
Lemma no_tcl_init_Imaging : preserved no_tcl_init TkImaging_Init.
Proof. by apply no_tcl_init_ext_call. Qed.
End EngineFrames.

#[export] Hint Resolve no_tcl_init_upd_interp no_tcl_init_upd_proc
  no_tcl_init_set_tk_load_failed no_tcl_init_Zvfs_Init no_tcl_init_Zvfs_Mount
  no_tcl_init_Tk_Init no_tcl_init_Tk_MainWindow no_tcl_init_bundle no_tcl_init_AppleEvents
  no_tcl_init_Menus no_tcl_init_Imaging : tkinit.
#[export] Hint Extern 1 (preserved no_tcl_init (ext_call _ _ _)) =>
  apply no_tcl_init_ext_call; discriminate : tkinit.

(** A [Tcl_Init] call that saw Tcl's library in the mount. *)
Definition tcl_init_mounted (e : event) : Prop :=
  ev_fn e = FTcl_Init →
  p_environ (x_proc (ev_at e)) !! "TCL_LIBRARY" = Some ZVFS_TCL_DIR ∧
  i_globals (x_interp (ev_at e)) !! "tcl_library" = Some ZVFS_TCL_DIR.

Lemma no_tcl_init_mounted {A} (m : TM A) (w w' : world) (a : A) :
  preserved no_tcl_init m → m w = CRet w' a →
  ∃ new, w_log w' = w_log w ++ new ∧ Forall tcl_init_mounted new.
Proof.
  intros Hm Hr. destruct (preserved_ret_state _ _ _ _ _ Hm Hr) as (new & Hn & F).
  exists new. split; [done|]. eapply Forall_impl; [exact F|]. by intros e He ?.
Qed.

(** ** One run *)
Section OneRun.
Context `{!TclRuntime, !RuntimeKeepsExe, !RuntimeKeepsFiles} (cfg : config).

#[local] Hint Resolve aqua_tcl_library_latch_kept : tkinit.

(** One run of [Tcl_AppInit], on any build, from a state whose executable
    carries a zip: every [Tcl_Init] call it logs saw the mounted paths. *)
Lemma Tcl_AppInit_tcl_init_mounted (w w' : world) (rc : Z) (path : string) (img : list byte) :
  p_exe (w_proc w) = Some path → p_files (w_proc w) !! path = Some img → zip_detect img = true →
  Tcl_AppInit cfg w = CRet w' rc →
  ∃ new, w_log w' = w_log w ++ new ∧ Forall tcl_init_mounted new.
Proof.
  intros He Hf Hd Hrun. unfold Tcl_AppInit in Hrun.
  apply cm_bind_ret_inv in Hrun as (w0 & s & R0 & Hrun).
  apply cm_bind_ret_inv in Hrun as (w1 & z & R1 & Hrun).
  apply cm_bind_ret_inv in Hrun as (w2 & r & R2 & Hrun).
  assert (Hk : exe_kept w w0 ∧ files_kept w w0).
  { split; (eapply preserved_ret_state; [|exact R0]);
      destruct (TK_AQUA cfg); [unfold aqua_tcl_library, Tk_MacOSXOpenBundleResources| |
                               unfold aqua_tcl_library, Tk_MacOSXOpenBundleResources|];
      solve_preserved. }
  destruct Hk as [Hk1 Hk2]. unfold exe_kept, files_kept in Hk1, Hk2.
  assert (He0 : p_exe (w_proc w0) = Some path) by congruence.
  assert (Hf0 : p_files (w_proc w0) !! path = Some img) by (rewrite Hk2; exact Hf).
  apply no_tcl_init_mounted in R0 as (n0 & L0 & F0);
    [|destruct (TK_AQUA cfg); [unfold aqua_tcl_library|]; solve_preserved].
  rewrite (setup_zvfs_readable w0 path img He0 Hf0), Hd in R1. injection R1 as <- <-.
  rewrite Tcl_Init_run in R2. injection R2 as <- <-.
  set (tcl_ev := Ev FTcl_Init [] (w_ext (zvfs_mounted_world w0))).
  assert (Ftcl : Forall tcl_init_mounted
            (n0 ++ [Ev FZvfs_Init [] (w_ext w0);
                    Ev FZvfs_Mount [p_exe (x_proc (Zvfs_Init_impl (w_ext w0)).1); Some ZVFS_MOUNT]
                       (Zvfs_Init_impl (w_ext w0)).1] ++ [tcl_ev])).
  { apply Forall_app; split; [done|]. simpl.
    repeat (apply Forall_cons; split); [by intros ? | by intros ? | | by constructor].
    intros _. split; [apply zvfs_mounted_environ | apply zvfs_mounted_globals]. }
  destruct (_ =? _)%Z.
  - injection Hrun as <- <-. eexists; split; [|exact Ftcl].
    cbn [w_log]. rewrite L0, <- !app_assoc. reflexivity.
  - assert (Hp : preserved no_tcl_init
             (cm_when (TK_AQUA cfg) (aqua_tk_library s) ≫= λ _, tk_phase cfg 1%Z)).
    { apply preserved_bind; try typeclasses eauto; [|intros ?].
      - destruct (TK_AQUA cfg); [unfold aqua_tk_library|]; solve_preserved.
      - unfold tk_phase, set_tk_library_paths, record_tk_failure, post_tk_init,
          register_static_packages, tk_previously_failed, get_tk_load_failed.
        solve_preserved. }
    destruct (no_tcl_init_mounted _ _ _ _ Hp Hrun) as (n3 & L3 & F3).
    eexists; split; [|apply Forall_app; split; [exact Ftcl | exact F3]].
    rewrite L3. cbn [w_log]. rewrite L0, <- !app_assoc. reflexivity.
Qed.
End OneRun.

(** ** Every interpreter of the process *)

(** The process records the executable [path] and its bytes [img]. *)
Definition image_in (path : string) (img : list byte) (s : pstate) : Prop :=
  p_exe (ps_proc s) = Some path ∧ p_files (ps_proc s) !! path = Some img.

Section Process.
Context `{!TclRuntime, !RuntimeKeepsExe, !RuntimeKeepsFiles} (cfg : config).

Lemma create_interp_mounted (path : string) (img : list byte) (i : interp) (s s' : pstate) :
  zip_detect img = true → image_in path img s → create_interp cfg i s = Some s' →
  image_in path img s' ∧ ∃ new, ps_log s' = ps_log s ++ new ∧ Forall tcl_init_mounted new.
Proof.
  intros Hd [He Hf] Hc. destruct (create_interp_inv cfg i _ _ Hc) as (w & rc & Hr & ->).
  pose proof (preserved_ret_state _ _ _ _ _ (Tcl_AppInit_keeps_exe cfg) Hr) as Hk1.
  pose proof (preserved_ret_state _ _ _ _ _ (Tcl_AppInit_keeps_files cfg) Hr) as Hk2.
  unfold exe_kept, files_kept in Hk1, Hk2.
  split; [split; [exact (eq_trans Hk1 He) | simpl; rewrite Hk2; exact Hf]|].
  exact (Tcl_AppInit_tcl_init_mounted cfg (start_world i s) _ _ path img He Hf Hd Hr).
Qed.

(** C27: in a process whose executable carries a zip (and whose engines
    leave the executable image alone), on every build, every [Tcl_Init]
    call of every interpreter created finds [env(TCL_LIBRARY)] and
    [tcl_library] set to [/zvfs/tcl8.6]: each interpreter redoes the mount
    and the path writes, whatever the mount answered. *)
Theorem process_tcl_init_always_mounted (path : string) (img : list byte) (s s' : pstate) :
  zip_detect img = true → image_in path img s → Forall tcl_init_mounted (ps_log s) →
  rtc (pstep cfg) s s' →
  image_in path img s' ∧ Forall tcl_init_mounted (ps_log s').
Proof.
  intros Hd Hi Hl Hrtc. revert Hi Hl.
  induction Hrtc as [a|a b c Hs _ IH]; intros Hi Hl; [done|]. destruct Hs as [i a b Hc].
  destruct (create_interp_mounted path img i a b Hd Hi Hc) as (Hi1 & new & Hn & Fn).
  apply IH; [done|]. rewrite Hn. by apply Forall_app.
Qed.
End Process.

(** ** The boundary of the detector *)

(** C28: the edge case the spec names: an executable of exactly 22 bytes
    that starts with the signature (a bare end-of-central-directory
    record) is detected: [fseek] to offset 0 succeeds, the 4 bytes read
    there match, and the zvfs mount is set up. *)
Theorem setup_zvfs_exact_22_bytes `{!TclRuntime} (w : world) (path : string) (img : list byte) :
  p_exe (w_proc w) = Some path → p_files (w_proc w) !! path = Some img →
  length img = 22 → take 4 img = zip_sig →
  setup_zvfs w = CRet (zvfs_mounted_world w) 1%Z.
Proof.
  intros He Hf Hlen Hsig. rewrite (setup_zvfs_readable w path img He Hf).
  unfold zip_detect. rewrite Hlen, Nat.sub_diag, drop_0, Hsig.
  by rewrite !bool_decide_eq_true_2.
Qed.

(** C23: (the [FIXME] of line 34) the detector reads 22 bytes before the
    end, so an archive whose end record carries a comment is missed: for
    every executable made of any bytes, the signature, any 18 bytes of
    record fields and a comment of 1 to 3 bytes (whatever they are),
    [setup_zvfs] returns 0 and writes nothing.  The bytes it compares
    start 1 to 3 bytes into the signature. *)
Theorem setup_zvfs_misses_short_comment `{!TclRuntime} (w : world) (path : string)
    (pre fields comment : list byte) :
  p_exe (w_proc w) = Some path →
  p_files (w_proc w) !! path = Some (pre ++ zip_sig ++ fields ++ comment) →
  length fields = 18 → 1 ≤ length comment ≤ 3 →
  setup_zvfs w = CRet w 0%Z.
Proof.
  intros He Hf Hl Hc. rewrite (setup_zvfs_readable w path _ He Hf). unfold zip_detect.
  rewrite !length_app, Hl.
  replace (length pre + (length zip_sig + (18 + length comment)) - 22)
    with (length pre + length comment) by (simpl; lia).
  rewrite drop_app_add. unfold zip_sig at 1 3.
  destruct comment as [|c1 [|c2 [|c3 [|c4 r]]]]; simpl in Hc; try lia; simpl;
    by rewrite andb_false_r.
Qed.

(** ** Without an archive *)
Section NoArchive.
Context `{!TclRuntime} (cfg : config).

Lemma setup_zvfs_no_archive (w : world) (path : string) :
  p_exe (w_proc w) = Some path → archive_present w = false → setup_zvfs w = CRet w 0%Z.
Proof.
  unfold archive_present. intros He. rewrite He.
  destruct (p_files (w_proc w) !! path) as [img|] eqn:Hf; intros Hd.
  - by rewrite (setup_zvfs_readable w path img He Hf), Hd.
  - exact (setup_zvfs_unopenable w path He Hf).
Qed.

(** The Tk phase of an unmounted run hands [Tk_Init], if it calls it, the
    state the phase started in. *)
Lemma tk_phase_unmounted_sees (w : world) :
  ∃ new, w_log (state_of (tk_phase cfg 0 w)) = w_log w ++ new ∧
    ∀ x, call_at FTk_Init new = Some x → x = w_ext w.
Proof.
  destruct (c_opt_streq (skip_var w) "1") eqn:Hs.
  { rewrite (tk_phase_skip_run cfg 0 w Hs). exists []. by rewrite app_nil_r. }
  destruct (TKINTER_PROTECT_LOADTK cfg && (c_true (tk_load_failed w) || c_opt_streq (failed_var w) "1"))
    eqn:Hf.
  { apply andb_true_iff in Hf as [Hp Hl]. rewrite (tk_phase_fail_fast_run cfg 0 w Hp Hs Hl).
    exists []. by rewrite app_nil_r. }
  rewrite (flags_off_tk_init cfg 0 w Hs Hf).
  destruct (preserved_state log_grows
    (if ((tk_init_at 0 w).2 =? TCL_ERROR)%Z then (_ ← record_tk_failure cfg; mret TCL_ERROR)
     else post_tk_init cfg) (after_tk_init 0 w)) as [post Hpost];
    [case_match; solve_preserved|].
  exists (Ev FTk_Init [] (w_ext w) :: post). rewrite Hpost. split; [unfold after_tk_init; simpl; by rewrite <- app_assoc|].
  rewrite call_at_hit. by intros x [= <-].
Qed.

(** C30: the no-op half of the library-path contract.  On a build without
    [TK_AQUA], when the executable carries no archive, the code writes
    nothing the engines could read: [Tcl_Init] is the first engine called
    and sees the interpreter exactly as it was created, and [Tk_Init], if
    it is called, sees exactly the state [Tcl_Init] left.  No library
    variable is redirected, so both engines use their own discovery. *)
Theorem Tcl_AppInit_no_archive_no_writes (w : world) (path : string) :
  TK_AQUA cfg = false → p_exe (w_proc w) = Some path → archive_present w = false →
  ∃ new, w_log (state_of (Tcl_AppInit cfg w)) = w_log w ++ Ev FTcl_Init [] (w_ext w) :: new ∧
    ∀ x, call_at FTk_Init new = Some x → x = (Tcl_Init_impl (w_ext w)).1.
Proof.
  intros Ha He Hn. unfold Tcl_AppInit. rewrite Ha, cm_ret_bind.
  rewrite (cm_bind_ok _ _ _ _ _ (setup_zvfs_no_archive w path He Hn)).
  rewrite (cm_bind_ok _ _ _ _ _ (Tcl_Init_run w)). destruct (_ =? _)%Z.
  - exists []. split; [reflexivity | done].
  - unfold cm_when. rewrite cm_ret_bind.
    match goal with |- context [tk_phase cfg 0 ?w2] =>
      destruct (tk_phase_unmounted_sees w2) as (new & Hl & Hx) end.
    exists new. split; [rewrite Hl; simpl; by rewrite <- app_assoc | exact Hx].
Qed.
End NoArchive.

(** ** Witnesses *)

(** Two interpreters in a process whose executable carries a zip and
    whose zvfs mount always fails. *)
Definition mount_fails_after1 : pstate :=
  default (initial_pstate zipped_image)
    (@create_interp rt_mount_fails cfg_protect empty_interp (initial_pstate zipped_image)).
Definition mount_fails_after2 : pstate :=
  default mount_fails_after1
    (@create_interp rt_mount_fails cfg_protect empty_interp mount_fails_after1).

Lemma process_tcl_init_always_mounted_witness :
  zip_detect zipped_image = true ∧
  image_in EXE zipped_image mount_fails_after2 ∧
  Forall (@tcl_init_mounted) (ps_log mount_fails_after2).
Proof.
  split; [vm_compute; reflexivity|].
  apply (@process_tcl_init_always_mounted rt_mount_fails (stub_runtime_keeps_exe _ _ _ _ _)
           (stub_runtime_keeps_files _ _ _ _ _) cfg_protect EXE zipped_image
           (initial_pstate zipped_image)).
  - vm_compute. reflexivity.
  - split; reflexivity.
  - constructor.
  - apply (rtc_l _ _ mount_fails_after1).
    { apply (@pstep_create rt_mount_fails cfg_protect empty_interp). vm_compute. reflexivity. }
    apply (rtc_l _ _ mount_fails_after2); [|apply rtc_refl].
    apply (@pstep_create rt_mount_fails cfg_protect empty_interp). vm_compute. reflexivity.
Defined.

Lemma setup_zvfs_exact_22_bytes_witness :
  length eocd_record = 22 ∧ take 4 eocd_record = zip_sig ∧
  @setup_zvfs rt_ok (world_with eocd_record) = CRet (@zvfs_mounted_world rt_ok (world_with eocd_record)) 1%Z.
Proof.
  split_and!; [reflexivity | reflexivity |].
  apply (@setup_zvfs_exact_22_bytes rt_ok (world_with eocd_record) EXE eocd_record);
    reflexivity.
Defined.

Lemma Tcl_AppInit_no_archive_no_writes_witness :
  TK_AQUA cfg_protect = false ∧ p_exe (w_proc (world_with plain_image)) = Some EXE ∧
  @archive_present (world_with plain_image) = false ∧
  ∃ new, w_log (state_of (@Tcl_AppInit rt_ok cfg_protect (world_with plain_image))) =
           w_log (world_with plain_image) ++ Ev FTcl_Init [] (w_ext (world_with plain_image)) :: new ∧
    ∀ x, call_at FTk_Init new = Some x → x = (@Tcl_Init_impl rt_ok (w_ext (world_with plain_image))).1.
Proof.
  split_and!; [reflexivity | reflexivity | vm_compute; reflexivity |].
  apply (@Tcl_AppInit_no_archive_no_writes rt_ok cfg_protect (world_with plain_image) EXE);
    [reflexivity | reflexivity | vm_compute; reflexivity].
Defined.

Lemma setup_zvfs_misses_short_comment_witness :
  @setup_zvfs rt_ok (world_with (plain_image ++ zip_sig ++ repeat Byte.x00 16 ++ [Byte.x02; Byte.x00]
                                 ++ [Byte.x68; Byte.x69])) =
    CRet (world_with (plain_image ++ zip_sig ++ repeat Byte.x00 16 ++ [Byte.x02; Byte.x00]
                      ++ [Byte.x68; Byte.x69])) 0%Z.
Proof.
  apply (@setup_zvfs_misses_short_comment rt_ok _ EXE plain_image
           (repeat Byte.x00 16 ++ [Byte.x02; Byte.x00]) [Byte.x68; Byte.x69]);
    [reflexivity | by rewrite <- !app_assoc | reflexivity | simpl; lia].
Defined.
