(* ===== verification/AllBuilds.v ===== *)
(** * The InitSequencer refinement on every build

    [Sequencer] proves that [Tcl_AppInit] refines the spec's InitSequencer
    on builds without [TK_AQUA], for any engines.  An Aqua build adds two
    stretches of code the abstract machine does not see: the Tcl bundle
    lookup before [setup_zvfs] (lines 81-103) and the Tk bundle lookup
    between [Tcl_Init] and the flag tests (lines 106-129).  They stay
    invisible when the engines keep the executable image ([RuntimeKeepsExe],
    [RuntimeKeepsFiles]: the archive test sees the same bytes) and the
    bundle lookup leaves the two [_tkinter_*] flags alone (the interface
    [BundleKeepsFlags] below): such a stretch is [quiet], it moves neither
    the latch nor the flags, and logs only bundle lookups.  Under these
    interfaces the refinement holds on every build whose Tcl bundle is
    found. *)

From S2P Require Import Prelude CLib Tcl Stubs Zvfs AppInit Sequencer Aqua Process Progress Mounts.
From Stdlib Require Import ZArith.

(** ** The bundle lookup keeps the flags *)

Definition flags_of (x : ext) : bool * bool :=
  (flag_is_1 x "_tkinter_skip_tk_init", flag_is_1 x "_tkinter_tk_failed").

(** What the macOS bundle lookup promises: it does not set or clear the
    two flags [_tkinter.create()] leaves for [Tcl_AppInit]. *)
Class BundleKeepsFlags `{!TclRuntime} : Prop :=
  bundle_keeps_flags b l h x : flags_of (Tk_MacOSXOpenBundleResources_impl b l h x).1 = flags_of x.

#[export] Instance stub_runtime_keeps_flags tcl_rc tk_rc mount_rc tb kb :
  @BundleKeepsFlags (stub_runtime tcl_rc tk_rc mount_rc tb kb).
Proof. intros b l h x. reflexivity. Qed.

(** ** Stretches the sequencer does not see *)

Definition quiet (w w' : world) : Prop :=
  tk_load_failed w' = tk_load_failed w ∧ flags_of (w_ext w') = flags_of (w_ext w) ∧
  ∃ new, w_log w' = w_log w ++ new ∧ Forall (λ e, ev_fn e = FTk_MacOSXOpenBundleResources) new.

#[export] Instance quiet_preorder : PreOrder quiet.
Proof.
  split; [intros w; split_and!; [done | done | exists []; by rewrite app_nil_r]|].
  intros w1 w2 w3 (L1 & G1 & n1 & H1 & F1) (L2 & G2 & n2 & H2 & F2).
  split_and!; [congruence | congruence |]. exists (n1 ++ n2).
  rewrite H2, H1, app_assoc. split; [done | by apply Forall_app].
Qed.

Lemma quiet_upd_proc f w : quiet w (upd_proc f w).
Proof. split_and!; [done | done | exists []; by rewrite app_nil_r]. Qed.

Lemma quiet_Tcl_SetVar n v :
  n ≠ "_tkinter_skip_tk_init" → n ≠ "_tkinter_tk_failed" → preserved quiet (Tcl_SetVar n v).
Proof.
  intros H1 H2 w. split_and!; [done | | exists []; by rewrite app_nil_r].
  unfold flags_of, flag_is_1. simpl. by rewrite !lookup_insert_ne by congruence.
Qed.

Lemma quiet_TclSetLibraryPath o : preserved quiet (TclSetLibraryPath o).
Proof. intros w. apply quiet_upd_proc. Qed.

Lemma quiet_bundle `{!TclRuntime, !BundleKeepsFlags} b l h :
  preserved quiet (Tk_MacOSXOpenBundleResources b l h).
Proof.
  intros w. split_and!; [done | apply bundle_keeps_flags |].
  exists [Ev FTk_MacOSXOpenBundleResources [Some b] (w_ext w)]. split; [done | by repeat constructor].
Qed.

#[export] Hint Resolve quiet_TclSetLibraryPath quiet_bundle : tkinit.
#[export] Hint Extern 1 (preserved quiet (Tcl_SetVar _ _)) =>
  apply quiet_Tcl_SetVar; discriminate : tkinit.

(** A quiet stretch logs no sequencer call and no engine initialiser. *)
Lemma bundle_events_unseen (new : list event) :
  Forall (λ e, ev_fn e = FTk_MacOSXOpenBundleResources) new →
  sequencer_calls new = [] ∧ Forall not_engine_init new.
Proof.
  induction 1 as [|e l He _ [IH1 IH2]]; [done|]. split.
  - rewrite sequencer_calls_cons, IH1. unfold sequencer_calls. simpl. by rewrite He.
  - constructor; [unfold not_engine_init; by rewrite He | done].
Qed.

(** The archive test reads only the executable name and the files. *)
Lemma archive_present_kept (w w' : world) :
  exe_kept w w' → files_kept w w' → archive_present w' = archive_present w.
Proof. unfold archive_present, exe_kept, files_kept. by intros -> ->. Qed.

Section Stretches.
Context `{!TclRuntime, !BundleKeepsFlags} (cfg : config).

Lemma aqua_tcl_library_quiet : preserved quiet aqua_tcl_library.
Proof. unfold aqua_tcl_library. solve_preserved. Qed.

Lemma aqua_tk_library_quiet (s : string) : preserved quiet (aqua_tk_library s).
Proof. unfold aqua_tk_library, TclGetLibraryPath. solve_preserved. Qed.
End Stretches.

#[export] Hint Resolve aqua_tcl_library_quiet aqua_tk_library_quiet : tkinit.

(** ** The refinement *)
Section AllBuilds.
Context `{!TclRuntime, !RuntimeKeepsExe, !RuntimeKeepsFiles, !BundleKeepsFlags} (cfg : config).

Lemma tcl_library_stage_frames :
  preserved (λ w w', quiet w w' ∧ exe_kept w w' ∧ files_kept w w')
    (if TK_AQUA cfg then aqua_tcl_library else mret "").
Proof.
  apply preserved_and; [|apply preserved_and];
    destruct (TK_AQUA cfg); unfold aqua_tcl_library; solve_preserved;
    unfold Tk_MacOSXOpenBundleResources; solve_preserved.
Qed.

(** Lines 81-105 on every build: the bundle lookup is quiet, and
    [setup_zvfs] then calls the zvfs driver exactly when the executable
    the process started with carries an archive. *)
Lemma prefix_follows (w : world) (path : string) :
  p_exe (w_proc w) = Some path → tcl_bundle_found cfg →
  ∃ w0 s w1 z pre, (if TK_AQUA cfg then aqua_tcl_library else mret "") w = CRet w0 s ∧
    (TK_AQUA cfg = true → c_nonempty s = true) ∧ setup_zvfs w0 = CRet w1 z ∧
    w_log w1 = w_log w ++ pre ∧ tk_load_failed w1 = tk_load_failed w ∧
    sequencer_calls pre = (if archive_present w then [FZvfs_Init; FZvfs_Mount] else []) ∧
    Forall not_engine_init pre.
Proof.
  intros Hp Hb. destruct (Tcl_AppInit_stage0 cfg w path Hp keeps_bundle Hb) as (w0 & s & R0 & Hs & He0).
  destruct (preserved_ret_state _ _ _ _ _ tcl_library_stage_frames R0)
    as ((L0 & _ & n0 & Hl0 & F0) & Hx & Hf).
  destruct (bundle_events_unseen n0 F0) as [C0 N0].
  destruct (setup_zvfs_follows w0 path He0) as (w1 & z & pre & Hs1 & Hl1 & L1 & C1 & N1).
  exists w0, s, w1, z, (n0 ++ pre). split_and!; try done.
  - by rewrite Hl1, Hl0, app_assoc.
  - congruence.
  - by rewrite sequencer_calls_app, C0, C1, (archive_present_kept w w0 Hx Hf).
  - by apply Forall_app.
Qed.

(** Lines 106-129: with a usable [tclLibPath] the Tk bundle block returns,
    quietly. *)
Lemma tk_library_stage_follows (s : string) (w : world) :
  (TK_AQUA cfg = true → c_nonempty s = true) →
  ∃ w', cm_when (TK_AQUA cfg) (aqua_tk_library s) w = CRet w' tt ∧ quiet w w'.
Proof.
  intros Hs. assert (∃ w', cm_when (TK_AQUA cfg) (aqua_tk_library s) w = CRet w' tt) as [w' Hw]
    by (destruct (TK_AQUA cfg); [by apply aqua_tk_library_returns, Hs | by eexists]).
  exists w'. split; [done|]. eapply preserved_ret_state; [|exact Hw].
  solve_preserved.
Qed.

(** C29: [Tcl_AppInit] refines the spec's InitSequencer on every build,
    Aqua included.  When the engines keep the executable image and the
    bundle lookup keeps the two flags, whenever the process records its
    executable name and an Aqua build finds its Tcl bundle, [Tcl_AppInit]
    returns and its run satisfies [sequencer_contract]: engine calls in
    the order of the phases [sequence] visits, the outcome's return code,
    the latch moved only by a fresh [Tk_Init] failure of a protected build,
    the stable message on a latched refusal.  The two bundle blocks of the
    Aqua branch are invisible to the abstract machine. *)
Theorem Tcl_AppInit_refines_sequencer_all_builds (w : world) (path : string) :
  p_exe (w_proc w) = Some path → tcl_bundle_found cfg →
  ∃ w' rc, Tcl_AppInit cfg w = CRet w' rc ∧
    sequencer_contract (TKINTER_PROTECT_LOADTK cfg) w rc w'.
Proof.
  intros He Hb. destruct (prefix_follows w path He Hb)
    as (w0 & s & w1 & z & pre & R0 & Hs & R1 & Hlog1 & Hl1 & Hc1 & Hpre).
  assert (Hpc : sequencer_calls (pre ++ [Ev FTcl_Init [] (w_ext w1)]) =
                trace_calls (scripting_phases (archive_present w))).
  { rewrite sequencer_calls_app, Hc1. by destruct (archive_present w). }
  unfold Tcl_AppInit. rewrite (cm_bind_ok _ _ _ _ _ R0), (cm_bind_ok _ _ _ _ _ R1).
  rewrite (cm_bind_ok _ _ _ _ _ (Tcl_Init_run w1)).
  destruct (Z.eqb_spec (Tcl_Init_impl (w_ext w1)).2 TCL_ERROR) as [Ht|Ht].
  - eexists _, _. split; [reflexivity|]. exists (pre ++ [Ev FTcl_Init [] (w_ext w1)]).
    cbn [w_log tk_load_failed]. rewrite Hlog1, app_assoc. split; [done|].
    rewrite observe_after_tcl, engine_ok_error by done.
    unfold sequence, run_matches. cbn [ob_tcl_ok ob_archive]. rewrite Hpc, Hl1.
    split_and!; try done. by rewrite latch_after_other.
  - match goal with |- context [(cm_when _ _ ≫= _) ?w2] =>
      destruct (tk_library_stage_follows s w2 Hs) as (w3 & R3 & L3 & G3 & mid & Hm3 & Fm) end.
    destruct (bundle_events_unseen mid Fm) as [Cm Nm].
    rewrite (cm_bind_ok _ _ _ _ _ R3).
    destruct (tk_phase_follows cfg z w3) as (w' & rc & new & Htk & Hlog & Hm).
    exists w', rc. split; [exact Htk|]. exists (pre ++ Ev FTcl_Init [] (w_ext w1) :: mid ++ new).
    cbn [w_log w_ext tk_load_failed flags_of] in L3, G3, Hm3. injection G3 as G3s G3f.
    split; [by rewrite Hlog, Hm3, Hlog1, <- !app_assoc|].
    rewrite observe_after_tcl, engine_ok_true, call_at_app_miss by (try done;
      by eapply Forall_impl; [exact Nm|]; intros ? []).
    unfold sequence. cbn [ob_tcl_ok ob_archive ob_skip ob_latched ob_tk_ok].
    rewrite G3s, G3f, L3, Hl1 in Hm. revert Hm.
    destruct (gui_sequence _ _ _ _) as [tr out]. intros Hm.
    replace (pre ++ Ev FTcl_Init [] (w_ext w1) :: mid ++ new)
      with (((pre ++ [Ev FTcl_Init [] (w_ext w1)]) ++ mid) ++ new) by by rewrite <- !app_assoc.
    apply run_matches_app; [by rewrite sequencer_calls_app, Cm, app_nil_r | exact Hm].
Qed.
End AllBuilds.

(** ** Witness *)

Lemma Tcl_AppInit_refines_sequencer_all_builds_witness :
  p_exe (w_proc (world_with zipped_image)) = Some EXE ∧ @tcl_bundle_found rt_aqua cfg_aqua ∧
  ∃ w' rc, @Tcl_AppInit rt_aqua cfg_aqua (world_with zipped_image) = CRet w' rc ∧
    @sequencer_contract rt_aqua true (world_with zipped_image) rc w'.
Proof.
  assert (Hb : @tcl_bundle_found rt_aqua cfg_aqua) by (intros _ l h x; reflexivity).
  split; [reflexivity|]. split; [exact Hb|].
  apply (@Tcl_AppInit_refines_sequencer_all_builds rt_aqua (stub_runtime_keeps_exe _ _ _ _ _)
           (stub_runtime_keeps_files _ _ _ _ _) (stub_runtime_keeps_flags _ _ _ _ _) cfg_aqua
           (world_with zipped_image) EXE); [reflexivity | exact Hb].
Defined.
