(* ===== verification/Runs.v ===== *)
(** * Whole runs of [Tcl_AppInit], observed through the log

    Properties of a run of [Tcl_AppInit] on any build, stated on what the
    run did rather than on what the engines would answer in other states:
    the run is split at its [Tcl_Init] call (the first one in its log),
    and each theorem assumes only what that call answered and the state it
    left.  Two consequences of the code's order:
    - a failing [Tcl_Init] ends the run on the spot, on every build;
    - on an Aqua build the Tk bundle block runs between [Tcl_Init] and the
      skip test, so an interpreter that asked to skip Tk still gets the Tk
      bundle's [tk_library]. *)

From S2P Require Import Prelude CLib Tcl Stubs Zvfs AppInit Sequencer Aqua Process LatchBound Progress Mounts AllBuilds.
From Stdlib Require Import ZArith.

(** The world right after the [Tcl_Init] call made in [w1]. *)
Definition after_tcl_init `{!TclRuntime} (w1 : world) : world :=
  mkWorld (Tcl_Init_impl (w_ext w1)).1 (tk_load_failed w1) (w_log w1 ++ [Ev FTcl_Init [] (w_ext w1)]).

(** In a log that extends [w]'s, the first [Tcl_Init] call is the one made
    in [w1] when only other calls were logged on the way to [w1]. *)
Lemma first_tcl_init `{!TclRuntime} (w w1 : world) (rest new : list event) (x : ext) :
  no_tcl_init w w1 → w_log w ++ new = w_log w1 ++ Ev FTcl_Init [] (w_ext w1) :: rest →
  call_at FTcl_Init new = Some x →
  x = w_ext w1 ∧ ∃ pre, new = pre ++ Ev FTcl_Init [] x :: rest ∧ w_log w1 = w_log w ++ pre.
Proof.
  intros (pre & Hl & F) Hn Hc. rewrite Hl, <- app_assoc in Hn. apply app_inv_head in Hn.
  subst new. rewrite call_at_app_miss, call_at_hit in Hc by done. injection Hc as <-. eauto.
Qed.

Section Split.
Context `{!TclRuntime} (cfg : config).

(** Every run of [Tcl_AppInit] reaches [Tcl_Init] in some [w1], having
    logged no other [Tcl_Init] and kept the latch; then either [Tcl_Init]
    failed and the run ended in the state it left, or the Aqua Tk block
    and the Tk phase ran from there. *)
Lemma Tcl_AppInit_split (w w' : world) (rc : Z) :
  Tcl_AppInit cfg w = CRet w' rc →
  ∃ s z w1 rest, no_tcl_init w w1 ∧ latch_kept w w1 ∧
    w_log w' = w_log w1 ++ Ev FTcl_Init [] (w_ext w1) :: rest ∧
    (((Tcl_Init_impl (w_ext w1)).2 = TCL_ERROR ∧ w' = after_tcl_init w1 ∧ rc = TCL_ERROR) ∨
     ((Tcl_Init_impl (w_ext w1)).2 ≠ TCL_ERROR ∧ ∃ w3,
        cm_when (TK_AQUA cfg) (aqua_tk_library s) (after_tcl_init w1) = CRet w3 tt ∧
        tk_phase cfg z w3 = CRet w' rc)).
Proof.
  unfold Tcl_AppInit. intros Hrun.
  apply cm_bind_ret_inv in Hrun as (w0 & s & R0 & Hrun).
  apply cm_bind_ret_inv in Hrun as (w1 & z & R1 & Hrun).
  apply cm_bind_ret_inv in Hrun as (w2 & r & R2 & Hrun).
  rewrite Tcl_Init_run in R2. injection R2 as <- <-.
  assert (Hf : no_tcl_init w w1 ∧ latch_kept w w1).
  { split; (etrans; (eapply preserved_ret_state; [|eassumption]));
      try (destruct (TK_AQUA cfg); [unfold aqua_tcl_library|]); unfold setup_zvfs; solve_preserved. }
  destruct (Z.eqb_spec (Tcl_Init_impl (w_ext w1)).2 TCL_ERROR) as [Ht|Ht].
  - injection Hrun as <- <-. exists s, z, w1, []. split_and!; [apply Hf.. | done | by left].
  - destruct (preserved_ret_state _ _ _ _ _ (ltac:(solve_preserved) :
      preserved log_grows (cm_when (TK_AQUA cfg) (aqua_tk_library s) ≫= λ _, tk_phase cfg z)) Hrun)
      as [rest Hl].
    apply cm_bind_ret_inv in Hrun as (w3 & [] & R3 & Hrun).
    exists s, z, w1, rest. split_and!; [apply Hf.. | by rewrite Hl; simpl; rewrite <- app_assoc |].
    right. eauto.
Qed.

(** The same split, located in a log [new] that extends [w]'s by the run:
    the first [Tcl_Init] of [new] is the one the run made. *)
Lemma Tcl_AppInit_split_at (w w' : world) (rc : Z) (new : list event) (x : ext) :
  Tcl_AppInit cfg w = CRet w' rc → w_log w' = w_log w ++ new → call_at FTcl_Init new = Some x →
  ∃ s z w1 pre rest, x = w_ext w1 ∧ new = pre ++ Ev FTcl_Init [] x :: rest ∧
    calls_to FTk_Init pre = 0 ∧ tk_load_failed w1 = tk_load_failed w ∧
    w_log w1 = w_log w ++ pre ∧ w_log w' = w_log w1 ++ Ev FTcl_Init [] x :: rest ∧
    (((Tcl_Init_impl x).2 = TCL_ERROR ∧ w' = after_tcl_init w1 ∧ rc = TCL_ERROR) ∨
     ((Tcl_Init_impl x).2 ≠ TCL_ERROR ∧ ∃ w3,
        cm_when (TK_AQUA cfg) (aqua_tk_library s) (after_tcl_init w1) = CRet w3 tt ∧
        tk_phase cfg z w3 = CRet w' rc)).
Proof.
  intros Hrun Hl Hc.
  destruct (Tcl_AppInit_split w w' rc Hrun) as (s & z & w1 & rest & Hn & [L1 C1] & Hl' & Hb).
  destruct (first_tcl_init w w1 rest new x Hn) as [-> (pre & -> & Hp)]; [congruence | done |].
  exists s, z, w1, pre, rest. split_and!; try done.
  rewrite Hp, calls_to_app in C1. lia.
Qed.
End Split.

(** What a returning run of the Tk bundle block logs and writes: one
    bundle lookup, and [tk_library] when the bundle was found. *)
Lemma aqua_tk_library_run `{!TclRuntime} (s : string) (w w' : world) :
  aqua_tk_library s w = CRet w' tt →
  let tk := (Tk_MacOSXOpenBundleResources_impl "com.tcltk.tklibrary" MAX_PATH_LEN 1 (w_ext w)).2 in
  w_log w' = w_log w ++ [Ev FTk_MacOSXOpenBundleResources [Some "com.tcltk.tklibrary"] (w_ext w)] ∧
  (c_nonempty tk = true → i_globals (w_interp w') !! "tk_library" = Some tk).
Proof.
  unfold aqua_tk_library, Tk_MacOSXOpenBundleResources, ext_call at 1, TclGetLibraryPath,
    TclSetLibraryPath.
  cm_unfold. simpl. intros Hrun.
  repeat case_match; simplify_eq/=; (split; [done | intros; try done]); apply lookup_insert_eq.
Qed.

Section Failures.
Context `{!TclRuntime} (cfg : config).

(** C15: a failing [Tcl_Init] ends the run on the spot, on every build:
    whenever the [Tcl_Init] call of a run answers [TCL_ERROR],
    [Tcl_AppInit] returns [TCL_ERROR], that call is the last one logged,
    the interpreter and process are exactly as [Tcl_Init] left them (no
    Tk path is written, no Tk block runs), and the latch is unchanged, so
    a new interpreter may retry. *)
Theorem Tcl_AppInit_tcl_init_fails (w w' : world) (rc : Z) (new : list event) (x : ext) :
  Tcl_AppInit cfg w = CRet w' rc → w_log w' = w_log w ++ new →
  call_at FTcl_Init new = Some x → (Tcl_Init_impl x).2 = TCL_ERROR →
  rc = TCL_ERROR ∧ w_ext w' = (Tcl_Init_impl x).1 ∧ last new = Some (Ev FTcl_Init [] x) ∧
  tk_load_failed w' = tk_load_failed w.
Proof.
  intros Hrun Hl Hc Ht.
  destruct (Tcl_AppInit_split_at cfg w w' rc new x Hrun Hl Hc)
    as (s & z & w1 & pre & rest & -> & -> & _ & L1 & _ & Hl' & [(_ & -> & ->) | [Ht' _]]);
    [|done].
  cbn [after_tcl_init w_log w_ext tk_load_failed] in Hl' |- *.
  apply app_inv_head in Hl'. injection Hl' as <-. by rewrite last_snoc.
Qed.
End Failures.

Section AquaSkip.
Context `{!TclRuntime, !BundleKeepsFlags} (cfg : config).

(** C24: on an Aqua build the Tk bundle block runs before the skip test.
    In every run whose [Tcl_Init] succeeds and leaves
    [_tkinter_skip_tk_init] at ["1"] (the bundle lookup keeping the flags),
    [Tcl_AppInit] returns [TCL_OK] without calling [Tk_Init], yet the run
    ends with a Tk bundle lookup made in the state [Tcl_Init] left, and
    when that bundle is found [tk_library] is set to its path. *)
Theorem Tcl_AppInit_aqua_skip_still_sets_tk_library (w w' : world) (rc : Z) (new : list event)
    (x : ext) :
  TK_AQUA cfg = true → Tcl_AppInit cfg w = CRet w' rc → w_log w' = w_log w ++ new →
  call_at FTcl_Init new = Some x → (Tcl_Init_impl x).2 ≠ TCL_ERROR →
  flag_is_1 (Tcl_Init_impl x).1 "_tkinter_skip_tk_init" = true →
  let tk := (Tk_MacOSXOpenBundleResources_impl "com.tcltk.tklibrary" MAX_PATH_LEN 1
               (Tcl_Init_impl x).1).2 in
  rc = TCL_OK ∧
  (∃ pre, new = pre ++ [Ev FTcl_Init [] x;
                        Ev FTk_MacOSXOpenBundleResources [Some "com.tcltk.tklibrary"] (Tcl_Init_impl x).1] ∧
          calls_to FTk_Init pre = 0) ∧
  (c_nonempty tk = true → i_globals (w_interp w') !! "tk_library" = Some tk).
Proof.
  intros Ha Hrun Hl Hc Ht Hs tk.
  destruct (Tcl_AppInit_split_at cfg w w' rc new x Hrun Hl Hc)
    as (s & z & w1 & pre & rest & -> & -> & C & _ & _ & Hl' & [[Ht' _] | (_ & w3 & R3 & R4)]);
    [done|].
  rewrite Ha in R3. cbn [cm_when] in R3.
  destruct (aqua_tk_library_run s _ _ R3) as [L3 T3].
  destruct (preserved_ret_state _ _ _ _ _ (aqua_tk_library_quiet s) R3) as (_ & Q & _).
  pose proof (f_equal fst Q) as Q'. cbn [flags_of fst after_tcl_init w_ext] in Q'.
  assert (Hs3 : c_opt_streq (skip_var w3) "1" = true).
  { change (flag_is_1 (w_ext w3) "_tkinter_skip_tk_init" = true). by rewrite Q'. }
  rewrite (tk_phase_skip_run cfg z w3 Hs3) in R4. injection R4 as <- <-.
  rewrite L3 in Hl'. cbn [after_tcl_init w_log w_ext] in Hl'.
  rewrite <- app_assoc in Hl'. apply app_inv_head in Hl'. injection Hl' as <-.
  split_and!; [done | by exists pre | exact T3].
Qed.
End AquaSkip.

(** ** Witnesses *)

(** An Aqua build whose [Tcl_Init] fails. *)
Definition rt_aqua_tcl_fails : TclRuntime := stub_runtime TCL_ERROR TCL_OK TCL_OK TCL_BUNDLE TK_BUNDLE.

Definition aqua_tcl_fails_world : world :=
  state_of (@Tcl_AppInit rt_aqua_tcl_fails cfg_aqua (world_with zipped_image)).
Definition aqua_tcl_fails_at : ext :=
  default (w_ext (world_with zipped_image)) (call_at FTcl_Init (w_log aqua_tcl_fails_world)).

Lemma Tcl_AppInit_tcl_init_fails_witness :
  @Tcl_AppInit rt_aqua_tcl_fails cfg_aqua (world_with zipped_image) =
    CRet aqua_tcl_fails_world TCL_ERROR ∧
  w_log aqua_tcl_fails_world = w_log (world_with zipped_image) ++ w_log aqua_tcl_fails_world ∧
  call_at FTcl_Init (w_log aqua_tcl_fails_world) = Some aqua_tcl_fails_at ∧
  (@Tcl_Init_impl rt_aqua_tcl_fails aqua_tcl_fails_at).2 = TCL_ERROR ∧
  TCL_ERROR = TCL_ERROR ∧
  w_ext aqua_tcl_fails_world = (@Tcl_Init_impl rt_aqua_tcl_fails aqua_tcl_fails_at).1 ∧
  last (w_log aqua_tcl_fails_world) = Some (Ev FTcl_Init [] aqua_tcl_fails_at) ∧
  tk_load_failed aqua_tcl_fails_world = tk_load_failed (world_with zipped_image).
Proof.
  assert (H1 : @Tcl_AppInit rt_aqua_tcl_fails cfg_aqua (world_with zipped_image) =
                 CRet aqua_tcl_fails_world TCL_ERROR) by (vm_compute; reflexivity).
  assert (H2 : w_log aqua_tcl_fails_world =
                 w_log (world_with zipped_image) ++ w_log aqua_tcl_fails_world) by reflexivity.
  assert (H3 : call_at FTcl_Init (w_log aqua_tcl_fails_world) = Some aqua_tcl_fails_at)
    by (vm_compute; reflexivity).
  assert (H4 : (@Tcl_Init_impl rt_aqua_tcl_fails aqua_tcl_fails_at).2 = TCL_ERROR)
    by (vm_compute; reflexivity).
  destruct (@Tcl_AppInit_tcl_init_fails rt_aqua_tcl_fails cfg_aqua _ _ _ _ _ H1 H2 H3 H4)
    as (R & E & L & K).
  do 4 (split; [assumption|]). exact (conj R (conj E (conj L K))).
Defined.

(** An Aqua build whose embedder asked to skip Tk. *)
Definition aqua_skip_world : world :=
  state_of (@Tcl_AppInit rt_aqua cfg_aqua (skip_world plain_image)).
Definition aqua_skip_at : ext :=
  default (w_ext (skip_world plain_image)) (call_at FTcl_Init (w_log aqua_skip_world)).

Lemma Tcl_AppInit_aqua_skip_still_sets_tk_library_witness :
  TK_AQUA cfg_aqua = true ∧
  @Tcl_AppInit rt_aqua cfg_aqua (skip_world plain_image) = CRet aqua_skip_world TCL_OK ∧
  call_at FTcl_Init (w_log aqua_skip_world) = Some aqua_skip_at ∧
  (@Tcl_Init_impl rt_aqua aqua_skip_at).2 ≠ TCL_ERROR ∧
  flag_is_1 (@Tcl_Init_impl rt_aqua aqua_skip_at).1 "_tkinter_skip_tk_init" = true ∧
  i_globals (w_interp aqua_skip_world) !! "tk_library" = Some TK_BUNDLE.
Proof.
  assert (H1 : @Tcl_AppInit rt_aqua cfg_aqua (skip_world plain_image) = CRet aqua_skip_world TCL_OK)
    by (vm_compute; reflexivity).
  assert (H2 : w_log aqua_skip_world = w_log (skip_world plain_image) ++ w_log aqua_skip_world)
    by reflexivity.
  assert (H3 : call_at FTcl_Init (w_log aqua_skip_world) = Some aqua_skip_at)
    by (vm_compute; reflexivity).
  assert (H4 : (@Tcl_Init_impl rt_aqua aqua_skip_at).2 ≠ TCL_ERROR) by (vm_compute; discriminate).
  assert (H5 : flag_is_1 (@Tcl_Init_impl rt_aqua aqua_skip_at).1 "_tkinter_skip_tk_init" = true)
    by (vm_compute; reflexivity).
  split; [reflexivity|]. do 4 (split; [assumption|]).
  destruct (@Tcl_AppInit_aqua_skip_still_sets_tk_library rt_aqua (stub_runtime_keeps_flags _ _ _ _ _)
              cfg_aqua _ _ _ _ _ eq_refl H1 H2 H3 H4 H5) as (_ & _ & Ht).
  exact (Ht eq_refl).
Defined.
